(** * seismic-zfp: the SZ random-access reader

    A shallow embedding of [seismic_zfp/utils.py], [seismic_zfp/seismicfile.py]
    and [seismic_zfp/read.py].  Python integers are [Z], [bytes] and
    [bytearray] values are lists of [byte], exceptions are the [Raise] branch
    of [result], and file handles are a seek position threaded through the
    [IO] monad together with a log of the reads and of the codec calls. *)

From Stdlib Require Import ZArith List Lia Bool Permutation.
From Stdlib Require Import Strings.Byte.
From Stdlib Require Strings.String.
Import ListNotations.
Open Scope Z_scope.

(** ** Python primitives *)

Inductive exn : Type :=
| FileNotFoundError
| ZeroDivisionError
| AssertionError
| ValueError
| OSError
| IndexError
| UnboundLocalError.

Inductive result (A : Type) : Type :=
| Ok (a : A)
| Raise (e : exn).
Arguments Ok {A} a.
Arguments Raise {A} e.

Definition bytes := list byte.

(** [a // b] *)
Definition py_floordiv (a b : Z) : result Z :=
  if b =? 0 then Raise ZeroDivisionError else Ok (a / b).

(** [a % b] *)
Definition py_mod (a b : Z) : result Z :=
  if b =? 0 then Raise ZeroDivisionError else Ok (a mod b).

(** [range(n)] *)
Definition range (n : Z) : list Z := map Z.of_nat (seq 0 (Z.to_nat n)).

(** How CPython clips one bound of a slice against the length. *)
Definition slice_index (len i : Z) : Z :=
  if i <? 0 then Z.max 0 (i + len) else Z.min i len.

(** [l[lo:hi]] *)
Definition py_slice {A : Type} (l : list A) (lo hi : Z) : list A :=
  let n := Z.of_nat (length l) in
  let s := slice_index n lo in
  let e := slice_index n hi in
  firstn (Z.to_nat (e - s)) (skipn (Z.to_nat s) l).

(** [buffer[lo:hi] = data] on a bytearray: the slice is replaced by [data],
    whatever its length. *)
Definition slice_assign {A : Type} (buffer : list A) (lo hi : Z) (data : list A)
  : list A :=
  let n := Z.of_nat (length buffer) in
  let s := slice_index n lo in
  let e := Z.max s (slice_index n hi) in
  firstn (Z.to_nat s) buffer ++ data ++ skipn (Z.to_nat e) buffer.

(** [bytearray(n)], for a size the platform serves: CPython raises
    OverflowError for a size that does not fit ssize_t and MemoryError for
    one the machine cannot allocate, which this model does not have; the
    theorems that assert the outcome of a call keep its sizes within the
    file's (see [header_in_file] and [file_complete]). *)
Definition bytearray (n : Z) : result bytes :=
  if n <? 0 then Raise ValueError else Ok (repeat x00 (Z.to_nat n)).

(** [a[i]] on one axis of a numpy array. *)
Definition np_index {A : Type} (a : list A) (i : Z) : result A :=
  let n := Z.of_nat (length a) in
  let j := if i <? 0 then i + n else i in
  if (j <? 0) || (n <=? j) then Raise IndexError
  else match nth_error a (Z.to_nat j) with
       | Some x => Ok x
       | None => Raise IndexError
       end.

Definition idx0 {A : Type} (t : A * A * A) : A := fst (fst t).
Definition idx1 {A : Type} (t : A * A * A) : A := snd (fst t).
Definition idx2 {A : Type} (t : A * A * A) : A := snd t.

(** ** utils.py *)

Definition pad (orig multiple : Z) : result Z :=
  if multiple =? 0 then Raise ZeroDivisionError
  else if orig mod multiple =? 0 then Ok orig
  else Ok (multiple * (orig / multiple + 1)).

Fixpoint bytes_to_int (bs : bytes) : Z :=
  match bs with
  | [] => 0
  | b :: rest => Z.of_N (Byte.to_N b) + 256 * bytes_to_int rest
  end.

(** ** Files and the IO monad *)

Inductive event : Type :=
| EvRead (offset length : Z)
| EvDecompress (buffer : bytes) (shape : Z * Z * Z) (rate : Z).

Record io_state : Type := mkIO { pos : Z; log : list event }.

Definition IO (A : Type) : Type := io_state -> result (A * io_state).

Definition ret {A : Type} (a : A) : IO A := fun s => Ok (a, s).

Definition bind {A B : Type} (m : IO A) (k : A -> IO B) : IO B :=
  fun s => match m s with
           | Ok (a, s') => k a s'
           | Raise e => Raise e
           end.

Definition lift {A : Type} (r : result A) : IO A :=
  fun s => match r with
           | Ok a => Ok (a, s)
           | Raise e => Raise e
           end.

Declare Scope io_scope.
Delimit Scope io_scope with io.
Notation "x <- m ;; k" := (bind m (fun x => k))
  (at level 61, m at next level, right associativity) : io_scope.
Notation "m ;; k" := (bind m (fun _ => k))
  (at level 61, right associativity) : io_scope.
Open Scope io_scope.

(** [for x in xs: acc = body(x, acc)] *)
Fixpoint for_each {A S : Type} (xs : list A) (body : A -> S -> IO S) (acc : S)
  : IO S :=
  match xs with
  | [] => ret acc
  | x :: rest => acc' <- body x acc ;; for_each rest body acc'
  end.

(** The same loop run as the target of a [threading.Thread]: an exception
    raised in a turn ends the thread, which reports it and does not raise
    it where the thread is joined; what the turns before it did stays. *)
Fixpoint thread_for_each {A S : Type} (xs : list A) (body : A -> S -> IO S)
    (acc : S) (s : io_state) : result (S * io_state) :=
  match xs with
  | [] => Ok (acc, s)
  | x :: rest =>
    match body x acc s with
    | Ok (acc', s') => thread_for_each rest body acc' s'
    | Raise _ => Ok (acc, s)
    end
  end.

Definition io_start : io_state := mkIO 0 [].

Definition value_of {A : Type} (r : result (A * io_state)) : result A :=
  match r with
  | Ok (a, _) => Ok a
  | Raise e => Raise e
  end.

Definition log_of {A : Type} (r : result (A * io_state)) : list event :=
  match r with
  | Ok (_, s) => log s
  | Raise _ => []
  end.

Definition reads_of (l : list event) : list (Z * Z) :=
  flat_map (fun e => match e with
                     | EvRead o n => [(o, n)]
                     | EvDecompress _ _ _ => []
                     end) l.

Section FileOps.
Variable file : bytes.

  (** [open(filename, 'rb')]: a fresh handle, positioned at the start. *)
Definition f_open : IO unit := fun s => Ok (tt, mkIO 0 (log s)).

  (** [f.seek(offset, 0)], for an offset that fits the platform's off_t: the
      operating system refuses a negative offset (OSError).  CPython raises
      ValueError for an offset that does not fit off_t, which this model does
      not have; the theorems that assert the outcome of a seek keep the
      offset within the file or state that it fits ([fits_off_t]). *)
Definition f_seek (offset : Z) : IO unit :=
    fun s => if offset <? 0 then Raise OSError
             else Ok (tt, mkIO offset (log s)).

  (** [f.read(n)]: at most [n] bytes from the current position, fewer at the
      end of the file, everything that is left when [n] is negative; for a
      size the platform serves (CPython allocates [n] bytes first and raises
      OverflowError or MemoryError when it cannot, which this model does not
      have; see [bytearray]). *)
Definition f_read (n : Z) : IO bytes :=
    fun s =>
      let rest := skipn (Z.to_nat (pos s)) file in
      let data := if n <? 0 then rest else firstn (Z.to_nat n) rest in
      Ok (data, mkIO (pos s + Z.of_nat (length data))
                     (log s ++ [EvRead (pos s) n])).
End FileOps.

(** ** read.py: SzReader *)

Definition DISK_BLOCK_BYTES : Z := 4096.

Record SzReader : Type := mkSzReader {
  header_blocks : Z;
  tracelength : Z;
  xlines : Z;
  ilines : Z;
  rate : Z;
  shape_pad : Z * Z * Z;
  blockshape : Z * Z * Z;
  unit_bytes : Z;
  block_bytes : Z;
  chunk_bytes : Z;
  data_start_bytes : Z
}.

(** [SzReader.__init__]; [fs] is what the file system holds under the file
    name, [None] when [os.path.exists] is false.  The [print] at the end has
    no effect on the reader and is left out. *)
Definition SzReader_init (fs : option bytes) : IO SzReader :=
  match fs with
  | None => lift (Raise FileNotFoundError)
  | Some file =>
    f_open ;;
    buffer <- f_read file DISK_BLOCK_BYTES ;;
    let header_blocks := bytes_to_int (py_slice buffer 0 4) in
    buffer <- (if header_blocks =? 1 then ret buffer
               else (f_seek 0 ;; f_read file (DISK_BLOCK_BYTES * header_blocks))) ;;
    let tracelength := bytes_to_int (py_slice buffer 4 8) in
    let xlines := bytes_to_int (py_slice buffer 8 12) in
    let ilines := bytes_to_int (py_slice buffer 12 16) in
    let rate := bytes_to_int (py_slice buffer 40 44) in
    p0 <- lift (pad ilines 4) ;;
    p1 <- lift (pad xlines 4) ;;
    bz <- lift (py_floordiv 2048 rate) ;;
    p2 <- lift (pad tracelength bz) ;;
    let shape_pad := (p0, p1, p2) in
    bz <- lift (py_floordiv 2048 rate) ;;
    let blockshape := (4, 4, bz) in
    let unit_bytes := ((4 * 4 * 4) * rate) / 8 in
    let block_bytes :=
      (idx0 blockshape * idx1 blockshape * idx2 blockshape * rate) / 8 in
    q <- lift (py_floordiv (idx2 shape_pad) (idx2 blockshape)) ;;
    let chunk_bytes := block_bytes * q in
    if negb (block_bytes =? DISK_BLOCK_BYTES) then lift (Raise AssertionError)
    else
      let data_start_bytes := header_blocks * DISK_BLOCK_BYTES in
      ret (mkSzReader header_blocks tracelength xlines ilines rate shape_pad
                      blockshape unit_bytes block_bytes chunk_bytes
                      data_start_bytes)
  end.

(** [np.array_split(ary, n)]: the first [len(ary) % n] sections hold
    [len(ary) // n + 1] elements, the others [len(ary) // n]. *)
Fixpoint split_sizes {A : Type} (sizes : list nat) (l : list A)
  : list (list A) :=
  match sizes with
  | [] => []
  | n :: rest => firstn n l :: split_sizes rest (skipn n l)
  end.

Definition array_split {A : Type} (ary : list A) (n : nat) : list (list A) :=
  let total := length ary in
  let each := (total / n)%nat in
  let extras := (total mod n)%nat in
  split_sizes (repeat (S each) extras ++ repeat each (n - extras)) ary.

Definition n_threads : nat := 32.

(** The unit ranges of the plan of [read_zslice], [block_ids], and the
    groups it hands to the workers it starts, [ranges], in the order in
    which it starts them. *)
Definition zslice_block_ids (self : SzReader) : list Z :=
  range ((idx0 (shape_pad self) / 4) * (idx1 (shape_pad self) / 4)).

Definition zslice_ranges (self : SzReader) : list (list Z) :=
  array_split (zslice_block_ids self) n_threads.

Fixpoint map_result {A B : Type} (f : A -> result B) (l : list A)
  : result (list B) :=
  match l with
  | [] => Ok []
  | x :: rest =>
    match f x with
    | Raise e => Raise e
    | Ok y => match map_result f rest with
              | Raise e => Raise e
              | Ok ys => Ok (y :: ys)
              end
    end
  end.

Section Reader.
  (** The file under [self.filename], the element type of the decoded arrays
      and pyzfp's [decompress(buffer, shape, dtype, rate)], which the reader
      only calls. *)
Variable file : bytes.
Variable V : Type.
Variable decompress : bytes -> Z * Z * Z -> Z -> list (list (list V)).

Definition call_decompress (buffer : bytes) (shape : Z * Z * Z) (rate : Z)
    : IO (list (list (list V))) :=
    fun s => Ok (decompress buffer shape rate,
                 mkIO (pos s) (log s ++ [EvDecompress buffer shape rate])).

Definition read_inline (self : SzReader) (il_id : Z) : IO (list (list V)) :=
    let il_block_offset :=
      ((chunk_bytes self * idx1 (shape_pad self)) / 4) * (il_id / 4) in
    f_open ;;
    f_seek (data_start_bytes self + il_block_offset) ;;
    buffer <- f_read file (chunk_bytes self * idx1 (shape_pad self)) ;;
    decompressed <-
      call_decompress buffer
        (idx0 (blockshape self), idx1 (shape_pad self), idx2 (shape_pad self))
        (rate self) ;;
    i <- lift (py_mod il_id (idx0 (blockshape self))) ;;
    plane <- lift (np_index decompressed i) ;;
    ret (map (fun row => py_slice row 0 (tracelength self))
             (py_slice plane 0 (xlines self))).

Definition read_crossline (self : SzReader) (xl_id : Z)
    : IO (list (list V)) :=
    let xl_first_chunk_offset := xl_id / 4 * chunk_bytes self in
    let xl_chunk_increment := chunk_bytes self * idx1 (shape_pad self) / 4 in
    buffer <- lift (bytearray (chunk_bytes self * idx0 (shape_pad self) / 4)) ;;
    f_open ;;
    buffer <-
      for_each (range (idx0 (shape_pad self) / 4))
        (fun chunk_num buffer =>
           f_seek (data_start_bytes self + xl_first_chunk_offset
                   + chunk_num * xl_chunk_increment) ;;
           data <- f_read file (chunk_bytes self) ;;
           ret (slice_assign buffer (chunk_num * chunk_bytes self)
                             ((chunk_num + 1) * chunk_bytes self) data))
        buffer ;;
    decompressed <-
      call_decompress buffer
        (idx0 (shape_pad self), idx1 (blockshape self), idx2 (shape_pad self))
        (rate self) ;;
    j <- lift (py_mod xl_id (idx1 (blockshape self))) ;;
    rows <- lift (map_result (fun plane => np_index plane j)
                             (py_slice decompressed 0 (ilines self))) ;;
    ret (map (fun row => py_slice row 0 (tracelength self)) rows).

  (** Modelled from the spec: [zslice_threadfunc] of
      [seismic_zfp/threadfuncs.py], which [read.py] imports and starts once
      per worker.  Section 4.4: each worker opens its own read handle and, for
      each range of its group, seeks and reads into its own slice of the
      shared buffer; section 4.2: the unit of chunk [block_num] lies at the
      chunk's base plus the offset of the block and of the unit within the
      block that hold the z index, and is [unit_bytes] long.  [zslice_step] is
      one turn of the worker's loop.  [read.py] runs the function only as
      the target of a [threading.Thread], hence [thread_for_each]: a turn
      that raises (a seek to a negative offset) ends the worker and nothing
      is raised in [read_zslice]. *)
Definition zslice_step
      (data_start_bytes zslice_first_block_offset block_bytes
       zslice_unit_in_block unit_bytes chunk_bytes : Z)
      (block_num : Z) (buffer : bytes) : IO bytes :=
    f_seek (data_start_bytes + zslice_first_block_offset * block_bytes
            + zslice_unit_in_block * unit_bytes + block_num * chunk_bytes) ;;
    data <- f_read file unit_bytes ;;
    ret (slice_assign buffer (block_num * unit_bytes)
                      ((block_num + 1) * unit_bytes) data).

Definition zslice_threadfunc
      (block_ids : list Z) (buffer : bytes)
      (data_start_bytes zslice_first_block_offset block_bytes
       zslice_unit_in_block unit_bytes chunk_bytes : Z) : IO bytes :=
    f_open ;;
    thread_for_each block_ids
      (zslice_step data_start_bytes zslice_first_block_offset block_bytes
                   zslice_unit_in_block unit_bytes chunk_bytes)
      buffer.

  (** The decode and trim at the end of [read_zslice]. *)
Definition zslice_decode (self : SzReader) (zslice_id : Z) (buffer : bytes)
    : IO (list (list V)) :=
    decompressed <-
      call_decompress buffer
        (idx0 (shape_pad self), idx1 (shape_pad self), 4) (rate self) ;;
    lift (map_result
            (fun plane =>
               map_result (fun row => np_index row (zslice_id mod 4))
                          (py_slice plane 0 (xlines self)))
            (py_slice decompressed 0 (ilines self))).

  (** [read_zslice], the workers taken one after the other in the order in
      which they are started; [gather_run] below runs them interleaved. *)
Definition read_zslice (self : SzReader) (zslice_id : Z)
    : IO (list (list V)) :=
    zslice_first_block_offset <-
      lift (py_floordiv zslice_id (idx2 (blockshape self))) ;;
    m <- lift (py_mod zslice_id (idx2 (blockshape self))) ;;
    let zslice_unit_in_block := m / 4 in
    buffer <-
      lift (bytearray (unit_bytes self * (idx0 (shape_pad self) / 4)
                       * (idx1 (shape_pad self) / 4))) ;;
    let ranges := zslice_ranges self in
    buffer <-
      for_each ranges
        (fun t_range buffer =>
           zslice_threadfunc t_range buffer (data_start_bytes self)
             zslice_first_block_offset (block_bytes self) zslice_unit_in_block
             (unit_bytes self) (chunk_bytes self))
        buffer ;;
    zslice_decode self zslice_id buffer.

Definition read_subvolume (self : SzReader)
      (min_il max_il min_xl max_xl min_z max_z : Z)
    : IO (list (list (list V))) :=
    let z_units := (max_z + 4) / 4 - min_z / 4 in
    let xl_units := (max_xl + 4) / 4 - min_xl / 4 in
    let il_units := (max_il + 4) / 4 - min_il / 4 in
    buffer <-
      lift (bytearray (z_units * xl_units * il_units * unit_bytes self)) ;;
    let read_length := unit_bytes self * z_units in
    f_open ;;
    buffer <-
      for_each (range il_units)
        (fun i buffer =>
           for_each (range xl_units)
             (fun x buffer =>
                f_seek (data_start_bytes self + unit_bytes self * (
                          (i + (min_il / 4)) * (idx1 (shape_pad self) / 4)
                                             * (idx2 (shape_pad self) / 4)
                          + (x + (min_xl / 4)) * (idx2 (shape_pad self) / 4)
                          + (min_z / 4))) ;;
                let buf_start :=
                  (i * xl_units * z_units + x * z_units) * unit_bytes self in
                let buf_end := buf_start + read_length in
                data <- f_read file read_length ;;
                ret (slice_assign buffer buf_start buf_end data))
             buffer)
        buffer ;;
    decompressed <-
      call_decompress buffer (il_units * 4, xl_units * 4, z_units * 4)
                      (rate self) ;;
    ret (map (fun plane =>
                map (fun row =>
                       py_slice row (min_z mod 4)
                                ((min_z mod 4) + max_z - min_z))
                    (py_slice plane (min_xl mod 4)
                              ((min_xl mod 4) + max_xl - min_xl)))
             (py_slice decompressed (min_il mod 4)
                       ((min_il mod 4) + max_il - min_il))).
End Reader.

(** The buffer handed to the codec, as the log shows it. *)
Definition decoded_buffers (l : list event) : list bytes :=
  flat_map (fun e => match e with
                     | EvRead _ _ => []
                     | EvDecompress b _ _ => [b]
                     end) l.

Definition decoded_shapes (l : list event) : list (Z * Z * Z) :=
  flat_map (fun e => match e with
                     | EvRead _ _ => []
                     | EvDecompress _ sh _ => [sh]
                     end) l.

(** ** Shapes of decoded arrays *)

Definition has_shape2 {V : Type} (a : list (list V)) (n0 n1 : Z) : Prop :=
  Z.of_nat (length a) = n0 /\
  Forall (fun row => Z.of_nat (length row) = n1) a.

Definition has_shape3 {V : Type} (a : list (list (list V))) (sh : Z * Z * Z)
  : Prop :=
  Z.of_nat (length a) = idx0 sh /\
  Forall (fun plane => has_shape2 plane (idx1 sh) (idx2 sh)) a.

Definition get2 {V : Type} (a : list (list V)) (i j : Z) : option V :=
  match nth_error a (Z.to_nat i) with
  | Some row => nth_error row (Z.to_nat j)
  | None => None
  end.

Definition get3 {V : Type} (a : list (list (list V))) (i j k : Z) : option V :=
  match nth_error a (Z.to_nat i) with
  | Some plane => get2 plane j k
  | None => None
  end.

(** ** Codecs *)

(** A codec that decodes each 4x4x4 unit on its own, from the unit's own
    [64 * rate / 8] bytes, the units taken in row-major order of the grid. *)
Definition blockwise_decompress {V : Type}
    (decode_unit : bytes -> Z -> Z -> Z -> V)
    (buffer : bytes) (shape : Z * Z * Z) (rate : Z) : list (list (list V)) :=
  let ub := 64 * rate / 8 in
  map (fun i =>
    map (fun j =>
      map (fun k =>
        let u := ((i / 4) * ((idx1 shape + 3) / 4) + j / 4)
                 * ((idx2 shape + 3) / 4) + k / 4 in
        decode_unit (py_slice buffer (u * ub) ((u + 1) * ub))
                    (i mod 4) (j mod 4) (k mod 4))
        (range (idx2 shape)))
      (range (idx1 shape)))
    (range (idx0 shape)).

(** A unit decoder for examples: the first byte of the unit and the place in
    the unit. *)
Definition tag_unit (unit : bytes) (i j k : Z) : Z * Z :=
  (bytes_to_int (firstn 1 unit), 16 * i + 4 * j + k).

(** A codec that is a function of the buffer and the shape, but not unit by
    unit: every value is the first byte of the whole buffer. *)
Definition first_byte_decompress (buffer : bytes) (shape : Z * Z * Z)
    (rate : Z) : list (list (list Z)) :=
  map (fun _ => map (fun _ => map (fun _ => bytes_to_int (firstn 1 buffer))
                                  (range (idx2 shape)))
                    (range (idx1 shape)))
      (range (idx0 shape)).

(** ** Sample files *)

Definition byte_of_Z (z : Z) : byte :=
  match Byte.of_N (Z.to_N (z mod 256)) with
  | Some b => b
  | None => x00
  end.

Definition le4 (n : Z) : bytes :=
  [byte_of_Z n; byte_of_Z (n / 256); byte_of_Z (n / 65536);
   byte_of_Z (n / 16777216)].

Definition sample_header (hb tl xl il rt : Z) : bytes :=
  le4 hb ++ le4 tl ++ le4 xl ++ le4 il ++ repeat x00 24 ++ le4 rt
      ++ repeat x00 (4096 - 44).

(** [n] bytes of data in which the bytes of the [u]-th run of [ub] bytes are
    all [u + 1]. *)
Definition sample_data (ub n : Z) : bytes :=
  map (fun p => byte_of_Z (p / ub + 1)) (range n).

(** 5 inlines, 6 crosslines, 250 samples at 8 bits per voxel: padded to
    8 x 8 x 256, four chunks of 4096 bytes, units of 64 bytes. *)
Definition sample_file : bytes :=
  sample_header 1 250 6 5 8 ++ sample_data 64 16384.

Definition sample_reader : SzReader :=
  mkSzReader 1 250 6 5 8 (8, 8, 256) (4, 4, 256) 64 4096 4096 4096.

(** 4 inlines, 4 crosslines, 256 samples at 8 bits per voxel: no padding,
    one chunk of 4096 bytes. *)
Definition aligned_file : bytes :=
  sample_header 1 256 4 4 8 ++ sample_data 64 4096.

Definition aligned_reader : SzReader :=
  mkSzReader 1 256 4 4 8 (4, 4, 256) (4, 4, 256) 64 4096 4096 4096.


(** ** What the specification says of a layout *)

(** What [__init__] computes from the header fields once they are parsed. *)
Definition pad_value (orig multiple : Z) : Z :=
  if orig mod multiple =? 0 then orig else multiple * (orig / multiple + 1).

(** The block size of the specification: the bytes of one
    4 x 4 x (2048 / bit_rate) block at [bit_rate] bits per voxel. *)
Definition derived_block_byte_size (bit_rate : Z) : Z :=
  4 * 4 * (2048 / bit_rate) * bit_rate / 8.

(** The specification's rounding of an extent up to the nearest multiple. *)
Definition rounded_up (extent multiple p : Z) : Prop :=
  p mod multiple = 0 /\ extent <= p < extent + multiple.

Definition layout_of (hb tl xl il rt : Z) : SzReader :=
  let bz := 2048 / rt in
  let p2 := pad_value tl bz in
  mkSzReader hb tl xl il rt (pad_value il 4, pad_value xl 4, p2) (4, 4, bz)
             (4 * 4 * 4 * rt / 8) (4 * 4 * bz * rt / 8)
             (4 * 4 * bz * rt / 8 * (p2 / bz)) (hb * DISK_BLOCK_BYTES).

(** The header buffer that [__init__] parses. *)
Definition header_buffer (file : bytes) : bytes :=
  let first := firstn (Z.to_nat DISK_BLOCK_BYTES) file in
  let hb := bytes_to_int (py_slice first 0 4) in
  if hb =? 1 then first else firstn (Z.to_nat (DISK_BLOCK_BYTES * hb)) file.


(** What holds of every reader that [__init__] returns. *)
Record wf_reader (r : SzReader) : Prop := mk_wf_reader {
  wf_header_blocks : 1 <= header_blocks r;
  wf_tracelength : 0 <= tracelength r;
  wf_xlines : 0 <= xlines r;
  wf_ilines : 0 <= ilines r;
  wf_rate : 0 < rate r;
  wf_bz : 0 < 2048 / rate r;
  wf_bz_rate : 2048 / rate r * rate r = 2048;
  wf_blockshape : blockshape r = (4, 4, 2048 / rate r);
  wf_unit_bytes : unit_bytes r = 8 * rate r;
  wf_block_bytes : block_bytes r = 4096;
  wf_chunk_bytes :
    chunk_bytes r = 4096 * (idx2 (shape_pad r) / (2048 / rate r));
  wf_data_start : data_start_bytes r = 4096 * header_blocks r;
  wf_pad0 : rounded_up (ilines r) 4 (idx0 (shape_pad r));
  wf_pad1 : rounded_up (xlines r) 4 (idx1 (shape_pad r));
  wf_pad2 : rounded_up (tracelength r) (2048 / rate r) (idx2 (shape_pad r))
}.

(** ** Reads and buffers *)

(** What [f.seek(off, 0)] followed by [f.read(n)] returns. *)
Definition pread (file : bytes) (off n : Z) : bytes :=
  let rest := skipn (Z.to_nat off) file in
  if n <? 0 then rest else firstn (Z.to_nat n) rest.

(** A buffer seen as a row of slots of [c] bytes each. *)
Definition slots_ok (c : nat) (bs : list bytes) : Prop :=
  Forall (fun b => length b = c) bs.

(** Slot [k] of a row replaced by [v]. *)
Definition set_slot {A : Type} (k : nat) (v : A) (l : list A) : list A :=
  firstn k l ++ v :: skipn (S k) l.

(** The file holds every chunk of the padded volume. *)
Definition file_complete (file : bytes) (r : SzReader) : Prop :=
  data_start_bytes r
  + (idx0 (shape_pad r) / 4) * (idx1 (shape_pad r) / 4) * chunk_bytes r
  <= Z.of_nat (length file).

(** The codec's contract (section 6 of the specification): the decoded array
    is dense and has the shape it was asked for. *)
Definition codec_shape_ok {V : Type}
    (decompress : bytes -> Z * Z * Z -> Z -> list (list (list V))) : Prop :=
  forall buffer shape rate,
    0 <= idx0 shape -> 0 <= idx1 shape -> 0 <= idx2 shape ->
    has_shape3 (decompress buffer shape rate) shape.

(** The number of 4-sample units [read_subvolume] takes along one axis. *)
Definition units (lo hi : Z) : Z := (hi + 4) / 4 - lo / 4.

(** Where [read_subvolume] seeks for the pair ([i], [x]) of its loops. *)
Definition subvolume_offset (self : SzReader) (min_il min_xl min_z i x : Z)
  : Z :=
  data_start_bytes self + unit_bytes self * (
    (i + (min_il / 4)) * (idx1 (shape_pad self) / 4)
                       * (idx2 (shape_pad self) / 4)
    + (x + (min_xl / 4)) * (idx2 (shape_pad self) / 4)
    + (min_z / 4)).

(** The buffer [read_subvolume] has assembled when its loops end. *)
Definition subvolume_buffer (file : bytes) (self : SzReader)
    (min_il max_il min_xl max_xl min_z max_z : Z) : bytes :=
  let z_units := units min_z max_z in
  let xl_units := units min_xl max_xl in
  let il_units := units min_il max_il in
  fold_left
    (fun buffer i =>
       fold_left
         (fun buffer x =>
            slice_assign buffer
              ((i * xl_units * z_units + x * z_units) * unit_bytes self)
              ((i * xl_units * z_units + x * z_units) * unit_bytes self
               + unit_bytes self * z_units)
              (pread file (subvolume_offset self min_il min_xl min_z i x)
                     (unit_bytes self * z_units)))
         (range xl_units) buffer)
    (range il_units)
    (repeat x00 (Z.to_nat (z_units * xl_units * il_units * unit_bytes self))).

(** The trim at the end of [read_subvolume]. *)
Definition subvolume_trim {V : Type} (decompressed : list (list (list V)))
    (min_il max_il min_xl max_xl min_z max_z : Z) : list (list (list V)) :=
  map (fun plane =>
         map (fun row =>
                py_slice row (min_z mod 4) ((min_z mod 4) + max_z - min_z))
             (py_slice plane (min_xl mod 4)
                       ((min_xl mod 4) + max_xl - min_xl)))
      (py_slice decompressed (min_il mod 4)
                ((min_il mod 4) + max_il - min_il)).

(** Where [read_crossline] seeks in turn [k] of its loop. *)
Definition crossline_offset (self : SzReader) (xl_id k : Z) : Z :=
  data_start_bytes self + xl_id / 4 * chunk_bytes self
  + k * (chunk_bytes self * idx1 (shape_pad self) / 4).

(** The buffer [read_crossline] has assembled when its loop ends. *)
Definition crossline_buffer (file : bytes) (self : SzReader) (xl_id : Z)
  : bytes :=
  fold_left
    (fun buffer k =>
       slice_assign buffer (k * chunk_bytes self) ((k + 1) * chunk_bytes self)
                    (pread file (crossline_offset self xl_id k)
                           (chunk_bytes self)))
    (range (idx0 (shape_pad self) / 4))
    (repeat x00 (Z.to_nat (chunk_bytes self * idx0 (shape_pad self) / 4))).

(** Where a worker of [read_zslice] seeks for the chunk [block_num]. *)
Definition zslice_offset (self : SzReader) (zslice_id block_num : Z) : Z :=
  data_start_bytes self
  + zslice_id / idx2 (blockshape self) * block_bytes self
  + zslice_id mod idx2 (blockshape self) / 4 * unit_bytes self
  + block_num * chunk_bytes self.

(** The buffer after the turns [schedule] of the workers' loops. *)
Definition zslice_fill (file : bytes) (self : SzReader) (zslice_id : Z)
    (schedule : list Z) (buffer : bytes) : bytes :=
  fold_left
    (fun buffer block_num =>
       slice_assign buffer (block_num * unit_bytes self)
                    ((block_num + 1) * unit_bytes self)
                    (pread file (zslice_offset self zslice_id block_num)
                           (unit_bytes self)))
    schedule buffer.

(** The buffer [read_zslice] allocates. *)
Definition zslice_zeros (self : SzReader) : bytes :=
  repeat x00 (Z.to_nat (unit_bytes self * (idx0 (shape_pad self) / 4)
                        * (idx1 (shape_pad self) / 4))).


(** The specification's count of units along one axis: the units of
    granularity 4 that meet [lo, hi), that is ceil(hi / 4) - floor(lo / 4). *)
Definition minimal_units (lo hi : Z) : Z := (hi + 3) / 4 - lo / 4.

(** The value a unit-by-unit codec gives the sample ([il], [xl], [z]): the
    unit of the sample decoded, at the sample's place in the unit. *)
Definition unit_value {V : Type} (decode_unit : bytes -> Z -> Z -> Z -> V)
    (file : bytes) (self : SzReader) (il xl z : Z) : V :=
  decode_unit (pread file (subvolume_offset self il xl z 0 0)
                     (unit_bytes self))
              (il mod 4) (xl mod 4) (z mod 4).

(** ** seismicfile.py *)

Module SeismicFile.
Import String.

Inductive Filetype : Type := SEGY | ZGY | VDS.

Definition Filetype_value (t : Filetype) : Z :=
  match t with
  | SEGY => 0
  | ZGY => 10
  | VDS => 30
  end.

(** The calls [open] makes into the two libraries. *)
Inductive call : Type :=
| SegyioOpen (filename : string)
| ZgyioOpen (filename : string).

(** What [open] returns: the library's handle with its [filetype] set. *)
Record handle (H : Type) : Type := mkHandle {
  library_handle : H;
  filetype : Filetype
}.
Arguments mkHandle {H} _ _.
Arguments library_handle {H} _.
Arguments filetype {H} _.

Section Open.
(** [os.path.splitext], [str.lower], [segyio.open(filename, mode='r',
    strict=False)] and [zgyio.open(filename)], which [open] only calls. *)
Variable splitext : string -> string * string.
Variable lower : string -> string.
Variable H : Type.
Variable segyio_open : string -> result H.
Variable zgyio_open : string -> result H.

(** [SeismicFile.open]: the calls made into the libraries, in order, and the
    outcome.  The local [ext] is bound only on the branch that assigns it;
    reading it unbound raises [UnboundLocalError]. *)
Definition open (filename : string) (filetype : option Filetype)
  : list call * result (handle H) :=
  let ext : option string :=
    match filetype with
    | None => Some (lower (snd (splitext filename)))
    | Some _ => None
    end in
  match ext with
  | None => ([], Raise UnboundLocalError)
  | Some ext =>
    if existsb (String.eqb ext) [".sgy"%string; ".segy"%string] then
      match segyio_open filename with
      | Raise e => ([SegyioOpen filename], Raise e)
      | Ok h => ([SegyioOpen filename], Ok (mkHandle h SEGY))
      end
    else if String.eqb ext ".zgy"%string then
      match zgyio_open filename with
      | Raise e => ([ZgyioOpen filename], Raise e)
      | Ok h => ([ZgyioOpen filename], Ok (mkHandle h ZGY))
      end
    else ([], Raise ValueError)
  end.
End Open.

End SeismicFile.

(** ** utils.py, the block shape *)

Definition is_2d (blockshape : Z * Z * Z) : bool :=
  (idx0 blockshape =? 1) || (idx1 blockshape =? 1) || (idx2 blockshape =? 1).

Definition define_blockshape (bits_per_voxel : Z) (blockshape : Z * Z * Z)
  : result (Z * (Z * Z * Z)) :=
  let factor := if is_2d blockshape then 2 else 8 in
  if bits_per_voxel =? -1 then
    match py_floordiv (4096 * factor)
            (idx0 blockshape * idx1 blockshape * idx2 blockshape) with
    | Raise e => Raise e
    | Ok bits => Ok (bits, blockshape)
    end
  else if idx0 blockshape =? -1 then
    match py_floordiv (4096 * factor)
            (idx1 blockshape * idx2 blockshape * bits_per_voxel) with
    | Raise e => Raise e
    | Ok b0 => Ok (bits_per_voxel, (b0, idx1 blockshape, idx2 blockshape))
    end
  else if idx1 blockshape =? -1 then
    match py_floordiv (4096 * factor)
            (idx2 blockshape * idx0 blockshape * bits_per_voxel) with
    | Raise e => Raise e
    | Ok b1 => Ok (bits_per_voxel, (idx0 blockshape, b1, idx2 blockshape))
    end
  else if idx2 blockshape =? -1 then
    match py_floordiv (4096 * factor)
            (idx0 blockshape * idx1 blockshape * bits_per_voxel) with
    | Raise e => Raise e
    | Ok b2 => Ok (bits_per_voxel, (idx0 blockshape, idx1 blockshape, b2))
    end
  else if bits_per_voxel * idx0 blockshape * idx1 blockshape * idx2 blockshape
          =? 4096 * factor
  then Ok (bits_per_voxel, blockshape)
  else Raise AssertionError.

(** ** utils.py, the encoder of header fields *)

(** The [len] low bytes of [n], least significant first. *)
Fixpoint le_bytes (len : nat) (n : Z) : bytes :=
  match len with
  | O => []
  | S k => byte_of_Z n :: le_bytes k (n / 256)
  end.

(** [n.to_bytes(len, byteorder='little')]; [None] stands for the
    OverflowError of an int that is negative or too big. *)
Definition int_to_bytes (n : Z) (len : nat) : option bytes :=
  if (n <? 0) || (256 ^ Z.of_nat len <=? n) then None
  else Some (le_bytes len n).

Section NpFloat.
(** numpy's floats and [numpy_float.astype(int)], which the encoder only
    calls. *)
Variable F : Type.
Variable astype_int : F -> Z.

Definition np_float_to_bytes (numpy_float : F) : option bytes :=
  int_to_bytes (astype_int numpy_float) 4.
End NpFloat.

(** ** Plans and buffers of the reads, for the properties below *)

(** The bits a codec of [rt] bits per voxel needs for an array of [shape]. *)
Definition shape_bits (shape : Z * Z * Z) (rt : Z) : Z :=
  idx0 shape * idx1 shape * idx2 shape * rt.

(** The ranges [read_subvolume] plans, in the order of its loops. *)
Definition subvolume_plan (self : SzReader)
    (min_il max_il min_xl max_xl min_z max_z : Z) : list (Z * Z) :=
  flat_map
    (fun i =>
       map (fun x => (subvolume_offset self min_il min_xl min_z i x,
                      unit_bytes self * units min_z max_z))
           (range (units min_xl max_xl)))
    (range (units min_il max_il)).

(** ** Runs that do not depend on earlier reads *)

(** Two runs agree: the same value and the same position in the file
    afterwards, or the same exception. *)
Definition same_outcome {A : Type} (r r' : result (A * io_state)) : Prop :=
  match r, r' with
  | Ok (a, t), Ok (a', t') => a = a' /\ pos t = pos t'
  | Raise e, Raise e' => e = e'
  | _, _ => False
  end.

(** A computation that looks at the position of the handle only, not at what
    was read or decoded before. *)
Definition history_free {A : Type} (m : IO A) : Prop :=
  forall s s', pos s = pos s' -> same_outcome (m s) (m s').

(** ** The requests the model covers *)

(** The header the file announces lies in the file: one block, which
    [__init__] reads whatever the file holds, or [header_blocks] blocks that
    the file has.  [__init__] asks for [4096 * header_blocks] bytes in one
    read; kept within the file, the request is one the platform serves. *)
Definition header_in_file (file : bytes) : Prop :=
  let header_blocks := bytes_to_int (py_slice file 0 4) in
  header_blocks = 1 \/
  DISK_BLOCK_BYTES * header_blocks <= Z.of_nat (length file).

(** An offset that fits the platform's off_t, a signed 64-bit integer. *)
Definition fits_off_t (offset : Z) : Prop := - 2 ^ 63 <= offset < 2 ^ 63.

(** ** The codec's contract, read strictly *)

(** Section 6 of the specification has the core supply exactly-sized
    buffers: for a buffer of exactly the bits the shape needs at the rate,
    the decoded array is dense and has the shape; nothing is said of any
    other buffer. *)
Definition codec_sized_ok {V : Type}
    (decompress : bytes -> Z * Z * Z -> Z -> list (list (list V))) : Prop :=
  forall buffer shape rate,
    0 <= idx0 shape -> 0 <= idx1 shape -> 0 <= idx2 shape ->
    Z.of_nat (length buffer) * 8 = shape_bits shape rate ->
    has_shape3 (decompress buffer shape rate) shape.

(** A codec that honours the strict contract and no more: the array of
    [first_byte_decompress] for an exactly-sized buffer, an empty array for
    any other. *)
Definition exact_size_decompress (buffer : bytes) (shape : Z * Z * Z)
    (rate : Z) : list (list (list Z)) :=
  if Z.of_nat (length buffer) * 8 =? shape_bits shape rate
  then first_byte_decompress buffer shape rate
  else [].

(** ** The workers of read_zslice, run concurrently *)


Section Gather.
Variable file : bytes.




End Gather.




(** ** Files that are cut short *)

(** The sample file cut 904 bytes into the second chunk, and 10 bytes into
    it. *)
Definition cut_in_chunk_file : bytes := firstn (Z.to_nat 9096) sample_file.


(** The header of the sample file with a bit rate of 0. *)
Definition rate_zero_file : bytes := sample_header 1 250 6 5 0.

(** * Properties *)

(** ** Slices *)

Lemma slice_index_nonneg (n i : Z) :
  0 <= i -> slice_index n i = Z.min i n.
Proof.
  intros Hi. unfold slice_index.
  destruct (Z.ltb_spec i 0); [lia | reflexivity].
Qed.

Lemma py_slice_nonneg {A : Type} (l : list A) (lo hi : Z) :
  0 <= lo -> 0 <= hi ->
  py_slice l lo hi = firstn (Z.to_nat (hi - lo)) (skipn (Z.to_nat lo) l).
Proof.
  intros Hlo Hhi. unfold py_slice.
  rewrite !slice_index_nonneg by assumption.
  destruct (Z.le_gt_cases (Z.of_nat (length l)) lo) as [Hge | Hlt].
  - rewrite (Z.min_r lo) by assumption.
    rewrite Nat2Z.id, skipn_all.
    rewrite (skipn_all2 l) by lia.
    now rewrite !firstn_nil.
  - rewrite (Z.min_l lo) by lia.
    destruct (Z.le_gt_cases hi (Z.of_nat (length l))) as [Hh | Hh].
    + now rewrite (Z.min_l hi) by assumption.
    + rewrite (Z.min_r hi) by lia.
      rewrite !firstn_all2; [reflexivity | |]; rewrite length_skipn; lia.
Qed.

Lemma length_py_slice {A : Type} (l : list A) (lo hi : Z) :
  0 <= lo -> lo <= hi -> hi <= Z.of_nat (length l) ->
  Z.of_nat (length (py_slice l lo hi)) = hi - lo.
Proof.
  intros Hlo Hhi Hlen.
  rewrite py_slice_nonneg by lia.
  rewrite length_firstn, length_skipn.
  lia.
Qed.

Lemma py_slice_firstn {A : Type} (l : list A) (n : nat) (lo hi : Z) :
  0 <= lo -> 0 <= hi -> hi <= Z.of_nat n ->
  py_slice (firstn n l) lo hi = py_slice l lo hi.
Proof.
  intros Hlo Hhi Hn.
  rewrite !py_slice_nonneg by assumption.
  rewrite skipn_firstn_comm, firstn_firstn.
  f_equal. lia.
Qed.

Lemma bytes_to_int_nonneg (bs : bytes) : 0 <= bytes_to_int bs.
Proof.
  induction bs as [| b rest IH]; cbn [bytes_to_int]; [lia |].
  pose proof (N2Z.is_nonneg (Byte.to_N b)). lia.
Qed.

(** ** The IO monad *)

Lemma bind_Ok {A B : Type} (m : IO A) (k : A -> IO B) s b s' :
  bind m k s = Ok (b, s') ->
  exists a s1, m s = Ok (a, s1) /\ k a s1 = Ok (b, s').
Proof.
  unfold bind. destruct (m s) as [[a s1] | e]; [| discriminate].
  intros H. now exists a, s1.
Qed.

Lemma lift_Ok {A : Type} (r : result A) s a s' :
  lift r s = Ok (a, s') -> r = Ok a /\ s' = s.
Proof.
  unfold lift. destruct r; [| discriminate].
  intros H. inversion H. now subst.
Qed.

Lemma pad_Ok (orig multiple p : Z) :
  pad orig multiple = Ok p ->
  multiple <> 0 /\
  p = if orig mod multiple =? 0 then orig
      else multiple * (orig / multiple + 1).
Proof.
  unfold pad. destruct (Z.eqb_spec multiple 0); [discriminate |].
  destruct (orig mod multiple =? 0); intros H; inversion H; auto.
Qed.

Lemma pad_round_up (orig multiple p : Z) :
  0 < multiple -> pad orig multiple = Ok p ->
  p mod multiple = 0 /\ orig <= p < orig + multiple.
Proof.
  intros Hm H. apply pad_Ok in H. destruct H as [_ ->].
  destruct (Z.eqb_spec (orig mod multiple) 0) as [E | E].
  - split; [assumption | lia].
  - split.
    + rewrite Z.mul_comm. apply Z_mod_mult.
    + pose proof (Z.mod_pos_bound orig multiple Hm).
      pose proof (Z_div_mod_eq_full orig multiple). nia.
Qed.

(** ** Opening a reader *)

Lemma SzReader_init_run (file : bytes) (s : io_state) :
  let buffer := header_buffer file in
  let hb := bytes_to_int (py_slice file 0 4) in
  let tl := bytes_to_int (py_slice buffer 4 8) in
  let xl := bytes_to_int (py_slice buffer 8 12) in
  let il := bytes_to_int (py_slice buffer 12 16) in
  let rt := bytes_to_int (py_slice buffer 40 44) in
  (exists s',
    SzReader_init (Some file) s =
    if (rt =? 0) || (2048 / rt =? 0) then Raise ZeroDivisionError
    else if 4 * 4 * (2048 / rt) * rt / 8 =? DISK_BLOCK_BYTES
         then Ok (layout_of hb tl xl il rt, s')
         else Raise AssertionError).
Proof.
  intros buffer hb tl xl il rt.
  assert (Hhb : bytes_to_int
                  (py_slice (firstn (Z.to_nat DISK_BLOCK_BYTES) file) 0 4) = hb).
  { unfold hb. f_equal. apply py_slice_firstn; unfold DISK_BLOCK_BYTES; lia. }
  unfold SzReader_init, bind at 1 2 3. unfold f_open at 1, f_read at 1.
  cbn [pos log].
  change (DISK_BLOCK_BYTES <? 0) with false. cbv iota.
  change (Z.to_nat 0) with 0%nat. rewrite skipn_O.
  rewrite Hhb.
  set (st1 := mkIO _ _).
  match goal with
  | |- exists _, match ?m with _ => _ end = _ =>
    assert (Hbuf : exists st2, m = Ok (buffer, st2))
  end.
  { unfold buffer, header_buffer. rewrite Hhb.
    destruct (hb =? 1) eqn:E1.
    - eexists. reflexivity.
    - unfold bind, f_seek, f_read. cbn [pos log].
      change (0 <? 0) with false. cbv iota.
      change (Z.to_nat 0) with 0%nat. rewrite skipn_O.
      assert (Hnn : (DISK_BLOCK_BYTES * hb <? 0) = false).
      { apply Z.ltb_ge. pose proof (bytes_to_int_nonneg (py_slice file 0 4)).
        unfold hb, DISK_BLOCK_BYTES. lia. }
      rewrite Hnn. eexists. reflexivity. }
  destruct Hbuf as [st2 Hbuf]. rewrite Hbuf.
  fold tl xl il rt.
  unfold bind, lift, pad, py_floordiv.
  unfold idx0, idx1, idx2. cbn [fst snd].
  change (4 =? 0) with false. cbv iota.
  destruct (Z.eqb_spec rt 0) as [Hr | Hr]; cbn [orb].
  { destruct (il mod 4 =? 0), (xl mod 4 =? 0); exists st2; reflexivity. }
  destruct (Z.eqb_spec (2048 / rt) 0) as [Hz | Hz].
  { destruct (il mod 4 =? 0), (xl mod 4 =? 0); exists st2; reflexivity. }
  exists st2. unfold layout_of, pad_value, ret.
  destruct (Z.eqb_spec (4 * 4 * (2048 / rt) * rt / 8) DISK_BLOCK_BYTES) as [Hb | Hb];
    cbn [negb];
    destruct (il mod 4 =? 0), (xl mod 4 =? 0), (tl mod (2048 / rt) =? 0);
    reflexivity.
Qed.

Lemma pad_value_rounded_up (orig multiple : Z) :
  0 < multiple -> rounded_up orig multiple (pad_value orig multiple).
Proof.
  intros Hm. unfold rounded_up, pad_value.
  destruct (Z.eqb_spec (orig mod multiple) 0) as [E | E].
  - split; [assumption | lia].
  - split.
    + rewrite Z.mul_comm. apply Z_mod_mult.
    + pose proof (Z.mod_pos_bound orig multiple Hm).
      pose proof (Z_div_mod_eq_full orig multiple). nia.
Qed.

Lemma header_buffer_cases (file : bytes) :
  header_buffer file = [] \/
  exists n : nat, 4096 <= Z.of_nat n /\ header_buffer file = firstn n file.
Proof.
  unfold header_buffer.
  set (hb := bytes_to_int _).
  destruct (Z.eqb_spec hb 1) as [E | E].
  - right. exists (Z.to_nat DISK_BLOCK_BYTES). split; [| reflexivity].
    unfold DISK_BLOCK_BYTES. lia.
  - pose proof (bytes_to_int_nonneg
                  (py_slice (firstn (Z.to_nat DISK_BLOCK_BYTES) file) 0 4)) as Hnn.
    fold hb in Hnn.
    destruct (Z.eq_dec hb 0) as [E0 | E0].
    + left. rewrite E0. reflexivity.
    + right. exists (Z.to_nat (DISK_BLOCK_BYTES * hb)). split; [| reflexivity].
      unfold DISK_BLOCK_BYTES. lia.
Qed.

Lemma header_buffer_slice (file : bytes) (lo hi : Z) :
  bytes_to_int (py_slice (header_buffer file) 40 44) <> 0 ->
  0 <= lo -> 0 <= hi -> hi <= 4096 ->
  py_slice (header_buffer file) lo hi = py_slice file lo hi.
Proof.
  intros Hrt Hlo Hhi Hle.
  destruct (header_buffer_cases file) as [E | [n [Hn E]]]; rewrite E in *.
  - exfalso. apply Hrt. reflexivity.
  - apply py_slice_firstn; lia.
Qed.

Lemma header_blocks_positive (file : bytes) :
  bytes_to_int (py_slice (header_buffer file) 40 44) <> 0 ->
  1 <= bytes_to_int (py_slice file 0 4).
Proof.
  intros Hrt.
  pose proof (bytes_to_int_nonneg (py_slice file 0 4)) as Hnn.
  destruct (Z.eq_dec (bytes_to_int (py_slice file 0 4)) 0) as [E | E]; [| lia].
  exfalso. apply Hrt. unfold header_buffer.
  rewrite py_slice_firstn by (unfold DISK_BLOCK_BYTES; lia).
  rewrite E. reflexivity.
Qed.

Lemma SzReader_init_Ok (file : bytes) (s s' : io_state) (r : SzReader) :
  SzReader_init (Some file) s = Ok (r, s') ->
  let rt := bytes_to_int (py_slice file 40 44) in
  rt <> 0 /\ 2048 / rt <> 0 /\ 4 * 4 * (2048 / rt) * rt / 8 = 4096 /\
  r = layout_of (bytes_to_int (py_slice file 0 4))
                (bytes_to_int (py_slice file 4 8))
                (bytes_to_int (py_slice file 8 12))
                (bytes_to_int (py_slice file 12 16)) rt.
Proof.
  intros H.
  destruct (SzReader_init_run file s) as [s1 Hrun]. rewrite Hrun in H. clear Hrun.
  destruct (Z.eqb_spec (bytes_to_int (py_slice (header_buffer file) 40 44)) 0)
    as [E0 | E0]; [discriminate |].
  pose proof (header_buffer_slice file) as Hs. specialize (fun lo hi => Hs lo hi E0).
  rewrite !Hs in H by lia. rewrite !Hs in E0 by lia.
  cbn [orb] in H.
  destruct (Z.eqb_spec (2048 / bytes_to_int (py_slice file 40 44)) 0)
    as [E1 | E1]; [discriminate |].
  destruct (Z.eqb_spec (4 * 4 * (2048 / bytes_to_int (py_slice file 40 44))
                        * bytes_to_int (py_slice file 40 44) / 8)
                       DISK_BLOCK_BYTES) as [E2 | E2]; [| discriminate].
  inversion H. subst. auto.
Qed.

Lemma SzReader_init_wf (file : bytes) (s s' : io_state) (r : SzReader) :
  SzReader_init (Some file) s = Ok (r, s') -> wf_reader r.
Proof.
  intros H.
  assert (Hhb : 1 <= bytes_to_int (py_slice file 0 4)).
  { destruct (SzReader_init_run file s) as [s1 Hrun]. rewrite Hrun in H.
    apply header_blocks_positive.
    destruct (Z.eqb_spec (bytes_to_int (py_slice (header_buffer file) 40 44)) 0);
      [discriminate | assumption]. }
  apply SzReader_init_Ok in H. cbv zeta in H.
  destruct H as (Hr & Hz & Hb & ->).
  set (rt := bytes_to_int (py_slice file 40 44)) in *.
  pose proof (bytes_to_int_nonneg (py_slice file 40 44)) as Hrt. fold rt in Hrt.
  assert (Hz' : 0 < 2048 / rt).
  { pose proof (Z.div_pos 2048 rt). lia. }
  assert (Hbr : 2048 / rt * rt = 2048).
  { replace (4 * 4 * (2048 / rt) * rt) with ((2 * (2048 / rt * rt)) * 8) in Hb
      by ring.
    rewrite Z.div_mul in Hb by lia. lia. }
  unfold layout_of.
  constructor; cbn [header_blocks tracelength xlines ilines rate shape_pad
                    blockshape unit_bytes block_bytes chunk_bytes
                    data_start_bytes]; unfold idx0, idx1, idx2; cbn [fst snd];
    fold rt;
    try assumption; try apply bytes_to_int_nonneg; try lia;
    try (apply pad_value_rounded_up; lia).
  - reflexivity.
  - replace (4 * 4 * 4 * rt) with (8 * rt * 8) by ring.
    now rewrite Z.div_mul by lia.
  - unfold DISK_BLOCK_BYTES. lia.
Qed.

(** C5: after a successful open the layout is a function of the header
    bytes at their fixed offsets: [header_blocks], [tracelength], [xlines],
    [ilines] and [rate] are the little-endian integers at bytes [0:4), [4:8),
    [8:12), [12:16) and [40:44), the data start at [header_blocks * 4096],
    the block shape is (4, 4, 2048 / rate) and every component of
    [shape_pad] is the extent rounded up to the nearest multiple of the block
    shape's component; the reader does not depend on the state the open
    started in. *)
Theorem layout_from_header (file : bytes) (s s' : io_state) (r : SzReader) :
  SzReader_init (Some file) s = Ok (r, s') ->
  header_blocks r = bytes_to_int (py_slice file 0 4) /\
  tracelength r = bytes_to_int (py_slice file 4 8) /\
  xlines r = bytes_to_int (py_slice file 8 12) /\
  ilines r = bytes_to_int (py_slice file 12 16) /\
  rate r = bytes_to_int (py_slice file 40 44) /\
  data_start_bytes r = header_blocks r * 4096 /\
  blockshape r = (4, 4, 2048 / rate r) /\
  rounded_up (ilines r) (idx0 (blockshape r)) (idx0 (shape_pad r)) /\
  rounded_up (xlines r) (idx1 (blockshape r)) (idx1 (shape_pad r)) /\
  rounded_up (tracelength r) (idx2 (blockshape r)) (idx2 (shape_pad r)) /\
  forall s2, value_of (SzReader_init (Some file) s2) = Ok r.
Proof.
  intros H.
  pose proof (SzReader_init_wf _ _ _ _ H) as W.
  pose proof (SzReader_init_Ok _ _ _ _ H) as I. cbv zeta in I.
  destruct I as (Hr & Hz & Hb & Hl).
  destruct W.
  rewrite wf_blockshape0. unfold idx0 at 1, idx1 at 1, idx2 at 1. cbn [fst snd].
  repeat split; try (rewrite Hl; reflexivity); try tauto; try lia;
    try apply wf_pad3; try apply wf_pad4; try apply wf_pad5.
  intros s2.
  destruct (SzReader_init_run file s2) as [s3 Hrun]. rewrite Hrun.
  destruct (SzReader_init_run file s) as [s4 Hrun']. rewrite Hrun' in H.
  destruct (_ || _); [discriminate |].
  destruct (_ =? _); [| discriminate].
  apply (f_equal value_of) in H. exact H.
Qed.

(** ** Buffers as rows of slots *)

Lemma slice_assign_app {A : Type} (p x d t : list A) (lo hi : Z) :
  lo = Z.of_nat (length p) -> hi = lo + Z.of_nat (length x) ->
  slice_assign (p ++ x ++ t) lo hi d = p ++ d ++ t.
Proof.
  intros -> ->. unfold slice_assign.
  rewrite !slice_index_nonneg by lia.
  rewrite !length_app.
  rewrite Z.min_l by lia. rewrite Z.min_l by lia.
  rewrite Z.max_r by lia.
  rewrite Nat2Z.id.
  rewrite firstn_app, firstn_all, Nat.sub_diag, firstn_O, app_nil_r.
  f_equal. f_equal.
  replace (Z.to_nat (Z.of_nat (length p) + Z.of_nat (length x)))
    with (length p + length x)%nat by lia.
  rewrite skipn_app, skipn_all2 by lia.
  replace (length p + length x - length p)%nat with (length x) by lia.
  rewrite skipn_app, skipn_all, Nat.sub_diag, skipn_O. reflexivity.
Qed.

Section Slots.
Variable c : nat.

Lemma length_concat_slots (bs : list bytes) :
    slots_ok c bs -> length (concat bs) = (length bs * c)%nat.
  Proof.
    induction 1 as [| b bs Hb _ IH]; cbn [concat length]; [reflexivity |].
    rewrite length_app, IH, Hb. lia.
  Qed.

Lemma slots_ok_firstn (k : nat) (bs : list bytes) :
    slots_ok c bs -> slots_ok c (firstn k bs).
  Proof.
    intros H. unfold slots_ok in *.
    rewrite <- (firstn_skipn k bs) in H. apply Forall_app in H. tauto.
  Qed.

Lemma slots_ok_skipn (k : nat) (bs : list bytes) :
    slots_ok c bs -> slots_ok c (skipn k bs).
  Proof.
    intros H. unfold slots_ok in *.
    rewrite <- (firstn_skipn k bs) in H. apply Forall_app in H. tauto.
  Qed.

Lemma slots_ok_set_slot (k : nat) (d : bytes) (bs : list bytes) :
    slots_ok c bs -> length d = c -> slots_ok c (set_slot k d bs).
  Proof.
    intros Hbs Hd. unfold set_slot, slots_ok. apply Forall_app. split.
    - now apply slots_ok_firstn.
    - constructor; [assumption | now apply slots_ok_skipn].
  Qed.

Lemma length_set_slot {A : Type} (k : nat) (v : A) (l : list A) :
    (k < length l)%nat -> length (set_slot k v l) = length l.
  Proof.
    intros Hk. unfold set_slot.
    rewrite length_app, length_firstn. cbn [length]. rewrite length_skipn. lia.
  Qed.

Lemma nth_error_set_slot {A : Type} (k i : nat) (v : A) (l : list A) :
    (k < length l)%nat ->
    nth_error (set_slot k v l) i = if Nat.eqb i k then Some v else nth_error l i.
  Proof.
    intros Hk. unfold set_slot.
    assert (Hf : length (firstn k l) = k) by (rewrite length_firstn; lia).
    destruct (Nat.eqb_spec i k) as [-> | Hne].
    - rewrite nth_error_app2 by lia. rewrite Hf, Nat.sub_diag. reflexivity.
    - destruct (Nat.lt_ge_cases i k) as [Hlt | Hge].
      + rewrite nth_error_app1 by lia. rewrite nth_error_firstn.
        destruct (Nat.ltb_spec i k); [reflexivity | lia].
      + rewrite nth_error_app2 by lia. rewrite Hf.
        destruct (i - k)%nat as [| j] eqn:Ej; [lia |].
        cbn [nth_error]. rewrite nth_error_skipn. f_equal. lia.
  Qed.

  (** Writing a full slot of a well-sized buffer replaces that slot. *)
Lemma slice_assign_slot (bs : list bytes) (k : nat) (d : bytes) :
    slots_ok c bs -> (k < length bs)%nat ->
    slice_assign (concat bs) (Z.of_nat k * Z.of_nat c)
                 ((Z.of_nat k + 1) * Z.of_nat c) d
    = concat (set_slot k d bs).
  Proof.
    intros Hbs Hk.
    destruct (nth_error bs k) as [x |] eqn:Ex;
      [| apply nth_error_None in Ex; lia].
    pose proof (firstn_skipn_middle k bs Ex) as Hsplit.
    assert (Hx : length x = c).
    { unfold slots_ok in Hbs. rewrite Forall_forall in Hbs.
      apply Hbs. eapply nth_error_In. eassumption. }
    rewrite <- Hsplit at 1.
    unfold set_slot. rewrite !concat_app. cbn [concat].
    apply slice_assign_app.
    - rewrite length_concat_slots by now apply slots_ok_firstn.
      rewrite length_firstn. lia.
    - rewrite Hx. lia.
  Qed.
End Slots.

Lemma concat_repeat_slots (c n : nat) :
  repeat x00 (n * c) = concat (repeat (repeat x00 c) n).
Proof.
  induction n as [| n IH]; cbn [repeat concat Nat.mul]; [reflexivity |].
  rewrite repeat_app. now rewrite IH.
Qed.

Lemma slots_ok_repeat (c n : nat) : slots_ok c (repeat (repeat x00 c) n).
Proof.
  unfold slots_ok. apply Forall_forall. intros b Hb.
  apply repeat_spec in Hb. subst. apply repeat_length.
Qed.

(** Filling slots in any order: what a slot holds at the end depends only on
    whether it was written. *)
Lemma nth_error_fill {A : Type} (v : nat -> A) (sched : list nat) :
  forall (l : list A) (i : nat),
  Forall (fun k => (k < length l)%nat) sched ->
  length (fold_left (fun acc k => set_slot k (v k) acc) sched l) = length l /\
  nth_error (fold_left (fun acc k => set_slot k (v k) acc) sched l) i
  = if existsb (Nat.eqb i) sched then Some (v i) else nth_error l i.
Proof.
  induction sched as [| k sched IH]; intros l i Hs; cbn [fold_left existsb].
  - split; reflexivity.
  - inversion Hs as [| ? ? Hk Hrest]; subst.
    assert (Hlen : length (set_slot k (v k) l) = length l)
      by now apply length_set_slot.
    destruct (IH (set_slot k (v k) l) i) as [IHl IHn].
    { rewrite Hlen. assumption. }
    split; [congruence |].
    rewrite IHn. rewrite nth_error_set_slot by assumption.
    destruct (existsb (Nat.eqb i) sched); [now rewrite orb_true_r |].
    rewrite orb_false_r.
    destruct (Nat.eqb_spec i k) as [-> | _]; reflexivity.
Qed.

Lemma fill_all_slots {A : Type} (v : nat -> A) (sched : list nat) (l : list A) :
  Permutation sched (seq 0 (length l)) ->
  fold_left (fun acc k => set_slot k (v k) acc) sched l
  = map v (seq 0 (length l)).
Proof.
  intros Hp.
  assert (Hs : Forall (fun k => (k < length l)%nat) sched).
  { apply Forall_forall. intros k Hk.
    apply (Permutation_in _ Hp) in Hk. apply in_seq in Hk. lia. }
  apply nth_error_ext. intros i.
  destruct (nth_error_fill v sched l i Hs) as [Hlen Hn]. rewrite Hn.
  destruct (Nat.lt_ge_cases i (length l)) as [Hlt | Hge].
  - assert (Hin : In i sched).
    { apply (Permutation_in _ (Permutation_sym Hp)). apply in_seq. lia. }
    assert (He : existsb (Nat.eqb i) sched = true).
    { apply existsb_exists. exists i. split; [assumption | apply Nat.eqb_refl]. }
    rewrite He. symmetry.
    rewrite nth_error_map, nth_error_seq.
    destruct (Nat.ltb_spec i (length l)); [reflexivity | lia].
  - assert (He : existsb (Nat.eqb i) sched = false).
    { destruct (existsb (Nat.eqb i) sched) eqn:E; [| reflexivity].
      apply existsb_exists in E. destruct E as [k [Hk Hik]].
      apply Nat.eqb_eq in Hik. subst k.
      rewrite Forall_forall in Hs. specialize (Hs _ Hk). lia. }
    rewrite He.
    transitivity (@None A).
    + apply nth_error_None. assumption.
    + symmetry. apply nth_error_None. rewrite length_map, length_seq. assumption.
Qed.

(** ** Running reads *)

Lemma seek_read_run {B : Type} (file : bytes) (off n : Z) (k : bytes -> IO B)
    (s : io_state) :
  0 <= off ->
  (f_seek off ;; data <- f_read file n ;; k data) s
  = k (pread file off n)
      (mkIO (off + Z.of_nat (length (pread file off n)))
            (log s ++ [EvRead off n])).
Proof.
  intros Hoff. unfold bind, f_seek, f_read, pread.
  destruct (Z.ltb_spec off 0); [lia |]. reflexivity.
Qed.

Lemma for_each_run {A S : Type} (xs : list A) (body : A -> S -> IO S)
    (g : A -> S -> S) (evs : A -> list event) :
  (forall x acc s, In x xs ->
     exists p, body x acc s = Ok (g x acc, mkIO p (log s ++ evs x))) ->
  forall acc s, exists p,
    for_each xs body acc s
    = Ok (fold_left (fun a x => g x a) xs acc,
          mkIO p (log s ++ flat_map evs xs)).
Proof.
  induction xs as [| x xs IH]; intros Hbody acc s; cbn [for_each fold_left flat_map].
  - exists (pos s). unfold ret. rewrite app_nil_r. now destruct s.
  - destruct (Hbody x acc s (or_introl eq_refl)) as [p Hx].
    unfold bind. rewrite Hx.
    destruct (IH (fun y a t Hy => Hbody y a t (or_intror Hy)) (g x acc)
                 (mkIO p (log s ++ evs x))) as [p' Hrest].
    exists p'. rewrite Hrest. cbn [log]. now rewrite app_assoc.
Qed.

Lemma thread_for_each_run {A S : Type} (xs : list A) (body : A -> S -> IO S)
    (g : A -> S -> S) (evs : A -> list event) :
  (forall x acc s, In x xs ->
     exists p, body x acc s = Ok (g x acc, mkIO p (log s ++ evs x))) ->
  forall acc s, exists p,
    thread_for_each xs body acc s
    = Ok (fold_left (fun a x => g x a) xs acc,
          mkIO p (log s ++ flat_map evs xs)).
Proof.
  induction xs as [| x xs IH]; intros Hbody acc s;
    cbn [thread_for_each fold_left flat_map].
  - exists (pos s). rewrite app_nil_r. now destruct s.
  - destruct (Hbody x acc s (or_introl eq_refl)) as [p Hx].
    rewrite Hx.
    destruct (IH (fun y a t Hy => Hbody y a t (or_intror Hy)) (g x acc)
                 (mkIO p (log s ++ evs x))) as [p' Hrest].
    exists p'. rewrite Hrest. cbn [log]. now rewrite app_assoc.
Qed.

Lemma In_range (n k : Z) : In k (range n) <-> 0 <= k < n.
Proof.
  unfold range. rewrite in_map_iff. split.
  - intros [i [<- Hi]]. apply in_seq in Hi. lia.
  - intros Hk. exists (Z.to_nat k). split; [lia |]. apply in_seq. lia.
Qed.

Lemma length_range (n : Z) : 0 <= n -> Z.of_nat (length (range n)) = n.
Proof. intros Hn. unfold range. rewrite length_map, length_seq. lia. Qed.

Lemma length_pread (file : bytes) (off n : Z) :
  0 <= off -> 0 <= n -> off + n <= Z.of_nat (length file) ->
  length (pread file off n) = Z.to_nat n.
Proof.
  intros Hoff Hn Hlen. unfold pread.
  destruct (Z.ltb_spec n 0); [lia |].
  rewrite length_firstn, length_skipn. lia.
Qed.

(** ** Shapes *)

Lemma In_firstn {A : Type} (n : nat) (l : list A) (x : A) :
  In x (firstn n l) -> In x l.
Proof.
  intros H. rewrite <- (firstn_skipn n l). apply in_or_app. now left.
Qed.

Lemma In_skipn {A : Type} (n : nat) (l : list A) (x : A) :
  In x (skipn n l) -> In x l.
Proof.
  intros H. rewrite <- (firstn_skipn n l). apply in_or_app. now right.
Qed.

Lemma In_py_slice {A : Type} (l : list A) (lo hi : Z) (x : A) :
  In x (py_slice l lo hi) -> In x l.
Proof.
  unfold py_slice. intros H. apply In_firstn in H. now apply In_skipn in H.
Qed.

Lemma np_index_Ok {A : Type} (a : list A) (i : Z) :
  0 <= i < Z.of_nat (length a) ->
  exists x, np_index a i = Ok x /\ nth_error a (Z.to_nat i) = Some x.
Proof.
  intros Hi. unfold np_index.
  destruct (Z.ltb_spec i 0); [lia |].
  destruct (Z.ltb_spec i 0); [lia |].
  destruct (Z.leb_spec (Z.of_nat (length a)) i); [lia |].
  cbn [orb].
  destruct (nth_error a (Z.to_nat i)) as [x |] eqn:E.
  - now exists x.
  - apply nth_error_None in E. lia.
Qed.

Lemma map_result_Ok {A B : Type} (f : A -> result B) (l : list A)
    (P : B -> Prop) :
  (forall x, In x l -> exists y, f x = Ok y /\ P y) ->
  exists ys, map_result f l = Ok ys /\ length ys = length l /\ Forall P ys.
Proof.
  induction l as [| x l IH]; intros H; cbn [map_result].
  - exists []. repeat split. constructor.
  - destruct (H x (or_introl eq_refl)) as [y [Hy Py]]. rewrite Hy.
    destruct (IH (fun z Hz => H z (or_intror Hz))) as [ys [Hys [Hl HP]]].
    rewrite Hys. exists (y :: ys). repeat split.
    + cbn [length]. now rewrite Hl.
    + now constructor.
Qed.

Lemma has_shape3_plane {V : Type} (a : list (list (list V))) (sh : Z * Z * Z)
    (plane : list (list V)) :
  has_shape3 a sh -> In plane a -> has_shape2 plane (idx1 sh) (idx2 sh).
Proof.
  intros [_ H] Hin. rewrite Forall_forall in H. now apply H.
Qed.

Lemma has_shape2_row {V : Type} (a : list (list V)) (n0 n1 : Z)
    (row : list V) :
  has_shape2 a n0 n1 -> In row a -> Z.of_nat (length row) = n1.
Proof.
  intros [_ H] Hin. rewrite Forall_forall in H. now apply H.
Qed.

(** Trimming the two axes of a plane. *)
Lemma has_shape2_trim {V : Type} (plane : list (list V))
    (n0 n1 lo0 hi0 lo1 hi1 : Z) :
  has_shape2 plane n0 n1 ->
  0 <= lo0 <= hi0 -> hi0 <= n0 -> 0 <= lo1 <= hi1 -> hi1 <= n1 ->
  has_shape2 (map (fun row => py_slice row lo1 hi1) (py_slice plane lo0 hi0))
             (hi0 - lo0) (hi1 - lo1).
Proof.
  intros Hp H0 H0' H1 H1'. pose proof Hp as [Hl Hr]. split.
  - rewrite length_map. apply length_py_slice; lia.
  - apply Forall_map. apply Forall_forall. intros row Hin.
    apply In_py_slice in Hin.
    pose proof (has_shape2_row _ _ _ _ Hp Hin).
    apply length_py_slice; lia.
Qed.

Lemma has_shape3_trim {V : Type} (a : list (list (list V))) (sh : Z * Z * Z)
    (lo0 hi0 lo1 hi1 lo2 hi2 : Z) :
  has_shape3 a sh ->
  0 <= lo0 <= hi0 -> hi0 <= idx0 sh ->
  0 <= lo1 <= hi1 -> hi1 <= idx1 sh ->
  0 <= lo2 <= hi2 -> hi2 <= idx2 sh ->
  has_shape3
    (map (fun plane =>
            map (fun row => py_slice row lo2 hi2) (py_slice plane lo1 hi1))
         (py_slice a lo0 hi0))
    (hi0 - lo0, hi1 - lo1, hi2 - lo2).
Proof.
  intros Ha H0 H0' H1 H1' H2 H2'. pose proof Ha as [Hl Hp].
  split; unfold idx0, idx1, idx2; cbn [fst snd].
  - rewrite length_map. apply length_py_slice; lia.
  - apply Forall_map. apply Forall_forall. intros plane Hin.
    apply In_py_slice in Hin.
    eapply has_shape2_trim; try eassumption.
    eapply has_shape3_plane; eassumption.
Qed.

Lemma wf_facts (r : SzReader) :
  wf_reader r ->
  exists p0 p1 p2 bz,
    shape_pad r = (p0, p1, p2) /\ blockshape r = (4, 4, bz) /\
    bz = 2048 / rate r /\ 0 < bz /\ 0 < rate r /\ bz * rate r = 2048 /\
    unit_bytes r = 8 * rate r /\ block_bytes r = 4096 /\
    chunk_bytes r = 4096 * (p2 / bz) /\ 0 <= p2 / bz /\
    4096 <= data_start_bytes r /\
    0 <= ilines r /\ 0 <= xlines r /\ 0 <= tracelength r /\
    p0 mod 4 = 0 /\ ilines r <= p0 < ilines r + 4 /\
    p1 mod 4 = 0 /\ xlines r <= p1 < xlines r + 4 /\
    p2 mod bz = 0 /\ tracelength r <= p2 < tracelength r + bz.
Proof.
  intros W. destruct W.
  destruct (shape_pad r) as [[p0 p1] p2] eqn:Esp.
  unfold idx0, idx1, idx2, rounded_up in *. cbn [fst snd] in *.
  exists p0, p1, p2, (2048 / rate r).
  repeat split; try assumption; try tauto; try lia.
  apply Z.div_pos; lia.
Qed.

Lemma open_run {B : Type} (k : IO B) (s : io_state) :
  (f_open ;; k) s = k (mkIO 0 (log s)).
Proof. reflexivity. Qed.

Lemma decompress_run {V B : Type}
    (decompress : bytes -> Z * Z * Z -> Z -> list (list (list V)))
    (buffer : bytes) (shape : Z * Z * Z) (rt : Z)
    (k : list (list (list V)) -> IO B) (s : io_state) :
  (decompressed <- call_decompress V decompress buffer shape rt ;;
   k decompressed) s
  = k (decompress buffer shape rt)
      (mkIO (pos s) (log s ++ [EvDecompress buffer shape rt])).
Proof. reflexivity. Qed.

Lemma lift_run {A B : Type} (a : A) (k : A -> IO B) (s : io_state) :
  (x <- lift (Ok a) ;; k x) s = k a s.
Proof. reflexivity. Qed.

Lemma py_mod_4 (a : Z) : py_mod a 4 = Ok (a mod 4).
Proof. reflexivity. Qed.

Section ReadInline.
Variable file : bytes.
Variable V : Type.
Variable decompress : bytes -> Z * Z * Z -> Z -> list (list (list V)).

Lemma read_inline_run (self : SzReader) (il_id : Z) (s : io_state) :
    wf_reader self -> codec_shape_ok decompress -> 0 <= il_id ->
    let off := data_start_bytes self
               + (chunk_bytes self * idx1 (shape_pad self) / 4) * (il_id / 4) in
    let n := chunk_bytes self * idx1 (shape_pad self) in
    let shape := (4, idx1 (shape_pad self), idx2 (shape_pad self)) in
    exists plane p,
      nth_error (decompress (pread file off n) shape (rate self))
                (Z.to_nat (il_id mod 4)) = Some plane /\
      has_shape2 plane (idx1 (shape_pad self)) (idx2 (shape_pad self)) /\
      read_inline file V decompress self il_id s
      = Ok (map (fun row => py_slice row 0 (tracelength self))
                (py_slice plane 0 (xlines self)),
            mkIO p (log s ++ [EvRead off n;
                              EvDecompress (pread file off n) shape (rate self)])).
  Proof.
    intros W C Hil off n shape.
    destruct (wf_facts self W)
      as (p0 & p1 & p2 & bz & Esp & Ebs & Ebz & Hbz & Hrt & Hbr & Eub & Ebb
          & Ecb & Hq & Hds & Hi & Hx & Ht & Hp0 & Hp0' & Hp1 & Hp1' & Hp2 & Hp2').
    assert (Hoff : 0 <= off).
    { unfold off. rewrite Esp, Ecb. unfold idx1. cbn [fst snd].
      assert (0 <= 4096 * (p2 / bz) * p1 / 4) by (apply Z.div_pos; nia).
      assert (0 <= il_id / 4) by (apply Z.div_pos; lia).
      nia. }
    assert (Hsh : has_shape3 (decompress (pread file off n) shape (rate self))
                             shape).
    { apply C; unfold shape, idx0, idx1, idx2; rewrite Esp; cbn [fst snd]; lia. }
    pose proof (Z.mod_pos_bound il_id 4 ltac:(lia)) as Hm.
    destruct (np_index_Ok (decompress (pread file off n) shape (rate self))
                          (il_id mod 4)) as [plane [Hidx Hnth]].
    { destruct Hsh as [Hl _]. rewrite Hl. unfold shape, idx0. cbn [fst]. lia. }
    exists plane. eexists. split; [exact Hnth |]. split.
    { apply (has_shape3_plane _ shape _ Hsh).
      eapply nth_error_In; eassumption. }
    unfold read_inline.
    rewrite open_run, seek_read_run by exact Hoff.
    fold off n. rewrite Ebs. unfold idx0 at 1. cbn [fst].
    fold shape. rewrite decompress_run.
    rewrite py_mod_4, lift_run. rewrite Hidx, lift_run.
    unfold ret. cbn [pos log]. rewrite <- app_assoc. reflexivity.
  Qed.
End ReadInline.

Section ReadSubvolume.
Variable file : bytes.
Variable V : Type.
Variable decompress : bytes -> Z * Z * Z -> Z -> list (list (list V)).

Lemma read_subvolume_run (self : SzReader)
      (min_il max_il min_xl max_xl min_z max_z : Z) (s : io_state) :
    wf_reader self ->
    0 <= min_il -> 0 <= min_xl -> 0 <= min_z ->
    0 <= units min_il max_il -> 0 <= units min_xl max_xl ->
    0 <= units min_z max_z ->
    let z_units := units min_z max_z in
    let xl_units := units min_xl max_xl in
    let il_units := units min_il max_il in
    let buffer :=
      subvolume_buffer file self min_il max_il min_xl max_xl min_z max_z in
    let shape := (il_units * 4, xl_units * 4, z_units * 4) in
    exists p,
      read_subvolume file V decompress self
                     min_il max_il min_xl max_xl min_z max_z s
      = Ok (subvolume_trim (decompress buffer shape (rate self))
                           min_il max_il min_xl max_xl min_z max_z,
            mkIO p
              (log s
               ++ flat_map
                    (fun i =>
                       flat_map
                         (fun x =>
                            [EvRead (subvolume_offset self min_il min_xl min_z
                                                      i x)
                                    (unit_bytes self * z_units)])
                         (range xl_units))
                    (range il_units)
               ++ [EvDecompress buffer shape (rate self)])).
  Proof.
    intros W Hil Hxl Hz Hiu Hxu Hzu z_units xl_units il_units buffer shape.
    destruct (wf_facts self W)
      as (p0 & p1 & p2 & bz & Esp & Ebs & Ebz & Hbz & Hrt & Hbr & Eub & Ebb
          & Ecb & Hq & Hds & Hi & Hx & Ht & Hp0 & Hp0' & Hp1 & Hp1' & Hp2 & Hp2').
    unfold read_subvolume. fold (units min_z max_z) (units min_xl max_xl)
                                (units min_il max_il).
    fold z_units xl_units il_units.
    assert (Hub : 0 <= unit_bytes self) by lia.
    unfold bytearray.
    destruct (Z.ltb_spec (z_units * xl_units * il_units * unit_bytes self) 0)
      as [Hneg | _].
    { exfalso. assert (0 <= z_units * xl_units * il_units) by nia. nia. }
    rewrite lift_run, open_run.
    match goal with
    | |- exists _, bind (for_each _ ?b _) _ _ = _ => set (body := b)
    end.
    destruct (for_each_run (range il_units) body
                (fun i acc =>
                   fold_left
                     (fun acc x =>
                        slice_assign acc
                          ((i * xl_units * z_units + x * z_units)
                           * unit_bytes self)
                          ((i * xl_units * z_units + x * z_units)
                           * unit_bytes self + unit_bytes self * z_units)
                          (pread file
                                 (subvolume_offset self min_il min_xl min_z i x)
                                 (unit_bytes self * z_units)))
                     (range xl_units) acc)
                (fun i =>
                   flat_map
                     (fun x =>
                        [EvRead (subvolume_offset self min_il min_xl min_z i x)
                                (unit_bytes self * z_units)])
                     (range xl_units)))
      with (acc := repeat x00
                     (Z.to_nat (z_units * xl_units * il_units * unit_bytes self)))
           (s := mkIO 0 (log s)) as [p Hloop].
    { intros i acc t Hin. apply In_range in Hin. unfold body.
      apply for_each_run. intros x acc' t' Hx'. apply In_range in Hx'.
      eexists. rewrite seek_read_run.
      - unfold ret, subvolume_offset. reflexivity.
      - rewrite Esp. unfold idx1, idx2. cbn [fst snd].
        assert (0 <= p1 / 4) by (apply Z.div_pos; lia).
        assert (0 <= p2 / 4) by (apply Z.div_pos; lia).
        assert (0 <= min_il / 4) by (apply Z.div_pos; lia).
        assert (0 <= min_xl / 4) by (apply Z.div_pos; lia).
        assert (0 <= min_z / 4) by (apply Z.div_pos; lia).
        assert (0 <= (i + min_il / 4) * (p1 / 4) * (p2 / 4)) by nia.
        assert (0 <= (x + min_xl / 4) * (p2 / 4)) by nia.
        nia. }
    unfold bind at 1. rewrite Hloop.
    rewrite decompress_run. unfold ret. cbn [pos log].
    exists p. rewrite <- app_assoc. reflexivity.
  Qed.
End ReadSubvolume.

(** ** Filling a buffer slot by slot *)

Lemma range_as_seq (n : nat) :
  map Z.to_nat (range (Z.of_nat n)) = seq 0 n.
Proof.
  unfold range. rewrite Nat2Z.id, map_map.
  rewrite <- (map_id (seq 0 n)) at 2.
  apply map_ext. intros k. apply Nat2Z.id.
Qed.

Lemma fill_slots_fold (c : Z) (d : Z -> bytes) (sched : list Z) :
  0 <= c ->
  forall bs : list bytes,
  slots_ok (Z.to_nat c) bs ->
  Forall (fun k => 0 <= k < Z.of_nat (length bs)) sched ->
  (forall k, In k sched -> length (d k) = Z.to_nat c) ->
  fold_left (fun acc k => slice_assign acc (k * c) ((k + 1) * c) (d k))
            sched (concat bs)
  = concat (fold_left (fun acc k => set_slot k (d (Z.of_nat k)) acc)
                      (map Z.to_nat sched) bs).
Proof.
  intros Hc. induction sched as [| k sched IH]; intros bs Hbs Hs Hd;
    cbn [fold_left map]; [reflexivity |].
  inversion Hs as [| ? ? Hk Hrest]; subst.
  replace (k * c) with (Z.of_nat (Z.to_nat k) * Z.of_nat (Z.to_nat c)) by lia.
  replace ((k + 1) * c)
    with ((Z.of_nat (Z.to_nat k) + 1) * Z.of_nat (Z.to_nat c)) by lia.
  rewrite slice_assign_slot by (assumption || lia).
  replace (Z.of_nat (Z.to_nat k)) with k by lia.
  apply IH.
  - apply slots_ok_set_slot; [assumption |]. apply Hd. now left.
  - rewrite length_set_slot by lia. assumption.
  - intros j Hj. apply Hd. now right.
Qed.

Lemma fill_slots (c : Z) (n : nat) (d : Z -> bytes) (sched : list Z) :
  0 <= c ->
  (forall k, 0 <= k < Z.of_nat n -> length (d k) = Z.to_nat c) ->
  Permutation sched (range (Z.of_nat n)) ->
  fold_left (fun acc k => slice_assign acc (k * c) ((k + 1) * c) (d k))
            sched (repeat x00 (n * Z.to_nat c))
  = concat (map d (range (Z.of_nat n))).
Proof.
  intros Hc Hd Hp.
  assert (Hin : forall k, In k sched -> 0 <= k < Z.of_nat n).
  { intros k Hk. apply (Permutation_in _ Hp) in Hk. now apply In_range in Hk. }
  rewrite concat_repeat_slots.
  rewrite fill_slots_fold.
  - rewrite (fill_all_slots (fun k => d (Z.of_nat k))).
    + rewrite repeat_length. unfold range. rewrite Nat2Z.id, map_map.
      reflexivity.
    + rewrite repeat_length. rewrite <- range_as_seq.
      now apply Permutation_map.
  - assumption.
  - apply slots_ok_repeat.
  - apply Forall_forall. intros k Hk. rewrite repeat_length. now apply Hin.
  - intros k Hk. apply Hd. now apply Hin.
Qed.

Lemma div4_exact (p : Z) : p mod 4 = 0 -> p = 4 * (p / 4).
Proof. intros H. pose proof (Z_div_mod_eq_full p 4). lia. Qed.

Lemma mul_div4 (a p : Z) : p mod 4 = 0 -> a * p / 4 = a * (p / 4).
Proof.
  intros H. rewrite (div4_exact p H) at 1.
  replace (a * (4 * (p / 4))) with (a * (p / 4) * 4) by ring.
  apply Z.div_mul. lia.
Qed.

(** ** Logs *)

Lemma flat_map_singleton {A B : Type} (f : A -> B) (l : list A) :
  flat_map (fun x => [f x]) l = map f l.
Proof. induction l as [| x l IH]; cbn [flat_map map app]; congruence. Qed.

Lemma reads_of_app (l1 l2 : list event) :
  reads_of (l1 ++ l2) = reads_of l1 ++ reads_of l2.
Proof. apply flat_map_app. Qed.

Lemma decoded_buffers_app (l1 l2 : list event) :
  decoded_buffers (l1 ++ l2) = decoded_buffers l1 ++ decoded_buffers l2.
Proof. apply flat_map_app. Qed.

Lemma decoded_shapes_app (l1 l2 : list event) :
  decoded_shapes (l1 ++ l2) = decoded_shapes l1 ++ decoded_shapes l2.
Proof. apply flat_map_app. Qed.

Lemma reads_of_reads {A : Type} (off len : A -> Z) (l : list A) :
  reads_of (flat_map (fun k => [EvRead (off k) (len k)]) l)
  = map (fun k => (off k, len k)) l.
Proof.
  unfold reads_of. induction l as [| x l IH]; [reflexivity |].
  cbn [flat_map map app]. now rewrite IH.
Qed.

Lemma decoded_buffers_reads {A : Type} (off len : A -> Z) (l : list A) :
  decoded_buffers (flat_map (fun k => [EvRead (off k) (len k)]) l) = [].
Proof.
  unfold decoded_buffers. induction l as [| x l IH]; [reflexivity |].
  cbn [flat_map map app]. exact IH.
Qed.

Lemma decoded_shapes_reads {A : Type} (off len : A -> Z) (l : list A) :
  decoded_shapes (flat_map (fun k => [EvRead (off k) (len k)]) l) = [].
Proof.
  unfold decoded_shapes. induction l as [| x l IH]; [reflexivity |].
  cbn [flat_map map app]. exact IH.
Qed.

Lemma fold_left_ext_in {A B : Type} (f g : A -> B -> A) (l : list B) :
  (forall a x, In x l -> f a x = g a x) ->
  forall a, fold_left f l a = fold_left g l a.
Proof.
  induction l as [| x l IH]; intros H a; cbn [fold_left]; [reflexivity |].
  rewrite (H a x (or_introl eq_refl)).
  apply IH. intros b y Hy. apply H. now right.
Qed.

Section ReadCrossline.
Variable file : bytes.
Variable V : Type.
Variable decompress : bytes -> Z * Z * Z -> Z -> list (list (list V)).

Lemma read_crossline_run_shaped (self : SzReader) (xl_id : Z)
      (s : io_state) :
    wf_reader self -> 0 <= xl_id ->
    let buffer := crossline_buffer file self xl_id in
    let shape := (idx0 (shape_pad self), 4, idx2 (shape_pad self)) in
    has_shape3 (decompress buffer shape (rate self)) shape ->
    exists a p,
      has_shape2 a (ilines self) (tracelength self) /\
      read_crossline file V decompress self xl_id s
      = Ok (a,
            mkIO p
              (log s
               ++ flat_map
                    (fun k => [EvRead (crossline_offset self xl_id k)
                                      (chunk_bytes self)])
                    (range (idx0 (shape_pad self) / 4))
               ++ [EvDecompress buffer shape (rate self)])).
  Proof.
    intros W Hxl buffer shape Hsh.
    destruct (wf_facts self W)
      as (p0 & p1 & p2 & bz & Esp & Ebs & Ebz & Hbz & Hrt & Hbr & Eub & Ebb
          & Ecb & Hq & Hds & Hi & Hx & Ht & Hp0 & Hp0' & Hp1 & Hp1' & Hp2 & Hp2').
    assert (Hcb : 0 <= chunk_bytes self) by lia.
    assert (Hinc : 0 <= chunk_bytes self * idx1 (shape_pad self) / 4).
    { apply Z.div_pos; [| lia]. rewrite Esp. unfold idx1. cbn [fst snd]. nia. }
    assert (Hx4 : 0 <= xl_id / 4) by (apply Z.div_pos; lia).
    unfold read_crossline, bytearray.
    destruct (Z.ltb_spec (chunk_bytes self * idx0 (shape_pad self) / 4) 0)
      as [Hneg | _].
    { exfalso. revert Hneg. apply Z.le_ngt. apply Z.div_pos; [| lia].
      rewrite Esp. unfold idx0. cbn [fst snd]. nia. }
    rewrite lift_run, open_run.
    match goal with
    | |- exists _ _, _ /\ bind (for_each _ ?b _) _ _ = _ => set (body := b)
    end.
    destruct (for_each_run (range (idx0 (shape_pad self) / 4)) body
                (fun k acc =>
                   slice_assign acc (k * chunk_bytes self)
                                ((k + 1) * chunk_bytes self)
                                (pread file (crossline_offset self xl_id k)
                                       (chunk_bytes self)))
                (fun k => [EvRead (crossline_offset self xl_id k)
                                  (chunk_bytes self)]))
      with (acc := repeat x00
                     (Z.to_nat (chunk_bytes self * idx0 (shape_pad self) / 4)))
           (s := mkIO 0 (log s)) as [p Hloop].
    { intros k acc t Hin. apply In_range in Hin. unfold body.
      eexists. rewrite seek_read_run.
      - unfold ret, crossline_offset. reflexivity.
      - nia. }
    unfold bind at 1. rewrite Hloop. fold (crossline_buffer file self xl_id).
    fold buffer. rewrite Ebs. unfold idx1 at 1. cbn [fst snd]. fold shape.
    rewrite decompress_run, py_mod_4, lift_run.
    pose proof (Z.mod_pos_bound xl_id 4 ltac:(lia)) as Hm.
    destruct (map_result_Ok
                (fun plane => np_index plane (xl_id mod 4))
                (py_slice (decompress buffer shape (rate self)) 0 (ilines self))
                (fun row => Z.of_nat (length row) = idx2 (shape_pad self)))
      as (rows & Hrows & Hlen & Hall).
    { intros plane Hin. apply In_py_slice in Hin.
      pose proof (has_shape3_plane _ _ _ Hsh Hin) as Hpl.
      destruct (np_index_Ok plane (xl_id mod 4)) as [row [Hrow Hnth]].
      { destruct Hpl as [Hl _]. rewrite Hl. unfold shape, idx1. cbn [fst snd]. lia. }
      exists row. split; [assumption |].
      apply (has_shape2_row _ _ _ _ Hpl). eapply nth_error_In; eassumption. }
    rewrite Hrows, lift_run. unfold ret. cbn [pos log].
    eexists. exists p. split; [| rewrite <- app_assoc; reflexivity].
    split.
    - rewrite length_map, Hlen.
      rewrite <- (Z.sub_0_r (ilines self)) at 2. apply length_py_slice; try lia.
      destruct Hsh as [Hl _]. rewrite Hl. unfold shape, idx0. rewrite Esp.
      cbn [fst snd]. lia.
    - apply Forall_map. rewrite Forall_forall in Hall. apply Forall_forall.
      intros row Hin. specialize (Hall row Hin).
      rewrite <- (Z.sub_0_r (tracelength self)) at 2.
      apply length_py_slice; try lia.
      rewrite Hall, Esp. unfold idx2. cbn [snd]. lia.
  Qed.

Lemma read_crossline_run (self : SzReader) (xl_id : Z) (s : io_state) :
    wf_reader self -> codec_shape_ok decompress -> 0 <= xl_id ->
    let buffer := crossline_buffer file self xl_id in
    let shape := (idx0 (shape_pad self), 4, idx2 (shape_pad self)) in
    exists a p,
      has_shape2 a (ilines self) (tracelength self) /\
      read_crossline file V decompress self xl_id s
      = Ok (a,
            mkIO p
              (log s
               ++ flat_map
                    (fun k => [EvRead (crossline_offset self xl_id k)
                                      (chunk_bytes self)])
                    (range (idx0 (shape_pad self) / 4))
               ++ [EvDecompress buffer shape (rate self)])).
  Proof.
    intros W C Hxl buffer shape.
    apply read_crossline_run_shaped; try assumption.
    destruct (wf_facts self W)
      as (p0 & p1 & p2 & bz & Esp & Ebs & Ebz & Hbz & Hrt & Hbr & Eub & Ebb
          & Ecb & Hq & Hds & Hi & Hx & Ht & Hp0 & Hp0' & Hp1 & Hp1' & Hp2 & Hp2').
    apply C; unfold idx0, idx1, idx2; rewrite Esp; cbn [fst snd]; lia.
  Qed.

End ReadCrossline.

(** ** Splitting the plan among the workers *)

Lemma firstn_plus {A : Type} (n m : nat) (l : list A) :
  firstn (n + m) l = firstn n l ++ firstn m (skipn n l).
Proof.
  revert l. induction n as [| n IH]; intros l; [reflexivity |].
  destruct l as [| x l]; cbn [Nat.add firstn skipn app].
  - now rewrite firstn_nil.
  - now rewrite IH.
Qed.

Lemma concat_split_sizes {A : Type} (sizes : list nat) (l : list A) :
  concat (split_sizes sizes l) = firstn (list_sum sizes) l.
Proof.
  revert l. induction sizes as [| n sizes IH]; intros l;
    cbn [split_sizes concat]; [reflexivity |].
  change (list_sum (n :: sizes)) with (n + list_sum sizes)%nat.
  now rewrite IH, firstn_plus.
Qed.


Lemma list_sum_repeat (a n : nat) : list_sum (repeat a n) = (n * a)%nat.
Proof.
  induction n as [| n IH]; cbn [repeat]; [reflexivity |].
  change (list_sum (a :: repeat a n)) with (a + list_sum (repeat a n))%nat.
  rewrite IH. lia.
Qed.

Lemma array_split_concat {A : Type} (ary : list A) (n : nat) :
  n <> 0%nat -> concat (array_split ary n) = ary.
Proof.
  intros Hn. unfold array_split. rewrite concat_split_sizes.
  rewrite list_sum_app, !list_sum_repeat.
  apply firstn_all2.
  pose proof (Nat.div_mod_eq (length ary) n) as Hdm.
  pose proof (Nat.mod_upper_bound (length ary) n Hn) as Hlt.
  nia.
Qed.


Lemma fold_left_concat {A B : Type} (f : A -> B -> A) (ls : list (list B)) :
  forall a,
  fold_left (fun acc l => fold_left f l acc) ls a = fold_left f (concat ls) a.
Proof.
  induction ls as [| l ls IH]; intros a; cbn [fold_left concat]; [reflexivity |].
  now rewrite fold_left_app, IH.
Qed.

Lemma flat_map_concat {A B : Type} (f : A -> list B) (ls : list (list A)) :
  flat_map (fun l => flat_map f l) ls = flat_map f (concat ls).
Proof.
  induction ls as [| l ls IH]; cbn [flat_map concat]; [reflexivity |].
  now rewrite flat_map_app, IH.
Qed.


Section ReadZslice.
Variable file : bytes.
Variable V : Type.
Variable decompress : bytes -> Z * Z * Z -> Z -> list (list (list V)).

Lemma zslice_offset_nonneg (self : SzReader) (zslice_id b : Z) :
    wf_reader self -> 0 <= zslice_id -> 0 <= b ->
    0 <= zslice_offset self zslice_id b.
  Proof.
    intros W Hz Hb.
    destruct (wf_facts self W)
      as (p0 & p1 & p2 & bz & Esp & Ebs & Ebz & Hbz & Hrt & Hbr & Eub & Ebb
          & Ecb & Hq & Hds & Hi & Hx & Ht & Hp0 & Hp0' & Hp1 & Hp1' & Hp2 & Hp2').
    unfold zslice_offset. rewrite Ebs. unfold idx2. cbn [snd].
    assert (0 <= zslice_id / bz) by (apply Z.div_pos; lia).
    pose proof (Z.mod_pos_bound zslice_id bz Hbz).
    assert (0 <= zslice_id mod bz / 4) by (apply Z.div_pos; lia).
    assert (0 <= zslice_id / bz * block_bytes self) by nia.
    assert (0 <= zslice_id mod bz / 4 * unit_bytes self) by nia.
    assert (0 <= b * chunk_bytes self) by nia.
    lia.
  Qed.

Lemma zslice_steps_run (self : SzReader) (zslice_id : Z) (sched : list Z) :
    wf_reader self -> 0 <= zslice_id ->
    Forall (fun b => 0 <= b) sched ->
    forall buffer s, exists p,
      thread_for_each sched
        (zslice_step file (data_start_bytes self)
           (zslice_id / idx2 (blockshape self)) (block_bytes self)
           (zslice_id mod idx2 (blockshape self) / 4) (unit_bytes self)
           (chunk_bytes self))
        buffer s
      = Ok (zslice_fill file self zslice_id sched buffer,
            mkIO p (log s
                    ++ flat_map
                         (fun b => [EvRead (zslice_offset self zslice_id b)
                                           (unit_bytes self)])
                         sched)).
  Proof.
    intros W Hz Hs buffer s. unfold zslice_fill.
    apply thread_for_each_run with
      (g := fun b acc =>
              slice_assign acc (b * unit_bytes self)
                           ((b + 1) * unit_bytes self)
                           (pread file (zslice_offset self zslice_id b)
                                  (unit_bytes self)))
      (evs := fun b => [EvRead (zslice_offset self zslice_id b)
                               (unit_bytes self)]).
    intros b acc t Hin. rewrite Forall_forall in Hs. specialize (Hs b Hin).
    unfold zslice_step. eexists.
    fold (zslice_offset self zslice_id b).
    rewrite seek_read_run by now apply zslice_offset_nonneg.
    reflexivity.
  Qed.

Lemma zslice_prologue (self : SzReader) (zslice_id : Z) :
    wf_reader self ->
    py_floordiv zslice_id (idx2 (blockshape self))
    = Ok (zslice_id / idx2 (blockshape self)) /\
    py_mod zslice_id (idx2 (blockshape self))
    = Ok (zslice_id mod idx2 (blockshape self)) /\
    bytearray (unit_bytes self * (idx0 (shape_pad self) / 4)
               * (idx1 (shape_pad self) / 4))
    = Ok (zslice_zeros self).
  Proof.
    intros W.
    destruct (wf_facts self W)
      as (p0 & p1 & p2 & bz & Esp & Ebs & Ebz & Hbz & Hrt & Hbr & Eub & Ebb
          & Ecb & Hq & Hds & Hi & Hx & Ht & Hp0 & Hp0' & Hp1 & Hp1' & Hp2 & Hp2').
    unfold py_floordiv, py_mod, bytearray, zslice_zeros.
    rewrite Ebs, Esp. unfold idx0, idx1, idx2. cbn [fst snd].
    destruct (Z.eqb_spec bz 0); [lia |].
    assert (0 <= p0 / 4) by (apply Z.div_pos; lia).
    assert (0 <= p1 / 4) by (apply Z.div_pos; lia).
    destruct (Z.ltb_spec (unit_bytes self * (p0 / 4) * (p1 / 4)) 0);
      [| auto].
    exfalso. assert (0 <= unit_bytes self * (p0 / 4)) by nia. nia.
  Qed.

Lemma zslice_decode_run_shaped (self : SzReader) (zslice_id : Z)
      (buffer : bytes) :
    wf_reader self ->
    has_shape3 (decompress buffer
                  (idx0 (shape_pad self), idx1 (shape_pad self), 4)
                  (rate self))
               (idx0 (shape_pad self), idx1 (shape_pad self), 4) ->
    exists a,
      has_shape2 a (ilines self) (xlines self) /\
      forall t,
        zslice_decode V decompress self zslice_id buffer t
        = Ok (a, mkIO (pos t)
                      (log t ++ [EvDecompress buffer
                                   (idx0 (shape_pad self),
                                    idx1 (shape_pad self), 4)
                                   (rate self)])).
  Proof.
    intros W Hsh.
    destruct (wf_facts self W)
      as (p0 & p1 & p2 & bz & Esp & Ebs & Ebz & Hbz & Hrt & Hbr & Eub & Ebb
          & Ecb & Hq & Hds & Hi & Hx & Ht & Hp0 & Hp0' & Hp1 & Hp1' & Hp2 & Hp2').
    set (shape := (idx0 (shape_pad self), idx1 (shape_pad self), 4)).
    fold shape in Hsh.
    pose proof (Z.mod_pos_bound zslice_id 4 ltac:(lia)) as Hm.
    destruct (map_result_Ok
                (fun plane =>
                   map_result (fun row => np_index row (zslice_id mod 4))
                              (py_slice plane 0 (xlines self)))
                (py_slice (decompress buffer shape (rate self)) 0 (ilines self))
                (fun row => Z.of_nat (length row) = xlines self))
      as (a & Ha & Hlen & Hall).
    { intros plane Hin. apply In_py_slice in Hin.
      pose proof (has_shape3_plane _ _ _ Hsh Hin) as Hpl.
      destruct (map_result_Ok
                  (fun row => np_index row (zslice_id mod 4))
                  (py_slice plane 0 (xlines self)) (fun _ => True))
        as (vs & Hvs & Hl & _).
      { intros row Hrow. apply In_py_slice in Hrow.
        pose proof (has_shape2_row _ _ _ _ Hpl Hrow) as Hr.
        destruct (np_index_Ok row (zslice_id mod 4)) as [v [Hv _]].
        { rewrite Hr. unfold shape, idx2. cbn [snd]. lia. }
        exists v. split; [assumption | exact I]. }
      exists vs. split; [assumption |]. rewrite Hl.
      rewrite <- (Z.sub_0_r (xlines self)) at 2. apply length_py_slice; try lia.
      destruct Hpl as [Hl1 _]. rewrite Hl1. unfold shape, idx1. rewrite Esp.
      cbn [fst snd]. lia. }
    exists a. split.
    - split; [| assumption]. rewrite Hlen.
      rewrite <- (Z.sub_0_r (ilines self)) at 2. apply length_py_slice; try lia.
      destruct Hsh as [Hl _]. rewrite Hl. unfold shape, idx0. rewrite Esp.
      cbn [fst snd]. lia.
    - intros t. unfold zslice_decode. fold shape.
      rewrite decompress_run. unfold lift. rewrite Ha. reflexivity.
  Qed.

Lemma zslice_decode_run (self : SzReader) (zslice_id : Z) (buffer : bytes) :
    wf_reader self -> codec_shape_ok decompress ->
    exists a,
      has_shape2 a (ilines self) (xlines self) /\
      forall t,
        zslice_decode V decompress self zslice_id buffer t
        = Ok (a, mkIO (pos t)
                      (log t ++ [EvDecompress buffer
                                   (idx0 (shape_pad self),
                                    idx1 (shape_pad self), 4)
                                   (rate self)])).
  Proof.
    intros W C.
    apply zslice_decode_run_shaped; [assumption |].
    destruct (wf_facts self W)
      as (p0 & p1 & p2 & bz & Esp & Ebs & Ebz & Hbz & Hrt & Hbr & Eub & Ebb
          & Ecb & Hq & Hds & Hi & Hx & Ht & Hp0 & Hp0' & Hp1 & Hp1' & Hp2 & Hp2').
    apply C; unfold idx0, idx1, idx2; rewrite Esp; cbn [fst snd]; lia.
  Qed.

Lemma read_zslice_run_shaped (self : SzReader) (zslice_id : Z)
      (s : io_state) :
    wf_reader self -> 0 <= zslice_id ->
    let buffer :=
      zslice_fill file self zslice_id (zslice_block_ids self)
                  (zslice_zeros self) in
    has_shape3 (decompress buffer
                  (idx0 (shape_pad self), idx1 (shape_pad self), 4)
                  (rate self))
               (idx0 (shape_pad self), idx1 (shape_pad self), 4) ->
    exists a p,
      has_shape2 a (ilines self) (xlines self) /\
      (forall t, value_of (zslice_decode V decompress self zslice_id buffer t)
                 = Ok a) /\
      read_zslice file V decompress self zslice_id s
      = Ok (a,
            mkIO p
              (log s
               ++ flat_map
                    (fun b => [EvRead (zslice_offset self zslice_id b)
                                      (unit_bytes self)])
                    (zslice_block_ids self)
               ++ [EvDecompress buffer
                     (idx0 (shape_pad self), idx1 (shape_pad self), 4)
                     (rate self)])).
  Proof.
    intros W Hz buffer Hsh.
    destruct (zslice_decode_run_shaped self zslice_id buffer W Hsh)
      as (a & Hshape & Hdec).
    unfold read_zslice.
    destruct (zslice_prologue self zslice_id W) as (E1 & E2 & E3).
    rewrite E1, lift_run, E2, lift_run, E3, lift_run.
    unfold zslice_ranges.
    pose proof (array_split_concat (zslice_block_ids self) n_threads
                                   ltac:(discriminate)) as Hcat.
    match goal with
    | |- exists _ _, _ /\ _ /\ bind (for_each _ ?b _) _ _ = _ => set (body := b)
    end.
    destruct (for_each_run (array_split (zslice_block_ids self) n_threads) body
                (fun t acc => zslice_fill file self zslice_id t acc)
                (fun t =>
                   flat_map
                     (fun b => [EvRead (zslice_offset self zslice_id b)
                                       (unit_bytes self)]) t))
      with (acc := zslice_zeros self) (s := s) as [p Hloop].
    { intros t acc st Hin. unfold body, zslice_threadfunc.
      rewrite open_run.
      destruct (zslice_steps_run self zslice_id t W Hz) with
        (buffer := acc) (s := mkIO 0 (log st)) as [q Hq'].
      - apply Forall_forall. intros b Hb.
        assert (Hb' : In b (zslice_block_ids self)).
        { rewrite <- Hcat. apply in_concat. now exists t. }
        apply In_range in Hb'. lia.
      - exists q. exact Hq'. }
    unfold bind at 1. rewrite Hloop.
    unfold zslice_fill at 1. rewrite fold_left_concat, Hcat.
    fold (zslice_fill file self zslice_id (zslice_block_ids self)
                      (zslice_zeros self)).
    fold buffer. rewrite flat_map_concat, Hcat.
    exists a, p. split; [assumption |]. split.
    - intros t. rewrite Hdec. reflexivity.
    - rewrite Hdec. cbn [pos log]. rewrite <- app_assoc. reflexivity.
  Qed.

Lemma read_zslice_run (self : SzReader) (zslice_id : Z) (s : io_state) :
    wf_reader self -> codec_shape_ok decompress -> 0 <= zslice_id ->
    let buffer :=
      zslice_fill file self zslice_id (zslice_block_ids self)
                  (zslice_zeros self) in
    exists a p,
      has_shape2 a (ilines self) (xlines self) /\
      (forall t, value_of (zslice_decode V decompress self zslice_id buffer t)
                 = Ok a) /\
      read_zslice file V decompress self zslice_id s
      = Ok (a,
            mkIO p
              (log s
               ++ flat_map
                    (fun b => [EvRead (zslice_offset self zslice_id b)
                                      (unit_bytes self)])
                    (zslice_block_ids self)
               ++ [EvDecompress buffer
                     (idx0 (shape_pad self), idx1 (shape_pad self), 4)
                     (rate self)])).
  Proof.
    intros W C Hz buffer.
    apply read_zslice_run_shaped; try assumption.
    destruct (wf_facts self W)
      as (p0 & p1 & p2 & bz & Esp & Ebs & Ebz & Hbz & Hrt & Hbr & Eub & Ebb
          & Ecb & Hq & Hds & Hi & Hx & Ht & Hp0 & Hp0' & Hp1 & Hp1' & Hp2 & Hp2').
    apply C; unfold idx0, idx1, idx2; rewrite Esp; cbn [fst snd]; lia.
  Qed.
End ReadZslice.

(** ** The units of a complete file *)

Lemma divisor_2048_multiple_of_4 (bz rt : Z) :
  bz * rt = 2048 -> 4 <= bz -> bz mod 4 = 0.
Proof.
  intros Hbr Hbz.
  assert (Hrt : 0 < rt) by nia.
  assert (Hle : bz <= 2048) by nia.
  assert (Hmod : 2048 mod bz = 0).
  { rewrite <- Hbr, Z.mul_comm. apply Z_mod_mult. }
  assert (Hall : forallb (fun b => negb ((2048 mod b =? 0) && (4 <=? b))
                                   || (b mod 4 =? 0)) (range 2049) = true)
    by (vm_compute; reflexivity).
  rewrite forallb_forall in Hall.
  specialize (Hall bz (proj2 (In_range 2049 bz) ltac:(lia))).
  rewrite Hmod in Hall.
  destruct (Z.leb_spec 4 bz); [| lia].
  cbn in Hall. now apply Z.eqb_eq in Hall.
Qed.

Lemma zslice_unit_in_file (file : bytes) (self : SzReader) (zslice_id b : Z) :
  wf_reader self -> 4 <= idx2 (blockshape self) ->
  0 <= zslice_id < tracelength self ->
  file_complete file self ->
  0 <= b < (idx0 (shape_pad self) / 4) * (idx1 (shape_pad self) / 4) ->
  zslice_offset self zslice_id b + unit_bytes self <= Z.of_nat (length file).
Proof.
  intros W Hbz4 Hz Hfile Hb.
  destruct (wf_facts self W)
    as (p0 & p1 & p2 & bz & Esp & Ebs & Ebz & Hbz & Hrt & Hbr & Eub & Ebb
        & Ecb & Hq & Hds & Hi & Hx & Ht & Hp0 & Hp0' & Hp1 & Hp1' & Hp2 & Hp2').
  unfold file_complete in Hfile. unfold zslice_offset.
  rewrite Ebs in *. rewrite Esp in *. unfold idx0, idx1, idx2 in *.
  cbn [fst snd] in *.
  set (R := p0 / 4 * (p1 / 4)) in *.
  pose proof (divisor_2048_multiple_of_4 bz (rate self) Hbr Hbz4) as Hbz0.
  pose proof (div4_exact bz Hbz0) as Hbq.
  pose proof (Z_div_mod_eq_full zslice_id bz) as Hzdm.
  pose proof (Z.mod_pos_bound zslice_id bz Hbz) as Hzr.
  pose proof (Z_div_mod_eq_full (zslice_id mod bz) 4) as Hudm.
  pose proof (Z.mod_pos_bound (zslice_id mod bz) 4 ltac:(lia)) as Hur.
  pose proof (Z_div_mod_eq_full p2 bz) as Hpdm. rewrite Hp2 in Hpdm.
  set (q4 := bz / 4) in *. set (zq := zslice_id / bz) in *.
  set (zr := zslice_id mod bz) in *. set (u := zr / 4) in *.
  set (Q := p2 / bz) in *.
  assert (Hu : u + 1 <= q4) by lia.
  assert (Hzq0 : 0 <= zq) by (apply Z.div_pos; lia).
  assert (HzQ : zq + 1 <= Q) by nia.
  assert (Hblk : q4 * unit_bytes self = 4096) by nia.
  rewrite Ebb, Ecb.
  assert (H1 : u * unit_bytes self + unit_bytes self <= 4096) by nia.
  assert (H2 : zq * 4096 + 4096 <= 4096 * Q) by nia.
  assert (H3 : b * (4096 * Q) + 4096 * Q <= R * (4096 * Q)) by nia.
  rewrite Ecb in Hfile. lia.
Qed.

Section ParallelGather.
Variable file : bytes.
Variable V : Type.
Variable decompress : bytes -> Z * Z * Z -> Z -> list (list (list V)).

  (** Every execution that runs the units of the plan once each, in whatever
      order, assembles the units in plan order. *)
Lemma zslice_fill_any_order (self : SzReader) (zslice_id : Z)
      (schedule : list Z) :
    wf_reader self -> 4 <= idx2 (blockshape self) ->
    0 <= zslice_id < tracelength self ->
    file_complete file self ->
    Permutation schedule (zslice_block_ids self) ->
    zslice_fill file self zslice_id schedule (zslice_zeros self)
    = concat (map (fun b => pread file (zslice_offset self zslice_id b)
                                  (unit_bytes self))
                  (zslice_block_ids self)).
  Proof.
    intros W Hbz4 Hz Hfile Hp.
    destruct (wf_facts self W)
      as (p0 & p1 & p2 & bz & Esp & Ebs & Ebz & Hbz & Hrt & Hbr & Eub & Ebb
          & Ecb & Hq & Hds & Hi & Hx & Ht & Hp0 & Hp0' & Hp1 & Hp1' & Hp2 & Hp2').
    unfold zslice_fill, zslice_zeros, zslice_block_ids in *.
    set (R := idx0 (shape_pad self) / 4 * (idx1 (shape_pad self) / 4)) in *.
    assert (HR : 0 <= R).
    { unfold R. rewrite Esp. unfold idx0, idx1. cbn [fst snd].
      assert (0 <= p0 / 4) by (apply Z.div_pos; lia).
      assert (0 <= p1 / 4) by (apply Z.div_pos; lia). nia. }
    replace (unit_bytes self * (idx0 (shape_pad self) / 4)
             * (idx1 (shape_pad self) / 4))
      with (R * unit_bytes self) by (unfold R; ring).
    rewrite Z2Nat.inj_mul by lia.
    set (n := Z.to_nat R).
    assert (HRn : R = Z.of_nat n) by lia.
    rewrite HRn in Hp |- *.
    apply fill_slots; [lia | | assumption].
    intros k Hk. apply length_pread; try lia.
    - apply zslice_offset_nonneg; try assumption; lia.
    - apply zslice_unit_in_file; try assumption. fold R. lia.
  Qed.

End ParallelGather.

(** ** Shapes of the returned arrays *)

Lemma units_cover (lo hi : Z) :
  0 <= lo -> lo <= hi ->
  0 <= units lo hi /\ lo mod 4 + hi - lo <= units lo hi * 4.
Proof.
  intros Hlo Hhi. unfold units.
  pose proof (Z_div_mod_eq_full lo 4).
  pose proof (Z_div_mod_eq_full (hi + 4) 4).
  pose proof (Z.mod_pos_bound lo 4 ltac:(lia)).
  pose proof (Z.mod_pos_bound (hi + 4) 4 ltac:(lia)).
  lia.
Qed.

Lemma has_shape2_trim0 {V : Type} (plane : list (list V))
    (n0 n1 hi0 hi1 : Z) :
  has_shape2 plane n0 n1 -> 0 <= hi0 <= n0 -> 0 <= hi1 <= n1 ->
  has_shape2 (map (fun row => py_slice row 0 hi1) (py_slice plane 0 hi0))
             hi0 hi1.
Proof.
  intros Hp H0 H1.
  pose proof (has_shape2_trim plane n0 n1 0 hi0 0 hi1 Hp) as H.
  rewrite !Z.sub_0_r in H. apply H; lia.
Qed.

Section Shapes.
Variable file : bytes.
Variable V : Type.
Variable decompress : bytes -> Z * Z * Z -> Z -> list (list (list V)).


Lemma read_subvolume_shape_shaped (self : SzReader)
      (min_il max_il min_xl max_xl min_z max_z : Z) (s : io_state) :
    wf_reader self ->
    0 <= min_il <= max_il -> 0 <= min_xl <= max_xl -> 0 <= min_z <= max_z ->
    has_shape3
      (decompress
         (subvolume_buffer file self min_il max_il min_xl max_xl min_z max_z)
         (units min_il max_il * 4, units min_xl max_xl * 4,
          units min_z max_z * 4) (rate self))
      (units min_il max_il * 4, units min_xl max_xl * 4,
       units min_z max_z * 4) ->
    exists a,
      value_of (read_subvolume file V decompress self
                               min_il max_il min_xl max_xl min_z max_z s)
      = Ok a /\
      has_shape3 a (max_il - min_il, max_xl - min_xl, max_z - min_z).
  Proof.
    intros W Hil Hxl Hz Hsh.
    destruct (units_cover min_il max_il) as [Hiu Hic]; try lia.
    destruct (units_cover min_xl max_xl) as [Hxu Hxc]; try lia.
    destruct (units_cover min_z max_z) as [Hzu Hzc]; try lia.
    destruct (read_subvolume_run file V decompress self
                min_il max_il min_xl max_xl min_z max_z s W)
      as [p Hrun]; try lia.
    rewrite Hrun. cbn [value_of]. eexists. split; [reflexivity |].
    pose proof (Z.mod_pos_bound min_il 4 ltac:(lia)).
    pose proof (Z.mod_pos_bound min_xl 4 ltac:(lia)).
    pose proof (Z.mod_pos_bound min_z 4 ltac:(lia)).
    replace (max_il - min_il)
      with (min_il mod 4 + max_il - min_il - min_il mod 4) by lia.
    replace (max_xl - min_xl)
      with (min_xl mod 4 + max_xl - min_xl - min_xl mod 4) by lia.
    replace (max_z - min_z)
      with (min_z mod 4 + max_z - min_z - min_z mod 4) by lia.
    unfold subvolume_trim.
    eapply has_shape3_trim.
    - exact Hsh.
    - lia.
    - unfold idx0; cbn [fst snd]; lia.
    - lia.
    - unfold idx1; cbn [fst snd]; lia.
    - lia.
    - unfold idx2; cbn [fst snd]; lia.
  Qed.


  (** What [read_inline] reads: one range, at the start of the block-row of
      the inline, four times as long as the block-row. *)
Lemma read_inline_plan (self : SzReader) (il_id : Z) (s0 s1 : io_state) :
    SzReader_init (Some file) s0 = Ok (self, s1) ->
    codec_shape_ok decompress -> 0 <= il_id ->
    let row_bytes := chunk_bytes self * (idx1 (shape_pad self) / 4) in
    let run := read_inline file V decompress self il_id io_start in
    reads_of (log_of run)
    = [(data_start_bytes self + (il_id / 4) * row_bytes, 4 * row_bytes)] /\
    decoded_shapes (log_of run)
    = [(4, idx1 (shape_pad self), idx2 (shape_pad self))].
  Proof.
    intros Hinit C Hil row_bytes run.
    pose proof (SzReader_init_wf _ _ _ _ Hinit) as W.
    destruct (read_inline_run file V decompress self il_id io_start W C Hil)
      as (plane & p & _ & _ & Hrun).
    destruct (wf_facts self W)
      as (p0 & p1 & p2 & bz & Esp & Ebs & Ebz & Hbz & Hrt & Hbr & Eub & Ebb
          & Ecb & Hq & Hds & Hi & Hx & Ht & Hp0 & Hp0' & Hp1 & Hp1' & Hp2 & Hp2').
    unfold run. rewrite Hrun.
    cbn [log_of log io_start app reads_of decoded_shapes flat_map].
    split; [| reflexivity].
    unfold row_bytes. rewrite Esp. unfold idx1. cbn [fst snd].
    rewrite mul_div4 by assumption.
    f_equal. f_equal; [ring |].
    rewrite (div4_exact p1 Hp1) at 1. ring.
  Qed.
End Shapes.

(** How the unit count of [read_subvolume] relates to the minimal one. *)
Lemma units_minimal (lo hi : Z) :
  units lo hi = minimal_units lo hi + (if hi mod 4 =? 0 then 1 else 0).
Proof.
  unfold units, minimal_units.
  pose proof (Z_div_mod_eq_full hi 4) as Hh.
  pose proof (Z.mod_pos_bound hi 4 ltac:(lia)) as Hm.
  assert (H4 : (hi + 4) / 4 = hi / 4 + 1).
  { replace (hi + 4) with (hi + 1 * 4) by ring.
    rewrite Z.div_add by lia. reflexivity. }
  rewrite H4.
  destruct (Z.eqb_spec (hi mod 4) 0) as [E | E].
  - assert ((hi + 3) / 4 = hi / 4); [| lia].
    symmetry. apply Z.div_unique with (r := 3); lia.
  - assert ((hi + 3) / 4 = hi / 4 + 1); [| lia].
    symmetry. apply Z.div_unique with (r := hi mod 4 - 1); lia.
Qed.

(** ** Values of the decoded arrays *)

Lemma nth_error_map_range {A : Type} (f : Z -> A) (n i : Z) :
  0 <= i < n -> nth_error (map f (range n)) (Z.to_nat i) = Some (f i).
Proof.
  intros Hi. unfold range. rewrite map_map, nth_error_map, nth_error_seq.
  destruct (Nat.ltb_spec (Z.to_nat i) (Z.to_nat n)); [| lia].
  cbn [option_map Nat.add]. f_equal. f_equal. lia.
Qed.

Lemma nth_error_py_slice {A : Type} (l : list A) (lo hi i : Z) :
  0 <= lo -> 0 <= i < hi - lo ->
  nth_error (py_slice l lo hi) (Z.to_nat i) = nth_error l (Z.to_nat (lo + i)).
Proof.
  intros Hlo Hi. rewrite py_slice_nonneg by lia.
  rewrite nth_error_firstn.
  destruct (Nat.ltb_spec (Z.to_nat i) (Z.to_nat (hi - lo))); [| lia].
  rewrite nth_error_skipn. f_equal. lia.
Qed.

Lemma get2_trim {V : Type} (plane : list (list V)) (lo0 hi0 lo1 hi1 i j : Z) :
  0 <= lo0 -> 0 <= i < hi0 - lo0 -> 0 <= lo1 -> 0 <= j < hi1 - lo1 ->
  get2 (map (fun row => py_slice row lo1 hi1) (py_slice plane lo0 hi0)) i j
  = get2 plane (lo0 + i) (lo1 + j).
Proof.
  intros H0 Hi H1 Hj. unfold get2.
  rewrite nth_error_map, nth_error_py_slice by assumption.
  destruct (nth_error plane (Z.to_nat (lo0 + i))) as [row |]; cbn [option_map];
    [| reflexivity].
  now apply nth_error_py_slice.
Qed.

Lemma get3_trim {V : Type} (a : list (list (list V)))
    (lo0 hi0 lo1 hi1 lo2 hi2 i j k : Z) :
  0 <= lo0 -> 0 <= i < hi0 - lo0 -> 0 <= lo1 -> 0 <= j < hi1 - lo1 ->
  0 <= lo2 -> 0 <= k < hi2 - lo2 ->
  get3 (map (fun plane =>
               map (fun row => py_slice row lo2 hi2) (py_slice plane lo1 hi1))
            (py_slice a lo0 hi0)) i j k
  = get3 a (lo0 + i) (lo1 + j) (lo2 + k).
Proof.
  intros H0 Hi H1 Hj H2 Hk. unfold get3.
  rewrite nth_error_map, nth_error_py_slice by assumption.
  destruct (nth_error a (Z.to_nat (lo0 + i))) as [plane |]; cbn [option_map];
    [| reflexivity].
  now apply get2_trim.
Qed.

Lemma get3_blockwise {V : Type} (decode_unit : bytes -> Z -> Z -> Z -> V)
    (buffer : bytes) (shape : Z * Z * Z) (rt i j k : Z) :
  0 <= i < idx0 shape -> 0 <= j < idx1 shape -> 0 <= k < idx2 shape ->
  get3 (blockwise_decompress decode_unit buffer shape rt) i j k
  = Some (decode_unit
            (py_slice buffer
               ((((i / 4) * ((idx1 shape + 3) / 4) + j / 4)
                 * ((idx2 shape + 3) / 4) + k / 4) * (64 * rt / 8))
               ((((i / 4) * ((idx1 shape + 3) / 4) + j / 4)
                 * ((idx2 shape + 3) / 4) + k / 4 + 1) * (64 * rt / 8)))
            (i mod 4) (j mod 4) (k mod 4)).
Proof.
  intros Hi Hj Hk. unfold get3, get2, blockwise_decompress.
  rewrite nth_error_map_range by assumption.
  rewrite nth_error_map_range by assumption.
  rewrite nth_error_map_range by assumption.
  reflexivity.
Qed.

Lemma blockwise_shape_ok {V : Type} (decode_unit : bytes -> Z -> Z -> Z -> V) :
  codec_shape_ok (blockwise_decompress decode_unit).
Proof.
  intros buffer shape rt H0 H1 H2. unfold blockwise_decompress.
  split; [rewrite length_map; now apply length_range |].
  apply Forall_map, Forall_forall. intros i _.
  split; [rewrite length_map; now apply length_range |].
  apply Forall_map, Forall_forall. intros j _.
  rewrite length_map. now apply length_range.
Qed.

Lemma py_slice_pread (file : bytes) (off n a len : Z) :
  0 <= off -> 0 <= a -> 0 <= len -> a + len <= n ->
  py_slice (pread file off n) a (a + len) = pread file (off + a) len.
Proof.
  intros Hoff Ha Hlen Hn. unfold pread.
  destruct (Z.ltb_spec n 0); [lia |].
  destruct (Z.ltb_spec len 0); [lia |].
  rewrite py_slice_nonneg by lia.
  rewrite skipn_firstn_comm, firstn_firstn, skipn_skipn.
  replace (Z.to_nat (a + len - a)) with (Z.to_nat len) by lia.
  rewrite Nat.min_l by lia.
  f_equal. f_equal. lia.
Qed.

Lemma map_result_nth {A B : Type} (f : A -> result B) (l : list A)
    (ys : list B) (i : nat) (x : A) :
  map_result f l = Ok ys -> nth_error l i = Some x ->
  exists y, nth_error ys i = Some y /\ f x = Ok y.
Proof.
  revert ys i. induction l as [| x0 l IH]; intros ys i Hm Hn.
  - destruct i; discriminate.
  - cbn [map_result] in Hm.
    destruct (f x0) as [y0 |] eqn:E0; [| discriminate].
    destruct (map_result f l) as [ys0 |] eqn:E1; [| discriminate].
    inversion Hm. subst ys.
    destruct i as [| i]; cbn [nth_error] in *.
    + inversion Hn. subst. now exists y0.
    + now apply IH.
Qed.

Lemma np_index_nth {A : Type} (a : list A) (i : Z) (x : A) :
  0 <= i -> np_index a i = Ok x -> nth_error a (Z.to_nat i) = Some x.
Proof.
  intros Hi. unfold np_index.
  destruct (Z.ltb_spec i 0); [lia |].
  destruct (_ || _); [discriminate |].
  destruct (nth_error a (Z.to_nat i)); [| discriminate].
  intros Heq. inversion Heq. reflexivity.
Qed.

Lemma py_slice_middle {A : Type} (p x t : list A) (lo hi : Z) :
  lo = Z.of_nat (length p) -> hi = lo + Z.of_nat (length x) ->
  py_slice (p ++ x ++ t) lo hi = x.
Proof.
  intros -> ->. rewrite py_slice_nonneg by lia.
  rewrite Nat2Z.id.
  replace (Z.to_nat (Z.of_nat (length p) + Z.of_nat (length x)
                     - Z.of_nat (length p))) with (length x) by lia.
  rewrite skipn_app, skipn_all, Nat.sub_diag, skipn_O. cbn [app].
  rewrite firstn_app, firstn_all, Nat.sub_diag, firstn_O. apply app_nil_r.
Qed.

(** A slot of a buffer assembled from full units. *)
Lemma py_slice_concat_slot (c : Z) (d : Z -> bytes) (n k : Z) :
  0 <= c -> (forall j, 0 <= j < n -> length (d j) = Z.to_nat c) ->
  0 <= k < n ->
  py_slice (concat (map d (range n))) (k * c) (k * c + c) = d k.
Proof.
  intros Hc Hd Hk.
  assert (Hok : slots_ok (Z.to_nat c) (map d (range n))).
  { apply Forall_map, Forall_forall. intros j Hj. apply In_range in Hj.
    now apply Hd. }
  pose proof (nth_error_map_range d n k Hk) as Hnth.
  rewrite <- (firstn_skipn_middle _ _ Hnth).
  rewrite concat_app. cbn [concat].
  apply py_slice_middle.
  - rewrite (length_concat_slots (Z.to_nat c))
      by now apply slots_ok_firstn.
    rewrite length_firstn, length_map.
    rewrite Nat.min_l.
    + lia.
    + apply Nat2Z.inj_le. rewrite length_range; lia.
  - rewrite Hd by assumption. lia.
Qed.

(** ** The unit that holds a sample *)

Lemma wf_units (r : SzReader) :
  wf_reader r -> 4 <= idx2 (blockshape r) ->
  exists q4 Q,
    0 < q4 /\ 0 <= Q /\
    2048 / rate r = 4 * q4 /\
    idx2 (shape_pad r) = 4 * q4 * Q /\
    idx2 (shape_pad r) / 4 = q4 * Q /\
    idx2 (shape_pad r) / (2048 / rate r) = Q /\
    unit_bytes r * q4 = 4096 /\
    chunk_bytes r = unit_bytes r * (idx2 (shape_pad r) / 4).
Proof.
  intros W Hbz4.
  destruct (wf_facts r W)
    as (p0 & p1 & p2 & bz & Esp & Ebs & Ebz & Hbz & Hrt & Hbr & Eub & Ebb
        & Ecb & Hq & Hds & Hi & Hx & Ht & Hp0 & Hp0' & Hp1 & Hp1' & Hp2 & Hp2').
  rewrite Ebs in Hbz4. rewrite Esp. unfold idx2 in *. cbn [snd] in *.
  rewrite <- Ebz.
  pose proof (divisor_2048_multiple_of_4 bz (rate r) Hbr Hbz4) as Hbz0.
  pose proof (div4_exact bz Hbz0) as Hbq.
  pose proof (Z_div_mod_eq_full p2 bz) as Hpdm. rewrite Hp2 in Hpdm.
  exists (bz / 4), (p2 / bz).
  set (q4 := bz / 4) in *. set (Q := p2 / bz) in *.
  assert (Hp2Q : p2 = 4 * q4 * Q) by (rewrite <- Hbq; lia).
  assert (Hp24 : p2 / 4 = q4 * Q).
  { rewrite Hp2Q. replace (4 * q4 * Q) with (q4 * Q * 4) by ring.
    apply Z.div_mul. lia. }
  assert (Hub : unit_bytes r * q4 = 4096).
  { rewrite Eub. rewrite Hbq in Hbr. lia. }
  repeat split; try lia.
  rewrite Ecb, Hp24.
  replace (unit_bytes r * (q4 * Q)) with (unit_bytes r * q4 * Q) by ring.
  now rewrite Hub.
Qed.

Lemma div4_lt (a p : Z) : 0 <= a < p -> p mod 4 = 0 -> 0 <= a / 4 < p / 4.
Proof.
  intros Ha Hp. split; [apply Z.div_pos; lia |].
  apply Z.div_lt_upper_bound; [lia |]. rewrite <- (div4_exact p Hp). lia.
Qed.

Lemma subvolume_offset_origin (self : SzReader) (il xl z : Z) :
  subvolume_offset self il xl z 0 0
  = data_start_bytes self + unit_bytes self * (
      (il / 4) * (idx1 (shape_pad self) / 4) * (idx2 (shape_pad self) / 4)
      + (xl / 4) * (idx2 (shape_pad self) / 4) + z / 4).
Proof. unfold subvolume_offset. now rewrite !Z.add_0_l. Qed.

(** The unit of a sample of the padded volume lies in a complete file. *)
Lemma unit_in_file (file : bytes) (self : SzReader) (il xl z : Z) :
  wf_reader self -> 4 <= idx2 (blockshape self) ->
  file_complete file self ->
  0 <= il < idx0 (shape_pad self) -> 0 <= xl < idx1 (shape_pad self) ->
  0 <= z < idx2 (shape_pad self) ->
  0 <= subvolume_offset self il xl z 0 0 /\
  subvolume_offset self il xl z 0 0 + unit_bytes self
  <= Z.of_nat (length file).
Proof.
  intros W Hbz4 Hfile Hil Hxl Hz.
  destruct (wf_units self W Hbz4)
    as (q4 & Q & Hq4 & HQ & Ebz4 & Ep2 & Ep24 & EQ & Hub & Ecb').
  destruct (wf_facts self W)
    as (p0 & p1 & p2 & bz & Esp & Ebs & Ebz & Hbz & Hrt & Hbr & Eub & Ebb
        & Ecb & Hq & Hds & Hi & Hx & Ht & Hp0 & Hp0' & Hp1 & Hp1' & Hp2 & Hp2').
  rewrite subvolume_offset_origin.
  unfold file_complete in Hfile. rewrite Ecb' in Hfile.
  rewrite Esp in *. unfold idx0, idx1, idx2 in *. cbn [fst snd] in *.
  assert (Hp24 : p2 mod 4 = 0).
  { rewrite Ep2. replace (4 * q4 * Q) with (q4 * Q * 4) by ring.
    apply Z_mod_mult. }
  pose proof (div4_lt il p0 Hil Hp0) as Hi4.
  pose proof (div4_lt xl p1 Hxl Hp1) as Hx4.
  pose proof (div4_lt z p2 Hz Hp24) as Hz4.
  set (a := il / 4) in *. set (b := xl / 4) in *. set (c := z / 4) in *.
  set (P0 := p0 / 4) in *. set (P1 := p1 / 4) in *. set (P2 := p2 / 4) in *.
  assert (Hub0 : 0 <= unit_bytes self) by lia.
  assert (H1 : b * P2 + c + 1 <= P1 * P2).
  { assert ((b + 1) * P2 <= P1 * P2)
      by (apply Z.mul_le_mono_nonneg_r; lia).
    lia. }
  assert (H2 : a * P1 * P2 + P1 * P2 <= P0 * P1 * P2).
  { replace (a * P1 * P2 + P1 * P2) with ((a + 1) * (P1 * P2)) by ring.
    replace (P0 * P1 * P2) with (P0 * (P1 * P2)) by ring.
    apply Z.mul_le_mono_nonneg_r; [| lia].
    apply Z.mul_nonneg_nonneg; lia. }
  assert (H3 : 0 <= a * P1 * P2 + b * P2 + c).
  { assert (0 <= a * P1 * P2)
      by (apply Z.mul_nonneg_nonneg; [apply Z.mul_nonneg_nonneg |]; lia).
    assert (0 <= b * P2) by (apply Z.mul_nonneg_nonneg; lia).
    lia. }
  assert (H4 : unit_bytes self * (a * P1 * P2 + b * P2 + c + 1)
               <= unit_bytes self * (P0 * P1 * P2)).
  { apply Z.mul_le_mono_nonneg_l; lia. }
  assert (H5 : 0 <= unit_bytes self * (a * P1 * P2 + b * P2 + c))
    by (apply Z.mul_nonneg_nonneg; lia).
  split; [lia |].
  replace (P0 * P1 * (unit_bytes self * P2))
    with (unit_bytes self * (P0 * P1 * P2)) in Hfile by ring.
  lia.
Qed.

(** The offsets the three reads use for the unit of a sample agree. *)
Lemma inline_unit_offset (self : SzReader) (il xl z : Z) :
  wf_reader self -> 4 <= idx2 (blockshape self) ->
  data_start_bytes self
  + chunk_bytes self * idx1 (shape_pad self) / 4 * (il / 4)
  + ((xl / 4) * (idx2 (shape_pad self) / 4) + z / 4) * unit_bytes self
  = subvolume_offset self il xl z 0 0.
Proof.
  intros W Hbz4.
  destruct (wf_units self W Hbz4)
    as (q4 & Q & Hq4 & HQ & Ebz4 & Ep2 & Ep24 & EQ & Hub & Ecb').
  destruct (wf_facts self W)
    as (p0 & p1 & p2 & bz & Esp & _ & _ & _ & _ & _ & _ & _
        & _ & _ & _ & _ & _ & _ & _ & _ & Hp1 & _).
  rewrite subvolume_offset_origin, Ecb'.
  rewrite Esp in *. unfold idx1, idx2 in *. cbn [fst snd] in *.
  rewrite mul_div4 by assumption. ring.
Qed.

Lemma zslice_unit_offset (self : SzReader) (il xl z : Z) :
  wf_reader self -> 4 <= idx2 (blockshape self) ->
  zslice_offset self z ((il / 4) * (idx1 (shape_pad self) / 4) + xl / 4)
  = subvolume_offset self il xl z 0 0.
Proof.
  intros W Hbz4.
  destruct (wf_units self W Hbz4)
    as (q4 & Q & Hq4 & HQ & Ebz4 & Ep2 & Ep24 & EQ & Hub & Ecb').
  destruct (wf_facts self W)
    as (p0 & p1 & p2 & bz & Esp & Ebs & Ebz & Hbz & Hrt & Hbr & Eub & Ebb
        & _).
  rewrite subvolume_offset_origin. unfold zslice_offset.
  rewrite Ecb', Ebb, Ebs. unfold idx2 at 1 2. cbn [snd].
  rewrite <- Ebz in Ebz4.
  assert (Hz4 : z / 4 = q4 * (z / bz) + z mod bz / 4).
  { rewrite (Z_div_mod_eq_full z bz) at 1. rewrite Ebz4 at 1.
    replace (4 * q4 * (z / bz) + z mod bz)
      with (z mod bz + q4 * (z / bz) * 4) by ring.
    rewrite Z.div_add by lia. ring. }
  rewrite Hz4. rewrite <- Hub. ring.
Qed.

(** ** The first unit of a subvolume buffer *)

Lemma range_cons (n : Z) :
  1 <= n ->
  exists tail, range n = 0 :: tail /\ Forall (fun k => 1 <= k) tail.
Proof.
  intros Hn. unfold range.
  destruct (Z.to_nat n) as [| m] eqn:E; [lia |].
  cbn [seq map]. exists (map Z.of_nat (seq 1 m)). split; [reflexivity |].
  apply Forall_map, Forall_forall. intros k Hk. apply in_seq in Hk. lia.
Qed.

Lemma slice_assign_keeps_prefix {A : Type} (c : nat) (U buf d : list A)
    (s e : Z) :
  length U = c -> firstn c buf = U -> Z.of_nat c <= s ->
  firstn c (slice_assign buf s e d) = U.
Proof.
  intros HU Hf Hs.
  assert (Hlen : (c <= length buf)%nat).
  { rewrite <- Hf in HU. rewrite length_firstn in HU. lia. }
  unfold slice_assign. rewrite (slice_index_nonneg _ s) by lia.
  rewrite firstn_app, firstn_firstn, length_firstn.
  rewrite (Nat.min_l c) by lia.
  replace (c - Init.Nat.min (Z.to_nat (Z.min s (Z.of_nat (length buf))))
                            (length buf))%nat with 0%nat by lia.
  rewrite firstn_O, app_nil_r. exact Hf.
Qed.

Lemma slice_assign_first {A : Type} (c : nat) (buf d : list A) (e : Z) :
  (c <= length d)%nat ->
  firstn c (slice_assign buf 0 e d) = firstn c d.
Proof.
  intros Hc. unfold slice_assign.
  rewrite (slice_index_nonneg _ 0) by lia.
  rewrite Z.min_l by lia. change (Z.to_nat 0) with 0%nat.
  rewrite firstn_O. cbn [app].
  rewrite firstn_app.
  replace (c - length d)%nat with 0%nat by lia.
  rewrite firstn_O. apply app_nil_r.
Qed.

Lemma firstn_pread (file : bytes) (off n len : Z) :
  0 <= len -> len <= n ->
  firstn (Z.to_nat len) (pread file off n) = pread file off len.
Proof.
  intros Hl Hn. unfold pread.
  destruct (Z.ltb_spec n 0); [lia |].
  destruct (Z.ltb_spec len 0); [lia |].
  rewrite firstn_firstn. f_equal. lia.
Qed.

Lemma fold_left_invariant {A B : Type} (P : A -> Prop) (f : A -> B -> A)
    (l : list B) :
  (forall a x, In x l -> P a -> P (f a x)) ->
  forall a, P a -> P (fold_left f l a).
Proof.
  induction l as [| x l IH]; intros Hf a Ha; cbn [fold_left]; [assumption |].
  apply IH.
  - intros b y Hy. apply Hf. now right.
  - apply Hf; [now left | assumption].
Qed.

Lemma subvolume_buffer_prefix (file : bytes) (self : SzReader)
    (min_il max_il min_xl max_xl min_z max_z : Z) :
  0 <= unit_bytes self ->
  1 <= units min_il max_il -> 1 <= units min_xl max_xl ->
  1 <= units min_z max_z ->
  0 <= subvolume_offset self min_il min_xl min_z 0 0 ->
  subvolume_offset self min_il min_xl min_z 0 0 + unit_bytes self
  <= Z.of_nat (length file) ->
  firstn (Z.to_nat (unit_bytes self))
         (subvolume_buffer file self min_il max_il min_xl max_xl min_z max_z)
  = pread file (subvolume_offset self min_il min_xl min_z 0 0)
          (unit_bytes self).
Proof.
  intros Hub Hiu Hxu Hzu Hoff Hin.
  unfold subvolume_buffer.
  set (zu := units min_z max_z) in *.
  set (xu := units min_xl max_xl) in *.
  set (iu := units min_il max_il) in *.
  set (ub := unit_bytes self) in *.
  set (U := pread file (subvolume_offset self min_il min_xl min_z 0 0) ub).
  assert (HU : length U = Z.to_nat ub).
  { unfold U. apply length_pread; lia. }
  destruct (range_cons iu Hiu) as (ti & Ei & Hti).
  destruct (range_cons xu Hxu) as (tx & Ex & Htx).
  rewrite Forall_forall in Hti, Htx.
  assert (Hzub : ub <= ub * zu).
  { replace ub with (ub * 1) at 1 by ring.
    apply Z.mul_le_mono_nonneg_l; lia. }
  assert (Hstep : forall i x buf,
             0 <= i -> 0 <= x -> 1 <= i \/ 1 <= x ->
             firstn (Z.to_nat ub) buf = U ->
             firstn (Z.to_nat ub)
               (slice_assign buf ((i * xu * zu + x * zu) * ub)
                  ((i * xu * zu + x * zu) * ub + ub * zu)
                  (pread file (subvolume_offset self min_il min_xl min_z i x)
                         (ub * zu))) = U).
  { intros i x buf Hi Hx Hor Hbuf.
    apply slice_assign_keeps_prefix; try assumption.
    rewrite Z2Nat.id by lia.
    assert (H1 : 1 <= i * xu * zu + x * zu).
    { assert (0 <= i * xu) by (apply Z.mul_nonneg_nonneg; lia).
      assert (0 <= i * xu * zu) by (apply Z.mul_nonneg_nonneg; lia).
      assert (0 <= x * zu) by (apply Z.mul_nonneg_nonneg; lia).
      destruct Hor as [Hi1 | Hx1].
      - assert (1 * 1 <= i * xu) by (apply Z.mul_le_mono_nonneg; lia).
        assert (1 * 1 <= i * xu * zu) by (apply Z.mul_le_mono_nonneg; lia).
        lia.
      - assert (1 * 1 <= x * zu) by (apply Z.mul_le_mono_nonneg; lia).
        lia. }
    replace ub with (1 * ub) at 1 by ring.
    apply Z.mul_le_mono_nonneg_r; lia. }
  rewrite Ei. cbn [fold_left].
  apply fold_left_invariant with (P := fun buf => firstn (Z.to_nat ub) buf = U).
  - intros buf i Hi Hbuf. specialize (Hti i Hi).
    apply fold_left_invariant
      with (P := fun buf => firstn (Z.to_nat ub) buf = U); [| assumption].
    intros buf' x Hx Hbuf'. apply In_range in Hx.
    apply Hstep; try assumption; lia.
  - rewrite Ex. cbn [fold_left].
    apply fold_left_invariant
      with (P := fun buf => firstn (Z.to_nat ub) buf = U).
    + intros buf x Hx Hbuf. specialize (Htx x Hx).
      apply Hstep; try assumption; lia.
    + replace ((0 * xu * zu + 0 * zu) * ub) with 0 by ring.
      rewrite slice_assign_first.
      * unfold U. apply firstn_pread; lia.
      * assert (Hl : (Z.to_nat ub
                      <= length (pread file
                                   (subvolume_offset self min_il min_xl min_z
                                                     0 0)
                                   (ub * zu)))%nat).
        { unfold pread. destruct (Z.ltb_spec (ub * zu) 0); [lia |].
          rewrite length_firstn, length_skipn. lia. }
        lia.
Qed.

(** ** One sample through the three reads *)

Lemma ceil4_exact (p : Z) : p mod 4 = 0 -> (p + 3) / 4 = p / 4.
Proof.
  intros H. symmetry. apply Z.div_unique with (r := 3); [lia |].
  pose proof (div4_exact p H). lia.
Qed.

Lemma unit_bytes_codec (r : SzReader) :
  wf_reader r -> 64 * rate r / 8 = unit_bytes r.
Proof.
  intros W. rewrite (wf_unit_bytes r W).
  replace (64 * rate r) with (8 * rate r * 8) by ring.
  apply Z.div_mul. lia.
Qed.

Lemma get3_Some {V : Type} (a : list (list (list V))) (i j k : Z) (v : V) :
  get3 a i j k = Some v ->
  exists plane row,
    nth_error a (Z.to_nat i) = Some plane /\
    nth_error plane (Z.to_nat j) = Some row /\
    nth_error row (Z.to_nat k) = Some v.
Proof.
  unfold get3, get2.
  destruct (nth_error a (Z.to_nat i)) as [plane |] eqn:E0; [| discriminate].
  destruct (nth_error plane (Z.to_nat j)) as [row |] eqn:E1; [| discriminate].
  intros H. exists plane, row. repeat split; assumption.
Qed.

Section Consistency.
Variable file : bytes.
Variable V : Type.
Variable decode_unit : bytes -> Z -> Z -> Z -> V.

Local Abbreviation decompress := (blockwise_decompress decode_unit).
Local Abbreviation sample := (unit_value decode_unit file).

Lemma read_inline_value (self : SzReader) (il xl z : Z) (s : io_state) :
    wf_reader self -> 4 <= idx2 (blockshape self) ->
    0 <= il -> 0 <= xl < xlines self -> 0 <= z < tracelength self ->
    exists a,
      value_of (read_inline file V decompress self il s) = Ok a /\
      get2 a xl z = Some (sample self il xl z).
  Proof.
    intros W Hbz4 Hil Hxl Hz.
    destruct (read_inline_run file V decompress self il s W
                (blockwise_shape_ok decode_unit) Hil)
      as (plane & p & Hnth & _ & Hrun).
    destruct (wf_units self W Hbz4)
      as (q4 & Q & Hq4 & HQ & Ebz4 & Ep2 & Ep24 & EQ & Hub & Ecb').
    destruct (wf_facts self W)
      as (p0 & p1 & p2 & bz & Esp & Ebs & Ebz & Hbz & Hrt & Hbr & Eub & Ebb
          & Ecb & Hq & Hds & Hi & Hx & Ht & Hp0 & Hp0' & Hp1 & Hp1' & Hp2 & Hp2').
    rewrite Hrun. cbn [value_of]. eexists. split; [reflexivity |].
    rewrite get2_trim by lia. rewrite !Z.add_0_l.
    assert (Hp24 : p2 mod 4 = 0).
    { rewrite Esp in Ep2. unfold idx2 in Ep2. cbn [snd] in Ep2. rewrite Ep2.
      replace (4 * q4 * Q) with (q4 * Q * 4) by ring. apply Z_mod_mult. }
    pose proof (Z.mod_pos_bound il 4 ltac:(lia)) as Hm.
    assert (Hg : get3 (decompress
                         (pread file
                            (data_start_bytes self
                             + chunk_bytes self * idx1 (shape_pad self) / 4
                               * (il / 4))
                            (chunk_bytes self * idx1 (shape_pad self)))
                         (4, idx1 (shape_pad self), idx2 (shape_pad self))
                         (rate self)) (il mod 4) xl z
                 = get2 plane xl z).
    { unfold get3. now rewrite Hnth. }
    rewrite <- Hg.
    rewrite get3_blockwise
      by (unfold idx0, idx1, idx2; rewrite Esp; cbn [fst snd]; lia).
    unfold unit_value. rewrite Z.mod_mod by lia.
    rewrite (unit_bytes_codec self W).
    unfold idx1 at 1 2 3 4, idx2 at 1 2. cbn [fst snd].
    rewrite Esp in *. unfold idx1, idx2 in *. cbn [fst snd] in *.
    rewrite (Z.div_small (il mod 4) 4) by lia.
    rewrite (ceil4_exact p2 Hp24).
    rewrite Z.mul_0_l, Z.add_0_l.
    pose proof (div4_lt xl p1 ltac:(lia) Hp1) as Hx4.
    pose proof (div4_lt z p2 ltac:(lia) Hp24) as Hz4.
    set (u := xl / 4 * (p2 / 4) + z / 4).
    assert (Hu0 : 0 <= u).
    { unfold u. assert (0 <= xl / 4 * (p2 / 4))
        by (apply Z.mul_nonneg_nonneg; lia). lia. }
    assert (Hu1 : u + 1 <= p1 / 4 * (p2 / 4)).
    { unfold u.
      assert ((xl / 4 + 1) * (p2 / 4) <= p1 / 4 * (p2 / 4))
        by (apply Z.mul_le_mono_nonneg_r; lia).
      lia. }
    assert (Hub0 : 0 <= unit_bytes self) by lia.
    replace ((u + 1) * unit_bytes self)
      with (u * unit_bytes self + unit_bytes self) by ring.
    rewrite py_slice_pread.
    - f_equal. f_equal.
      rewrite <- (inline_unit_offset self il xl z W Hbz4).
      rewrite Esp. unfold idx1, idx2. cbn [fst snd]. reflexivity.
    - assert (0 <= chunk_bytes self * p1 / 4).
      { apply Z.div_pos; [| lia]. apply Z.mul_nonneg_nonneg; lia. }
      assert (0 <= il / 4) by (apply Z.div_pos; lia).
      assert (0 <= chunk_bytes self * p1 / 4 * (il / 4))
        by (apply Z.mul_nonneg_nonneg; lia).
      lia.
    - apply Z.mul_nonneg_nonneg; lia.
    - lia.
    - rewrite Ecb'.
      assert (H1 : (u + 1) * unit_bytes self
                   <= p1 / 4 * (p2 / 4) * unit_bytes self)
        by (apply Z.mul_le_mono_nonneg_r; lia).
      assert (H2 : p1 / 4 * (unit_bytes self * (p2 / 4))
                   <= p1 * (unit_bytes self * (p2 / 4))).
      { apply Z.mul_le_mono_nonneg_r.
        - apply Z.mul_nonneg_nonneg; lia.
        - pose proof (div4_exact p1 Hp1). lia. }
      lia.
  Qed.

Lemma read_subvolume_value (self : SzReader) (il xl z : Z) (s : io_state) :
    wf_reader self -> 4 <= idx2 (blockshape self) ->
    file_complete file self ->
    0 <= il < ilines self -> 0 <= xl < xlines self ->
    0 <= z < tracelength self ->
    exists a,
      value_of (read_subvolume file V decompress self
                               il (il + 1) xl (xl + 1) z (z + 1) s) = Ok a /\
      get3 a 0 0 0 = Some (sample self il xl z).
  Proof.
    intros W Hbz4 Hfile Hil Hxl Hz.
    destruct (units_cover il (il + 1)) as [_ Hic]; try lia.
    destruct (units_cover xl (xl + 1)) as [_ Hxc]; try lia.
    destruct (units_cover z (z + 1)) as [_ Hzc]; try lia.
    pose proof (Z.mod_pos_bound il 4 ltac:(lia)) as Him.
    pose proof (Z.mod_pos_bound xl 4 ltac:(lia)) as Hxm.
    pose proof (Z.mod_pos_bound z 4 ltac:(lia)) as Hzm.
    destruct (read_subvolume_run file V decompress self
                il (il + 1) xl (xl + 1) z (z + 1) s W)
      as [p Hrun]; try lia.
    destruct (wf_facts self W)
      as (p0 & p1 & p2 & bz & Esp & Ebs & Ebz & Hbz & Hrt & Hbr & Eub & Ebb
          & Ecb & Hq & Hds & Hi & Hx & Ht & Hp0 & Hp0' & Hp1 & Hp1' & Hp2 & Hp2').
    destruct (unit_in_file file self il xl z W Hbz4 Hfile) as [Hoff Hin];
      try (rewrite Esp; unfold idx0, idx1, idx2; cbn [fst snd]; lia).
    rewrite Hrun. cbn [value_of]. eexists. split; [reflexivity |].
    unfold subvolume_trim.
    rewrite get3_trim by lia. rewrite !Z.add_0_r.
    rewrite get3_blockwise by (unfold idx0, idx1, idx2; cbn [fst snd]; lia).
    unfold unit_value. rewrite !Z.mod_mod by lia.
    rewrite (unit_bytes_codec self W).
    rewrite !(Z.div_small (_ mod 4) 4) by lia.
    match goal with
    | |- context [py_slice _ ?lo ?hi] =>
      replace lo with 0 by ring; replace hi with (unit_bytes self) by ring
    end.
    f_equal. f_equal.
    rewrite py_slice_nonneg by lia.
    rewrite Z.sub_0_r. change (Z.to_nat 0) with 0%nat. rewrite skipn_O.
    apply subvolume_buffer_prefix; lia.
  Qed.

Lemma zslice_decode_value (self : SzReader) (zslice_id : Z)
      (buffer : bytes) (t : io_state) (a : list (list V)) :
    value_of (zslice_decode V decompress self zslice_id buffer t) = Ok a ->
    map_result
      (fun plane =>
         map_result (fun row => np_index row (zslice_id mod 4))
                    (py_slice plane 0 (xlines self)))
      (py_slice (decompress buffer
                   (idx0 (shape_pad self), idx1 (shape_pad self), 4)
                   (rate self)) 0 (ilines self)) = Ok a.
  Proof.
    unfold zslice_decode. rewrite decompress_run. unfold lift.
    destruct (map_result _ _) as [ys |]; cbn [value_of]; intros H;
      [now inversion H | discriminate].
  Qed.

Lemma read_zslice_value (self : SzReader) (il xl z : Z) (s : io_state) :
    wf_reader self -> 4 <= idx2 (blockshape self) ->
    file_complete file self ->
    0 <= il < ilines self -> 0 <= xl < xlines self ->
    0 <= z < tracelength self ->
    exists a,
      value_of (read_zslice file V decompress self z s) = Ok a /\
      get2 a il xl = Some (sample self il xl z).
  Proof.
    intros W Hbz4 Hfile Hil Hxl Hz.
    destruct (read_zslice_run file V decompress self z s W
                (blockwise_shape_ok decode_unit) ltac:(lia))
      as (a & p & _ & Hdec & Hrun).
    specialize (Hdec io_start). apply zslice_decode_value in Hdec.
    rewrite (zslice_fill_any_order file self z (zslice_block_ids self)
               W Hbz4 Hz Hfile (Permutation_refl _)) in Hdec.
    destruct (wf_facts self W)
      as (p0 & p1 & p2 & bz & Esp & Ebs & Ebz & Hbz & Hrt & Hbr & Eub & Ebb
          & Ecb & Hq & Hds & Hi & Hx & Ht & Hp0 & Hp0' & Hp1 & Hp1' & Hp2 & Hp2').
    exists a. rewrite Hrun. split; [reflexivity |].
    pose proof (Z.mod_pos_bound z 4 ltac:(lia)) as Hzm.
    set (buffer := concat _) in Hdec.
    set (shape := (idx0 (shape_pad self), idx1 (shape_pad self), 4)) in Hdec.
    assert (Hg : get3 (decompress buffer shape (rate self)) il xl (z mod 4)
                 = Some (sample self il xl z)).
    { unfold shape.
      rewrite get3_blockwise
        by (unfold idx0, idx1, idx2; rewrite Esp; cbn [fst snd]; lia).
      unfold unit_value. rewrite Z.mod_mod by lia.
      rewrite (unit_bytes_codec self W).
      rewrite <- (zslice_unit_offset self il xl z W Hbz4).
      unfold buffer, zslice_block_ids.
      rewrite Esp. unfold idx0, idx1, idx2. cbn [fst snd].
      change ((4 + 3) / 4) with 1.
      rewrite (Z.div_small (z mod 4) 4) by lia.
      rewrite (ceil4_exact p1 Hp1).
      rewrite !Z.mul_1_r, !Z.add_0_r.
      f_equal. f_equal.
      replace ((il / 4 * (p1 / 4) + xl / 4 + 1) * unit_bytes self)
        with ((il / 4 * (p1 / 4) + xl / 4) * unit_bytes self
              + unit_bytes self) by ring.
      pose proof (div4_lt il p0 ltac:(lia) Hp0) as Hi4.
      pose proof (div4_lt xl p1 ltac:(lia) Hp1) as Hx4.
      apply (py_slice_concat_slot (unit_bytes self)
               (fun b => pread file (zslice_offset self z b)
                               (unit_bytes self))).
      - lia.
      - intros j Hj. apply length_pread; try lia.
        + apply zslice_offset_nonneg; try assumption; lia.
        + apply zslice_unit_in_file; try assumption.
          rewrite Esp. unfold idx0, idx1. cbn [fst snd]. exact Hj.
      - split.
        + assert (0 <= il / 4 * (p1 / 4))
            by (apply Z.mul_nonneg_nonneg; lia).
          lia.
        + assert ((il / 4 + 1) * (p1 / 4) <= p0 / 4 * (p1 / 4))
            by (apply Z.mul_le_mono_nonneg_r; lia).
          lia. }
    apply get3_Some in Hg. destruct Hg as (plane & row & Hn0 & Hn1 & Hn2).
    destruct (map_result_nth _ _ _ (Z.to_nat il) plane Hdec)
      as (ys & Hys & Hmap).
    { rewrite <- (Z.add_0_l il) in Hn0.
      rewrite nth_error_py_slice by lia. exact Hn0. }
    destruct (map_result_nth _ _ _ (Z.to_nat xl) row Hmap)
      as (y & Hy & Hidx).
    { rewrite <- (Z.add_0_l xl) in Hn1.
      rewrite nth_error_py_slice by lia. exact Hn1. }
    apply np_index_nth in Hidx; [| lia].
    unfold get2. rewrite Hys, Hy. congruence.
  Qed.

  (** C4, for codecs that decode unit by unit: the sample that
      [read_subvolume(il, il+1, xl, xl+1, z, z+1)] returns at [0, 0, 0] is
      the one [read_zslice(z)] holds at [il, xl] and [read_inline(il)] at
      [xl, z]. *)
Theorem cross_pattern_consistency (self : SzReader) (il xl z : Z)
      (s0 s1 : io_state) :
    SzReader_init (Some file) s0 = Ok (self, s1) ->
    4 <= idx2 (blockshape self) ->
    file_complete file self ->
    0 <= il < ilines self -> 0 <= xl < xlines self ->
    0 <= z < tracelength self ->
    exists v sub zsl inl,
      value_of (read_subvolume file V (blockwise_decompress decode_unit) self
                               il (il + 1) xl (xl + 1) z (z + 1) io_start)
      = Ok sub /\
      value_of (read_zslice file V (blockwise_decompress decode_unit) self z
                            io_start) = Ok zsl /\
      value_of (read_inline file V (blockwise_decompress decode_unit) self il
                            io_start) = Ok inl /\
      get3 sub 0 0 0 = Some v /\
      get2 zsl il xl = Some v /\
      get2 inl xl z = Some v.
  Proof.
    intros Hinit Hbz4 Hfile Hil Hxl Hz.
    pose proof (SzReader_init_wf _ _ _ _ Hinit) as W.
    destruct (read_subvolume_value self il xl z io_start W Hbz4 Hfile Hil Hxl Hz)
      as (sub & Hsub & Hv1).
    destruct (read_zslice_value self il xl z io_start W Hbz4 Hfile Hil Hxl Hz)
      as (zsl & Hzsl & Hv2).
    destruct (read_inline_value self il xl z io_start W Hbz4
                ltac:(lia) Hxl Hz) as (inl & Hinl & Hv3).
    exists (sample self il xl z), sub, zsl, inl.
    repeat split; assumption.
  Qed.
End Consistency.

(** ** The sample files *)

Lemma first_byte_shape_ok : codec_shape_ok first_byte_decompress.
Proof.
  intros buffer shape rt H0 H1 H2. unfold first_byte_decompress.
  split; [rewrite length_map; now apply length_range |].
  apply Forall_map, Forall_forall. intros i _.
  split; [rewrite length_map; now apply length_range |].
  apply Forall_map, Forall_forall. intros j _.
  rewrite length_map. now apply length_range.
Qed.

Lemma sample_file_opens :
  SzReader_init (Some sample_file) io_start
  = Ok (sample_reader, mkIO 4096 [EvRead 0 4096]).
Proof. vm_compute. reflexivity. Qed.

Lemma sample_file_complete : file_complete sample_file sample_reader.
Proof. unfold file_complete. vm_compute. discriminate. Qed.

Lemma aligned_file_opens :
  SzReader_init (Some aligned_file) io_start
  = Ok (aligned_reader, mkIO 4096 [EvRead 0 4096]).
Proof. vm_compute. reflexivity. Qed.

(** ** The claims on the sample files *)

(** C1, refuted: on the sample file of 5 inlines, [read_inline(5)], the
    index one past the last inline, and [read_subvolume(5, 3, 0, 1, 0, 1)],
    with lo > hi, both return an array; nothing is raised. *)
Lemma reads_accept_invalid_bounds :
  value_of (SzReader_init (Some sample_file) io_start) = Ok sample_reader /\
  ilines sample_reader = 5 /\
  (exists a,
     value_of (read_inline sample_file Z first_byte_decompress sample_reader
                           5 io_start) = Ok a) /\
  (exists a,
     value_of (read_subvolume sample_file Z first_byte_decompress
                              sample_reader 5 3 0 1 0 1 io_start) = Ok a).
Proof.
  split; [vm_compute; reflexivity |].
  split; [reflexivity |].
  split; eexists; vm_compute; reflexivity.
Qed.

(** C2, at a bound on a unit boundary: on the file of 4 x 4 x 256 samples,
    [read_subvolume(0, 4, 0, 4, 0, 4)] takes two units along every axis where
    one meets [0, 4); it plans four ranges of two units, three of which start
    at or past the end of the file, and hands the codec 256 bytes for a shape
    of 8 x 8 x 8 samples, which is 512 bytes. *)
Theorem read_subvolume_reads_extra_units :
  value_of (SzReader_init (Some aligned_file) io_start) = Ok aligned_reader /\
  units 0 4 = 2 /\ minimal_units 0 4 = 1 /\
  Z.of_nat (length aligned_file) = 8192 /\
  let run := read_subvolume aligned_file Z first_byte_decompress
                            aligned_reader 0 4 0 4 0 4 io_start in
  reads_of (log_of run)
  = [(4096, 128); (8192, 128); (8192, 128); (12288, 128)] /\
  decoded_shapes (log_of run) = [(8, 8, 8)] /\
  map (fun b => Z.of_nat (length b)) (decoded_buffers (log_of run)) = [256].
Proof.
  split; [vm_compute; reflexivity |].
  split; [reflexivity |]. split; [reflexivity |].
  split; [vm_compute; reflexivity |].
  cbv zeta. split; [vm_compute; reflexivity |].
  split; vm_compute; reflexivity.
Qed.

(** C3, the length of the read: on the sample file, whose block-rows are
    [chunk_bytes * (shape_pad[1] // 4)] = 8192 bytes long, [read_inline(0)]
    asks for 32768 bytes in its one read and hands the codec the 16384 bytes
    that the file holds from there, both block-rows, for the shape
    (4, 8, 256). *)
Theorem read_inline_reads_four_rows :
  value_of (SzReader_init (Some sample_file) io_start) = Ok sample_reader /\
  chunk_bytes sample_reader * (idx1 (shape_pad sample_reader) / 4) = 8192 /\
  let run := read_inline sample_file Z first_byte_decompress sample_reader
                         0 io_start in
  reads_of (log_of run) = [(4096, 32768)] /\
  decoded_shapes (log_of run) = [(4, 8, 256)] /\
  map (fun b => Z.of_nat (length b)) (decoded_buffers (log_of run)) = [16384].
Proof.
  split; [vm_compute; reflexivity |].
  split; [reflexivity |].
  cbv zeta. split; [vm_compute; reflexivity |].
  split; vm_compute; reflexivity.
Qed.

(** C4, refuted for a codec of which only determinism is known: with the
    codec whose every value is the first byte of the buffer, the sample
    (0, 4, 0) of the sample file is 65 through [read_subvolume] and 1 through
    [read_inline]. *)
Lemma consistency_needs_unitwise_codec :
  value_of (SzReader_init (Some sample_file) io_start) = Ok sample_reader /\
  exists sub inl,
    value_of (read_subvolume sample_file Z first_byte_decompress
                             sample_reader 0 1 4 5 0 1 io_start) = Ok sub /\
    value_of (read_inline sample_file Z first_byte_decompress sample_reader
                          0 io_start) = Ok inl /\
    get3 sub 0 0 0 = Some 65 /\
    get2 inl 4 0 = Some 1.
Proof.
  split; [vm_compute; reflexivity |].
  eexists. eexists.
  split; [vm_compute; reflexivity |].
  split; [vm_compute; reflexivity |].
  split; vm_compute; reflexivity.
Qed.

Lemma cross_pattern_consistency_witness :
  exists v sub zsl inl,
    value_of (read_subvolume sample_file (Z * Z)
                (blockwise_decompress tag_unit) sample_reader
                4 5 5 6 249 250 io_start) = Ok sub /\
    value_of (read_zslice sample_file (Z * Z)
                (blockwise_decompress tag_unit) sample_reader 249 io_start)
    = Ok zsl /\
    value_of (read_inline sample_file (Z * Z)
                (blockwise_decompress tag_unit) sample_reader 4 io_start)
    = Ok inl /\
    get3 sub 0 0 0 = Some v /\
    get2 zsl 4 5 = Some v /\
    get2 inl 5 249 = Some v.
Proof.
  apply (cross_pattern_consistency sample_file (Z * Z) tag_unit sample_reader
           4 5 249 io_start _ sample_file_opens).
  - vm_compute. discriminate.
  - exact sample_file_complete.
  - vm_compute. split; [discriminate | reflexivity].
  - vm_compute. split; [discriminate | reflexivity].
  - vm_compute. split; [discriminate | reflexivity].
Defined.

Lemma layout_from_header_witness :
  rate sample_reader = bytes_to_int (py_slice sample_file 40 44) /\
  rounded_up (tracelength sample_reader) (idx2 (blockshape sample_reader))
             (idx2 (shape_pad sample_reader)).
Proof.
  destruct (layout_from_header sample_file io_start _ sample_reader
                               sample_file_opens)
    as (_ & _ & _ & _ & Hrate & _ & _ & _ & _ & Hpad & _).
  split; assumption.
Defined.

(** ** seismicfile.py *)

(** C10: with any [filetype] given, [SeismicFile.open] raises before a
    library is called: [ext] is read without ever being bound. *)
Theorem open_with_filetype_raises
    (splitext : String.string -> String.string * String.string)
    (lower : String.string -> String.string) (H : Type)
    (segyio_open zgyio_open : String.string -> result H)
    (filename : String.string) (filetype : SeismicFile.Filetype) :
  SeismicFile.open splitext lower H segyio_open zgyio_open filename
                   (Some filetype)
  = ([], Raise UnboundLocalError).
Proof. reflexivity. Qed.

(** * Further properties of the code *)

(** ** utils.py *)

(** X1: [pad(orig, multiple)], for a positive [multiple], is the least
    multiple of [multiple] that is not below [orig]. *)
Theorem pad_least_multiple (orig multiple : Z) :
  0 < multiple ->
  exists p,
    pad orig multiple = Ok p /\
    p mod multiple = 0 /\ orig <= p /\
    forall q, q mod multiple = 0 -> orig <= q -> p <= q.
Proof.
  intros Hm.
  assert (Hp : exists p, pad orig multiple = Ok p).
  { unfold pad. destruct (Z.eqb_spec multiple 0); [lia |].
    destruct (orig mod multiple =? 0); eexists; reflexivity. }
  destruct Hp as [p Hp]. exists p. split; [exact Hp |].
  destruct (pad_round_up orig multiple p Hm Hp) as [Hmod Hb].
  split; [exact Hmod |]. split; [lia |].
  intros q Hq Hoq.
  destruct (Z.le_gt_cases p q) as [Hle | Hgt]; [exact Hle | exfalso].
  pose proof (Z_div_mod_eq_full p multiple) as Ep. rewrite Hmod in Ep.
  pose proof (Z_div_mod_eq_full q multiple) as Eq. rewrite Hq in Eq.
  assert (Hdiv : q / multiple + 1 <= p / multiple).
  { destruct (Z.le_gt_cases (p / multiple) (q / multiple)) as [Hc | Hc];
      [| lia].
    assert (multiple * (p / multiple) <= multiple * (q / multiple))
      by (apply Z.mul_le_mono_nonneg_l; lia).
    lia. }
  assert (multiple * (q / multiple + 1) <= multiple * (p / multiple))
    by (apply Z.mul_le_mono_nonneg_l; lia).
  lia.
Qed.

Lemma pad_least_multiple_witness :
  exists p,
    pad 250 256 = Ok p /\
    p mod 256 = 0 /\ 250 <= p /\
    forall q, q mod 256 = 0 -> 250 <= q -> p <= q.
Proof. apply (pad_least_multiple 250 256). lia. Defined.

(** X2: padding is idempotent: what [pad] returns it returns again when
    padded to the same multiple. *)
Theorem pad_idempotent (orig multiple p : Z) :
  pad orig multiple = Ok p -> pad p multiple = Ok p.
Proof.
  intros H. apply pad_Ok in H. destruct H as [Hm Hp].
  assert (Hmod : p mod multiple = 0).
  { rewrite Hp. destruct (Z.eqb_spec (orig mod multiple) 0) as [E | E].
    - exact E.
    - rewrite Z.mul_comm. apply Z_mod_mult. }
  unfold pad. destruct (Z.eqb_spec multiple 0); [contradiction |].
  rewrite Hmod. reflexivity.
Qed.

Lemma pad_idempotent_witness : pad 256 256 = Ok 256.
Proof. apply (pad_idempotent 250 256 256). reflexivity. Defined.

Lemma bytes_to_int_range (bs : bytes) :
  0 <= bytes_to_int bs < 256 ^ Z.of_nat (length bs).
Proof.
  induction bs as [| b rest IH]; cbn [bytes_to_int length].
  - cbn. lia.
  - rewrite Nat2Z.inj_succ, Z.pow_succ_r by lia.
    pose proof (N2Z.is_nonneg (Byte.to_N b)) as H0.
    pose proof (Byte.to_N_bounded b) as H1.
    assert (Z.of_N (Byte.to_N b) <= 255) by lia.
    lia.
Qed.

(** X3: [bytes_to_int] of [n] bytes is a natural number below 256^n; a
    4-byte header field is below 2^32. *)
Theorem bytes_to_int_bound (bs : bytes) :
  0 <= bytes_to_int bs < 256 ^ Z.of_nat (length bs).
Proof. exact (bytes_to_int_range bs). Qed.

Lemma byte_of_Z_value (z : Z) :
  Z.of_N (Byte.to_N (byte_of_Z z)) = z mod 256.
Proof.
  unfold byte_of_Z.
  pose proof (Z.mod_pos_bound z 256 ltac:(lia)) as Hb.
  destruct (Byte.of_N (Z.to_N (z mod 256))) as [b |] eqn:E.
  - apply Byte.to_of_N in E. rewrite E. lia.
  - apply Byte.of_N_None_iff in E. lia.
Qed.

Lemma length_le_bytes (len : nat) (n : Z) : length (le_bytes len n) = len.
Proof.
  revert n. induction len as [| k IH]; intros n; cbn [le_bytes length];
    [reflexivity | now rewrite IH].
Qed.

Lemma bytes_to_int_le_bytes (len : nat) (n : Z) :
  bytes_to_int (le_bytes len n) = n mod 256 ^ Z.of_nat len.
Proof.
  revert n. induction len as [| k IH]; intros n;
    cbn [le_bytes bytes_to_int].
  - cbn. now rewrite Z.mod_1_r.
  - rewrite byte_of_Z_value, IH.
    rewrite Nat2Z.inj_succ, Z.pow_succ_r by lia.
    symmetry. apply Z.rem_mul_r; [lia |].
    apply Z.pow_pos_nonneg; lia.
Qed.

(** X4: the round trip of a header field: [np_float_to_bytes] encodes an
    integer value in [0, 2^32) on 4 bytes that [bytes_to_int] decodes to the
    same value, and fails on any other value. *)
Theorem np_float_to_bytes_round_trip (F : Type) (astype_int : F -> Z)
    (numpy_float : F) :
  let v := astype_int numpy_float in
  (0 <= v < 2 ^ 32 ->
   exists bs,
     np_float_to_bytes F astype_int numpy_float = Some bs /\
     length bs = 4%nat /\ bytes_to_int bs = v) /\
  (v < 0 \/ 2 ^ 32 <= v ->
   np_float_to_bytes F astype_int numpy_float = None).
Proof.
  intros v. unfold np_float_to_bytes, int_to_bytes. fold v.
  change (256 ^ Z.of_nat 4) with (2 ^ 32).
  split.
  - intros Hv.
    destruct (Z.ltb_spec v 0); [lia |].
    destruct (Z.leb_spec (2 ^ 32) v); [lia |].
    cbn [orb]. eexists. split; [reflexivity |].
    split; [apply length_le_bytes |].
    rewrite bytes_to_int_le_bytes.
    change (256 ^ Z.of_nat 4) with (2 ^ 32).
    apply Z.mod_small. lia.
  - intros Hv.
    destruct (Z.ltb_spec v 0); [reflexivity |].
    destruct (Z.leb_spec (2 ^ 32) v); [reflexivity | lia].
Qed.

(** X5: [define_blockshape] and the reader agree: for the rate of a reader
    that opened, [define_blockshape(rate, (4, 4, -1))] resolves the unknown
    depth to the block shape the reader uses. *)
Theorem define_blockshape_matches_reader (file : bytes) (s s' : io_state)
    (r : SzReader) :
  SzReader_init (Some file) s = Ok (r, s') ->
  define_blockshape (rate r) (4, 4, -1) = Ok (rate r, blockshape r).
Proof.
  intros H. pose proof (SzReader_init_wf _ _ _ _ H) as W.
  pose proof (wf_rate r W) as Hr.
  rewrite (wf_blockshape r W).
  unfold define_blockshape, is_2d, idx0, idx1, idx2, py_floordiv.
  cbn [fst snd].
  change ((4 =? 1) || (4 =? 1) || (-1 =? 1)) with false. cbv iota.
  destruct (Z.eqb_spec (rate r) (-1)); [lia |].
  change (4 =? -1) with false. change (-1 =? -1) with true. cbv iota.
  destruct (Z.eqb_spec (4 * 4 * rate r) 0); [lia |].
  replace (4096 * 8) with (16 * 2048) by reflexivity.
  replace (4 * 4 * rate r) with (16 * rate r) by ring.
  rewrite Z.div_mul_cancel_l by lia. reflexivity.
Qed.

Lemma define_blockshape_matches_reader_witness :
  define_blockshape (rate sample_reader) (4, 4, -1)
  = Ok (rate sample_reader, blockshape sample_reader).
Proof.
  apply (define_blockshape_matches_reader sample_file io_start _ sample_reader
           sample_file_opens).
Defined.

(** X6: with the rate unknown (-1) and a block shape of positive extents,
    [define_blockshape] returns the largest rate at which the block fits
    the budget of 4096 * factor bits, factor 2 for a block with an extent of
    1 and 8 otherwise, and leaves the shape as it is. *)
Theorem define_blockshape_largest_rate (b0 b1 b2 : Z) :
  0 < b0 -> 0 < b1 -> 0 < b2 ->
  let factor := if is_2d (b0, b1, b2) then 2 else 8 in
  exists bits,
    define_blockshape (-1) (b0, b1, b2) = Ok (bits, (b0, b1, b2)) /\
    bits * (b0 * b1 * b2) <= 4096 * factor
    < (bits + 1) * (b0 * b1 * b2).
Proof.
  intros H0 H1 H2 factor.
  assert (Hv : 0 < b0 * b1 * b2).
  { apply Z.mul_pos_pos; [apply Z.mul_pos_pos |]; assumption. }
  unfold define_blockshape. fold factor.
  change (-1 =? -1) with true. cbv iota.
  unfold py_floordiv, idx0, idx1, idx2. cbn [fst snd].
  destruct (Z.eqb_spec (b0 * b1 * b2) 0); [lia |].
  eexists. split; [reflexivity |].
  pose proof (Z_div_mod_eq_full (4096 * factor) (b0 * b1 * b2)) as E.
  pose proof (Z.mod_pos_bound (4096 * factor) (b0 * b1 * b2) Hv) as B.
  set (q := 4096 * factor / (b0 * b1 * b2)) in *.
  replace (q * (b0 * b1 * b2)) with (b0 * b1 * b2 * q) by ring.
  replace ((q + 1) * (b0 * b1 * b2))
    with (b0 * b1 * b2 * q + b0 * b1 * b2) by ring.
  lia.
Qed.

Lemma define_blockshape_largest_rate_witness :
  exists bits,
    define_blockshape (-1) (4, 4, 256) = Ok (bits, (4, 4, 256)) /\
    bits * (4 * 4 * 256) <= 4096 * 8 < (bits + 1) * (4 * 4 * 256).
Proof. apply (define_blockshape_largest_rate 4 4 256); lia. Defined.

(** ** seismicfile.py *)

Section OpenProperties.
Import String.

(** X7: without a [filetype], [SeismicFile.open] dispatches on the
    lower-cased extension: ".sgy" and ".segy" go to segyio and the handle is
    tagged SEGY, ".zgy" goes to zgyio and the handle is tagged ZGY, each
    with one call on the file name as given, and a failure of the library
    is the failure of [open]; any other extension raises ValueError without
    a call. *)
Theorem open_dispatches_on_extension
    (splitext : String.string -> String.string * String.string)
    (lower : String.string -> String.string) (H : Type)
    (segyio_open zgyio_open : String.string -> result H)
    (filename : String.string) :
  let ext := lower (snd (splitext filename)) in
  let run := SeismicFile.open splitext lower H segyio_open zgyio_open
                              filename None in
  (ext = ".sgy"%string \/ ext = ".segy"%string ->
   run = ([SeismicFile.SegyioOpen filename],
          match segyio_open filename with
          | Ok h => Ok (SeismicFile.mkHandle h SeismicFile.SEGY)
          | Raise e => Raise e
          end)) /\
  (ext = ".zgy"%string ->
   run = ([SeismicFile.ZgyioOpen filename],
          match zgyio_open filename with
          | Ok h => Ok (SeismicFile.mkHandle h SeismicFile.ZGY)
          | Raise e => Raise e
          end)) /\
  (ext <> ".sgy"%string -> ext <> ".segy"%string -> ext <> ".zgy"%string ->
   run = ([], Raise ValueError)).
Proof.
  intros ext run. unfold run, SeismicFile.open. fold ext.
  cbn [existsb].
  repeat split.
  - intros [E | E]; rewrite E; cbn;
      destruct (segyio_open filename); reflexivity.
  - intros E. rewrite E. cbn. destruct (zgyio_open filename); reflexivity.
  - intros E1 E2 E3.
    destruct (String.eqb_spec ext ".sgy"); [contradiction |].
    destruct (String.eqb_spec ext ".segy"); [contradiction |].
    destruct (String.eqb_spec ext ".zgy"); [contradiction |].
    reflexivity.
Qed.

(** X8: [SeismicFile.open] never returns a handle tagged VDS and never
    calls more than one library; when it returns a handle it has made
    exactly one call. *)
Theorem open_calls_at_most_one_library
    (splitext : String.string -> String.string * String.string)
    (lower : String.string -> String.string) (H : Type)
    (segyio_open zgyio_open : String.string -> result H)
    (filename : String.string) (filetype : option SeismicFile.Filetype) :
  let run := SeismicFile.open splitext lower H segyio_open zgyio_open
                              filename filetype in
  (List.length (fst run) <= 1)%nat /\
  forall h, snd run = Ok h ->
    List.length (fst run) = 1%nat /\
    SeismicFile.filetype h <> SeismicFile.VDS.
Proof.
  intros run. unfold run, SeismicFile.open.
  destruct filetype as [ft |].
  - cbn. split; [lia | discriminate].
  - destruct (existsb _ _).
    + destruct (segyio_open filename); cbn; split; try lia.
      * intros h Hh. inversion Hh. cbn. split; [reflexivity | discriminate].
      * discriminate.
    + destruct (String.eqb _ _).
      * destruct (zgyio_open filename); cbn; split; try lia.
        -- intros h Hh. inversion Hh. cbn.
           split; [reflexivity | discriminate].
        -- discriminate.
      * cbn. split; [lia | discriminate].
Qed.
End OpenProperties.

(** ** read.py: opening *)

Lemma init_outcome (rt : Z) (ok : SzReader * io_state) :
  0 <= rt ->
  (exists r s',
     (if (rt =? 0) || (2048 / rt =? 0) then Raise ZeroDivisionError
      else if 4 * 4 * (2048 / rt) * rt / 8 =? DISK_BLOCK_BYTES then Ok ok
           else Raise AssertionError) = Ok (r, s'))
  <-> 0 < rt /\ 2048 mod rt = 0.
Proof.
  intros Hnn. split.
  - intros (r & s' & H).
    destruct (Z.eqb_spec rt 0) as [E0 | E0]; [discriminate |].
    destruct (Z.eqb_spec (2048 / rt) 0) as [E1 | E1]; [discriminate |].
    cbn [orb] in H.
    destruct (Z.eqb_spec (4 * 4 * (2048 / rt) * rt / 8) DISK_BLOCK_BYTES)
      as [E2 | E2]; [| discriminate].
    split; [lia |].
    assert (Hbr : 2048 / rt * rt = 2048).
    { replace (4 * 4 * (2048 / rt) * rt) with ((2 * (2048 / rt * rt)) * 8) in E2
        by ring.
      rewrite Z.div_mul in E2 by lia. unfold DISK_BLOCK_BYTES in E2. lia. }
    rewrite <- Hbr at 1. apply Z_mod_mult.
  - intros [Hpos Hmod].
    pose proof (Z_div_mod_eq_full 2048 rt) as Hdm. rewrite Hmod in Hdm.
    destruct (Z.eqb_spec rt 0) as [E0 | E0]; [lia |].
    destruct (Z.eqb_spec (2048 / rt) 0) as [E1 | E1].
    { rewrite E1 in Hdm. lia. }
    cbn [orb].
    assert (E2 : 4 * 4 * (2048 / rt) * rt / 8 = DISK_BLOCK_BYTES).
    { replace (4 * 4 * (2048 / rt) * rt) with (16 * (rt * (2048 / rt))) by ring.
      replace (rt * (2048 / rt)) with 2048 by lia. reflexivity. }
    rewrite E2, Z.eqb_refl. destruct ok as [r s']. exists r, s'. reflexivity.
Qed.

(** X9: a file opens only when the bit rate of its header is positive and
    divides 2048, and, the header it announces lying in the file, it opens
    whenever the rate is positive and divides 2048. *)
Theorem open_succeeds_iff_rate_divides_2048 (file : bytes) (s : io_state) :
  let rt := bytes_to_int (py_slice (header_buffer file) 40 44) in
  ((exists r s', SzReader_init (Some file) s = Ok (r, s')) ->
   0 < rt /\ 2048 mod rt = 0) /\
  (header_in_file file ->
   0 < rt /\ 2048 mod rt = 0 ->
   exists r s', SzReader_init (Some file) s = Ok (r, s')).
Proof.
  cbv zeta.
  destruct (SzReader_init_run file s) as [s1 Hrun].
  rewrite Hrun. clear Hrun.
  split.
  - apply init_outcome, bytes_to_int_nonneg.
  - intros _. apply init_outcome, bytes_to_int_nonneg.
Qed.

Lemma header_rate_of_short_file (file : bytes) :
  (length file <= 40)%nat ->
  bytes_to_int (py_slice (header_buffer file) 40 44) = 0.
Proof.
  intros Hlen.
  assert (Hs : forall l : bytes, (length l <= 40)%nat -> py_slice l 40 44 = []).
  { intros l Hl. rewrite py_slice_nonneg by lia.
    rewrite skipn_all2 by (change (Z.to_nat 40) with 40%nat; lia).
    apply firstn_nil. }
  destruct (header_buffer_cases file) as [E | [n [_ E]]]; rewrite E.
  - reflexivity.
  - rewrite Hs; [reflexivity |]. rewrite length_firstn. lia.
Qed.

(** X10: a file of at most 40 bytes that announces a header within the
    file, which is a header of no block or of one, does not open: its rate
    field reads as 0 and the block depth 2048 // rate raises
    ZeroDivisionError. *)
Theorem open_truncated_file (file : bytes) (s : io_state) :
  (length file <= 40)%nat ->
  header_in_file file ->
  SzReader_init (Some file) s = Raise ZeroDivisionError.
Proof.
  intros Hlen _.
  destruct (SzReader_init_run file s) as [s1 Hrun]. rewrite Hrun.
  rewrite (header_rate_of_short_file file Hlen). reflexivity.
Qed.

Lemma open_truncated_file_witness :
  SzReader_init (Some (le4 1 ++ repeat x00 36)) io_start
  = Raise ZeroDivisionError.
Proof.
  apply open_truncated_file.
  - vm_compute. lia.
  - left. vm_compute. reflexivity.
Defined.

(** X11: a header that gives 0 header blocks does not open either: the
    header is read again with a length of 0, every field reads as 0, and
    the division by the rate raises ZeroDivisionError. *)
Theorem open_zero_header_blocks (file : bytes) (s : io_state) :
  bytes_to_int (py_slice file 0 4) = 0 ->
  SzReader_init (Some file) s = Raise ZeroDivisionError.
Proof.
  intros Hhb.
  destruct (SzReader_init_run file s) as [s1 Hrun]. rewrite Hrun.
  assert (E : header_buffer file = []).
  { unfold header_buffer.
    rewrite py_slice_firstn by (unfold DISK_BLOCK_BYTES; lia).
    rewrite Hhb. reflexivity. }
  rewrite E. reflexivity.
Qed.

Lemma open_zero_header_blocks_witness :
  SzReader_init (Some (sample_header 0 250 6 5 8)) io_start
  = Raise ZeroDivisionError.
Proof. apply open_zero_header_blocks. vm_compute. reflexivity. Defined.

Lemma SzReader_init_log (file : bytes) (s : io_state) :
  let buffer := header_buffer file in
  let hb := bytes_to_int (py_slice file 0 4) in
  let tl := bytes_to_int (py_slice buffer 4 8) in
  let xl := bytes_to_int (py_slice buffer 8 12) in
  let il := bytes_to_int (py_slice buffer 12 16) in
  let rt := bytes_to_int (py_slice buffer 40 44) in
  (exists s',
    SzReader_init (Some file) s =
    (if (rt =? 0) || (2048 / rt =? 0) then Raise ZeroDivisionError
     else if 4 * 4 * (2048 / rt) * rt / 8 =? DISK_BLOCK_BYTES
          then Ok (layout_of hb tl xl il rt, s')
          else Raise AssertionError) /\
    log s' = log s
             ++ EvRead 0 4096
                :: (if hb =? 1 then [] else [EvRead 0 (4096 * hb)])).
Proof.
  intros buffer hb tl xl il rt.
  assert (Hhb : bytes_to_int
                  (py_slice (firstn (Z.to_nat DISK_BLOCK_BYTES) file) 0 4) = hb).
  { unfold hb. f_equal. apply py_slice_firstn; unfold DISK_BLOCK_BYTES; lia. }
  unfold SzReader_init, bind at 1 2 3. unfold f_open at 1, f_read at 1.
  cbn [pos log].
  change (DISK_BLOCK_BYTES <? 0) with false. cbv iota.
  change (Z.to_nat 0) with 0%nat. rewrite skipn_O.
  rewrite Hhb.
  set (st1 := mkIO _ _).
  match goal with
  | |- exists _, match ?m with _ => _ end = _ /\ _ =>
    assert (Hbuf : exists st2,
               m = Ok (buffer, st2) /\
               log st2 = log s
                         ++ EvRead 0 4096
                            :: (if hb =? 1 then []
                                else [EvRead 0 (4096 * hb)]))
  end.
  { unfold buffer, header_buffer. rewrite Hhb.
    destruct (hb =? 1) eqn:E1.
    - eexists. split; reflexivity.
    - unfold bind, f_seek, f_read. cbn [pos log].
      change (0 <? 0) with false. cbv iota.
      change (Z.to_nat 0) with 0%nat. rewrite skipn_O.
      assert (Hnn : (DISK_BLOCK_BYTES * hb <? 0) = false).
      { apply Z.ltb_ge. pose proof (bytes_to_int_nonneg (py_slice file 0 4)).
        unfold hb, DISK_BLOCK_BYTES. lia. }
      rewrite Hnn. eexists. split; [reflexivity |].
      cbn [log st1]. rewrite <- app_assoc. reflexivity. }
  destruct Hbuf as [st2 [Hbuf Hlog]]. rewrite Hbuf.
  fold tl xl il rt.
  unfold bind, lift, pad, py_floordiv.
  unfold idx0, idx1, idx2. cbn [fst snd].
  change (4 =? 0) with false. cbv iota.
  exists st2. split; [| exact Hlog].
  destruct (Z.eqb_spec rt 0) as [Hr | Hr]; cbn [orb].
  { destruct (il mod 4 =? 0), (xl mod 4 =? 0); reflexivity. }
  destruct (Z.eqb_spec (2048 / rt) 0) as [Hz | Hz].
  { destruct (il mod 4 =? 0), (xl mod 4 =? 0); reflexivity. }
  unfold layout_of, pad_value, ret.
  destruct (Z.eqb_spec (4 * 4 * (2048 / rt) * rt / 8) DISK_BLOCK_BYTES) as [Hb | Hb];
    cbn [negb];
    destruct (il mod 4 =? 0), (xl mod 4 =? 0), (tl mod (2048 / rt) =? 0);
    reflexivity.
Qed.

(** X12: what opening reads: one read of 4096 bytes at offset 0, and, when
    the header says it has more or fewer than one block, a second read at
    offset 0 of [4096 * header_blocks] bytes; nothing else is read and the
    codec is not called. *)
Theorem open_reads_the_header (file : bytes) (s s' : io_state)
    (r : SzReader) :
  SzReader_init (Some file) s = Ok (r, s') ->
  log s' = log s
           ++ EvRead 0 4096
              :: (if header_blocks r =? 1 then []
                  else [EvRead 0 (4096 * header_blocks r)]).
Proof.
  intros H.
  assert (Hhb : header_blocks r = bytes_to_int (py_slice file 0 4)).
  { pose proof (SzReader_init_Ok _ _ _ _ H) as I. cbv zeta in I.
    destruct I as (_ & _ & _ & ->). reflexivity. }
  rewrite Hhb.
  destruct (SzReader_init_log file s) as (st & Hrun & Hlog).
  rewrite Hrun in H.
  destruct (_ || _); [discriminate |].
  destruct (_ =? DISK_BLOCK_BYTES); [| discriminate].
  apply (f_equal (fun x => match x with
                           | Ok (_, t) => t
                           | Raise _ => st
                           end)) in H.
  rewrite <- H. exact Hlog.
Qed.

Lemma open_reads_the_header_witness :
  log (mkIO 4096 [EvRead 0 4096])
  = log io_start
    ++ EvRead 0 4096
       :: (if header_blocks sample_reader =? 1 then []
           else [EvRead 0 (4096 * header_blocks sample_reader)]).
Proof.
  apply (open_reads_the_header sample_file io_start _ sample_reader
           sample_file_opens).
Defined.

(** X13: the layout of a reader whose block depth is at least 4 (rate up to
    512) is made of whole units: the three padded extents and the block
    depth are multiples of 4, a block is [blockshape[2] // 4] units and a
    chunk is [shape_pad[2] // 4] units. *)
Theorem layout_is_made_of_units (file : bytes) (s s' : io_state)
    (r : SzReader) :
  SzReader_init (Some file) s = Ok (r, s') ->
  4 <= idx2 (blockshape r) ->
  idx0 (shape_pad r) mod 4 = 0 /\
  idx1 (shape_pad r) mod 4 = 0 /\
  idx2 (shape_pad r) mod 4 = 0 /\
  idx2 (blockshape r) mod 4 = 0 /\
  block_bytes r = unit_bytes r * (idx2 (blockshape r) / 4) /\
  chunk_bytes r = unit_bytes r * (idx2 (shape_pad r) / 4).
Proof.
  intros H Hbz4. pose proof (SzReader_init_wf _ _ _ _ H) as W.
  destruct (wf_units r W Hbz4)
    as (q4 & Q & Hq4 & HQ & Ebz4 & Ep2 & Ep24 & EQ & Hub & Ecb').
  destruct (wf_facts r W)
    as (p0 & p1 & p2 & bz & Esp & Ebs & Ebz & Hbz & Hrt & Hbr & Eub & Ebb
        & Ecb & Hq & Hds & Hi & Hx & Ht & Hp0 & Hp0' & Hp1 & Hp1' & Hp2 & Hp2').
  rewrite Esp, Ebs in *. unfold idx0, idx1, idx2 in *. cbn [fst snd] in *.
  rewrite <- Ebz in Ebz4.
  split; [assumption |]. split; [assumption |].
  split.
  { rewrite Ep2. replace (4 * q4 * Q) with (q4 * Q * 4) by ring.
    apply Z_mod_mult. }
  split.
  { rewrite Ebz4, Z.mul_comm. apply Z_mod_mult. }
  split; [| assumption].
  rewrite Ebb, Ebz4.
  replace (4 * q4) with (q4 * 4) by ring.
  rewrite Z.div_mul by lia. lia.
Qed.

Lemma layout_is_made_of_units_witness :
  chunk_bytes sample_reader
  = unit_bytes sample_reader * (idx2 (shape_pad sample_reader) / 4).
Proof.
  refine (proj2 (proj2 (proj2 (proj2 (proj2
            (layout_is_made_of_units sample_file io_start _ sample_reader
               sample_file_opens _)))))).
  vm_compute. discriminate.
Defined.

(** ** read.py: the reads *)

Lemma reads_of_nested (off : Z -> Z -> Z) (len : Z) (l1 l2 : list Z) :
  reads_of (flat_map (fun i => flat_map (fun x => [EvRead (off i x) len]) l2)
                     l1)
  = flat_map (fun i => map (fun x => (off i x, len)) l2) l1.
Proof.
  induction l1 as [| i l1 IH]; [reflexivity |].
  cbn [flat_map]. rewrite reads_of_app, IH. f_equal.
  apply (reads_of_reads (fun x => off i x) (fun _ => len)).
Qed.

Lemma decoded_shapes_nested (off : Z -> Z -> Z) (len : Z) (l1 l2 : list Z) :
  decoded_shapes
    (flat_map (fun i => flat_map (fun x => [EvRead (off i x) len]) l2) l1)
  = [].
Proof.
  induction l1 as [| i l1 IH]; [reflexivity |].
  cbn [flat_map]. rewrite decoded_shapes_app, IH.
  rewrite (decoded_shapes_reads (fun x => off i x) (fun _ => len)).
  reflexivity.
Qed.

Lemma length_nested {A B C : Type} (f : A -> B -> C) (l1 : list A)
    (l2 : list B) :
  length (flat_map (fun i => map (f i) l2) l1)
  = (length l1 * length l2)%nat.
Proof.
  induction l1 as [| i l1 IH]; [reflexivity |].
  cbn [flat_map length]. rewrite length_app, IH, length_map. reflexivity.
Qed.

Section MoreReads.
Variable file : bytes.
Variable V : Type.
Variable decompress : bytes -> Z * Z * Z -> Z -> list (list (list V)).

(** X14: the inlines of one block-row cost the same: two indices with the
    same [il_id // 4] make [read_inline] read the same range and decode the
    same buffer with the same shape; only the trim differs. *)
Theorem read_inline_same_block_row (self : SzReader) (il il' : Z)
    (s0 s1 : io_state) :
  SzReader_init (Some file) s0 = Ok (self, s1) ->
  codec_shape_ok decompress ->
  0 <= il -> 0 <= il' -> il / 4 = il' / 4 ->
  log_of (read_inline file V decompress self il io_start)
  = log_of (read_inline file V decompress self il' io_start).
Proof.
  intros Hinit C Hil Hil' E.
  pose proof (SzReader_init_wf _ _ _ _ Hinit) as W.
  destruct (read_inline_run file V decompress self il io_start W C Hil)
    as (plane & p & _ & _ & Hrun).
  destruct (read_inline_run file V decompress self il' io_start W C Hil')
    as (plane' & p' & _ & _ & Hrun').
  rewrite Hrun, Hrun', E. reflexivity.
Qed.

(** X15: a negative inline index is not an index from the end: when a
    block-row is longer than the header, [read_inline] of a negative index
    seeks before the start of the file and, the offset fitting off_t, raises
    OSError. *)
Theorem read_inline_negative_index (self : SzReader) (il_id : Z)
    (s0 s1 s : io_state) :
  SzReader_init (Some file) s0 = Ok (self, s1) ->
  il_id < 0 ->
  data_start_bytes self < chunk_bytes self * (idx1 (shape_pad self) / 4) ->
  fits_off_t (data_start_bytes self
              + chunk_bytes self * idx1 (shape_pad self) / 4 * (il_id / 4)) ->
  read_inline file V decompress self il_id s = Raise OSError.
Proof.
  intros Hinit Hil Hrow _.
  pose proof (SzReader_init_wf _ _ _ _ Hinit) as W.
  destruct (wf_facts self W)
    as (p0 & p1 & p2 & bz & Esp & Ebs & Ebz & Hbz & Hrt & Hbr & Eub & Ebb
        & Ecb & Hq & Hds & Hi & Hx & Ht & Hp0 & Hp0' & Hp1 & Hp1' & Hp2 & Hp2').
  unfold read_inline. rewrite open_run.
  unfold bind at 1. unfold f_seek.
  rewrite Esp in *. unfold idx1 in *. cbn [fst snd] in *.
  rewrite mul_div4 by assumption.
  assert (Hq4 : il_id / 4 <= -1).
  { assert (il_id / 4 < 0) by (apply Z.div_lt_upper_bound; lia). lia. }
  assert (Hneg : chunk_bytes self * (p1 / 4) * (il_id / 4)
                 <= chunk_bytes self * (p1 / 4) * -1).
  { apply Z.mul_le_mono_nonneg_l; lia. }
  destruct (Z.ltb_spec (data_start_bytes self
                        + chunk_bytes self * (p1 / 4) * (il_id / 4)) 0);
    [reflexivity | lia].
Qed.

(** X16: for a box whose upper bounds are below the padded extents, in a
    complete file with block depth at least 4, [read_subvolume] plans one
    range for each pair of an inline unit and a crossline unit of its own
    unit counts, in the order of its loops, each [unit_bytes * z_units]
    bytes long, and decodes with the shape
    (il_units * 4, xl_units * 4, z_units * 4). *)
Theorem read_subvolume_plan (self : SzReader)
    (min_il max_il min_xl max_xl min_z max_z : Z) (s0 s1 : io_state) :
  SzReader_init (Some file) s0 = Ok (self, s1) ->
  4 <= idx2 (blockshape self) ->
  file_complete file self ->
  0 <= min_il <= max_il -> max_il < idx0 (shape_pad self) ->
  0 <= min_xl <= max_xl -> max_xl < idx1 (shape_pad self) ->
  0 <= min_z <= max_z -> max_z < idx2 (shape_pad self) ->
  let run := read_subvolume file V decompress self
                            min_il max_il min_xl max_xl min_z max_z
                            io_start in
  reads_of (log_of run)
  = subvolume_plan self min_il max_il min_xl max_xl min_z max_z /\
  Z.of_nat (length (reads_of (log_of run)))
  = units min_il max_il * units min_xl max_xl /\
  Forall (fun r => snd r = unit_bytes self * units min_z max_z)
         (reads_of (log_of run)) /\
  decoded_shapes (log_of run)
  = [(units min_il max_il * 4, units min_xl max_xl * 4,
      units min_z max_z * 4)].
Proof.
  intros Hinit _ _ Hil _ Hxl _ Hz _ run.
  pose proof (SzReader_init_wf _ _ _ _ Hinit) as W.
  destruct (units_cover min_il max_il) as [Hiu _]; try lia.
  destruct (units_cover min_xl max_xl) as [Hxu _]; try lia.
  destruct (units_cover min_z max_z) as [Hzu _]; try lia.
  destruct (read_subvolume_run file V decompress self
              min_il max_il min_xl max_xl min_z max_z io_start W)
    as [p Hrun]; try lia.
  assert (Hreads : reads_of (log_of run)
                   = subvolume_plan self min_il max_il min_xl max_xl
                                    min_z max_z).
  { unfold run. rewrite Hrun. cbn [log_of log io_start app].
    rewrite reads_of_app.
    rewrite (reads_of_nested (subvolume_offset self min_il min_xl min_z)).
    apply app_nil_r. }
  split; [exact Hreads |].
  rewrite Hreads. unfold subvolume_plan.
  split; [| split].
  - rewrite (length_nested
               (fun i x => (subvolume_offset self min_il min_xl min_z i x,
                            unit_bytes self * units min_z max_z))).
    unfold range. rewrite !length_map, !length_seq.
    rewrite Nat2Z.inj_mul, !Z2Nat.id by lia. reflexivity.
  - apply Forall_forall. intros r Hr. apply in_flat_map in Hr.
    destruct Hr as (i & _ & Hr). apply in_map_iff in Hr.
    destruct Hr as (x & <- & _). reflexivity.
  - unfold run. rewrite Hrun. cbn [log_of log io_start app].
    rewrite decoded_shapes_app.
    rewrite (decoded_shapes_nested
               (subvolume_offset self min_il min_xl min_z)).
    reflexivity.
Qed.
End MoreReads.

Lemma read_inline_same_block_row_witness :
  log_of (read_inline sample_file Z first_byte_decompress sample_reader
                      4 io_start)
  = log_of (read_inline sample_file Z first_byte_decompress sample_reader
                        7 io_start).
Proof.
  apply (read_inline_same_block_row sample_file Z first_byte_decompress
           sample_reader 4 7 io_start _ sample_file_opens
           first_byte_shape_ok); [lia | lia | reflexivity].
Defined.

Lemma read_inline_negative_index_witness :
  read_inline sample_file Z first_byte_decompress sample_reader (-1) io_start
  = Raise OSError.
Proof.
  apply (read_inline_negative_index sample_file Z first_byte_decompress
           sample_reader (-1) io_start _ io_start sample_file_opens).
  - lia.
  - vm_compute. reflexivity.
  - vm_compute. split; [discriminate | reflexivity].
Defined.

Lemma read_subvolume_plan_witness :
  reads_of (log_of (read_subvolume sample_file Z first_byte_decompress
                                   sample_reader 1 3 2 6 100 250 io_start))
  = subvolume_plan sample_reader 1 3 2 6 100 250.
Proof.
  refine (proj1 (read_subvolume_plan sample_file Z first_byte_decompress
                   sample_reader 1 3 2 6 100 250 io_start _
                   sample_file_opens _ sample_file_complete _ _ _ _ _ _));
    vm_compute; try (split; discriminate); try reflexivity; discriminate.
Defined.

(** ** The split of the plan of read_zslice *)

Lemma split_sizes_lengths {A : Type} (sizes : list nat) (l : list A) :
  (list_sum sizes <= length l)%nat ->
  map (@length A) (split_sizes sizes l) = sizes.
Proof.
  revert l. induction sizes as [| n sizes IH]; intros l Hl;
    cbn [split_sizes map]; [reflexivity |].
  change (list_sum (n :: sizes)) with (n + list_sum sizes)%nat in Hl.
  rewrite IH by (rewrite length_skipn; lia).
  rewrite length_firstn. f_equal. lia.
Qed.

(** X17: the 32 groups into which [read_zslice] splits its R unit ranges
    are a partition in order, their concatenation is the list of ranges, and
    they are balanced: the first R mod 32 groups hold R // 32 + 1 ranges and
    the others R // 32, so with fewer than 32 ranges the last groups are
    empty and their workers read nothing. *)
Theorem zslice_groups_are_balanced (self : SzReader) :
  let R := length (zslice_block_ids self) in
  let groups := array_split (zslice_block_ids self) n_threads in
  concat groups = zslice_block_ids self /\
  map (@length Z) groups
  = (repeat (S (R / 32)) (R mod 32) ++ repeat (R / 32) (32 - R mod 32))%nat.
Proof.
  intros R groups. split.
  - apply array_split_concat. discriminate.
  - unfold groups, array_split. fold R.
    change n_threads with 32%nat.
    apply split_sizes_lengths.
    rewrite list_sum_app, !list_sum_repeat. fold R.
    pose proof (Nat.div_mod_eq R 32) as Hdm.
    pose proof (Nat.mod_upper_bound R 32 ltac:(discriminate)) as Hlt.
    rewrite Nat.mul_succ_r. lia.
Qed.

(** ** Buffers assembled from full reads *)

Lemma py_slice_py_slice {A : Type} (l : list A) (lo c a len : Z) :
  0 <= lo -> 0 <= a -> 0 <= len -> a + len <= c ->
  py_slice (py_slice l lo (lo + c)) a (a + len)
  = py_slice l (lo + a) (lo + a + len).
Proof.
  intros Hlo Ha Hlen Hc. rewrite !py_slice_nonneg by lia.
  rewrite skipn_firstn_comm, firstn_firstn, skipn_skipn.
  f_equal; [lia |]. f_equal. lia.
Qed.

(** A range inside one slot of a buffer assembled from full slots. *)
Lemma py_slice_concat_inner (c : Z) (d : Z -> bytes) (n k a len : Z) :
  0 <= c -> (forall j, 0 <= j < n -> length (d j) = Z.to_nat c) ->
  0 <= k < n -> 0 <= a -> 0 <= len -> a + len <= c ->
  py_slice (concat (map d (range n))) (k * c + a) (k * c + a + len)
  = py_slice (d k) a (a + len).
Proof.
  intros Hc Hd Hk Ha Hlen Hac.
  rewrite <- (py_slice_concat_slot c d n k Hc Hd Hk).
  assert (0 <= k * c) by (apply Z.mul_nonneg_nonneg; lia).
  now rewrite py_slice_py_slice by lia.
Qed.

Lemma seq_shift_add (s b : nat) :
  map (fun x => (s + x)%nat) (seq 0 b) = seq s b.
Proof.
  induction s as [| s IH].
  - cbn [Nat.add]. apply map_id.
  - rewrite <- seq_shift, <- IH, map_map. reflexivity.
Qed.

Lemma seq_rows (a b : nat) :
  flat_map (fun i => map (fun x => (i * b + x)%nat) (seq 0 b)) (seq 0 a)
  = seq 0 (a * b).
Proof.
  induction a as [| a IH]; [reflexivity |].
  rewrite seq_S, flat_map_app, IH. cbn [flat_map Nat.add].
  rewrite app_nil_r, seq_shift_add.
  replace (S a * b)%nat with (a * b + b)%nat by lia.
  now rewrite seq_app.
Qed.

Lemma map_flat_map {A B C : Type} (f : B -> C) (g : A -> list B)
    (l : list A) :
  map f (flat_map g l) = flat_map (fun i => map f (g i)) l.
Proof.
  induction l as [| x l IH]; cbn [flat_map map]; [reflexivity |].
  now rewrite map_app, IH.
Qed.

Lemma flat_map_map {A B C : Type} (f : B -> list C) (g : A -> B)
    (l : list A) :
  flat_map f (map g l) = flat_map (fun i => f (g i)) l.
Proof.
  induction l as [| x l IH]; cbn [flat_map map]; [reflexivity |].
  now rewrite IH.
Qed.

(** The pairs of the two loops of [read_subvolume], numbered in loop
    order. *)
Lemma range_rows (n m : Z) :
  0 <= n -> 0 <= m ->
  flat_map (fun i => map (fun x => i * m + x) (range m)) (range n)
  = range (n * m).
Proof.
  intros Hn Hm. unfold range.
  rewrite Z2Nat.inj_mul by lia.
  rewrite <- seq_rows, map_flat_map, flat_map_map.
  apply flat_map_ext. intros i.
  rewrite !map_map. apply map_ext. intros x. lia.
Qed.

Lemma fold_rows {A : Type} (F : A -> Z -> A) (G : A -> Z -> Z -> A) (m : Z)
    (l1 l2 : list Z) :
  (forall acc i x, In i l1 -> In x l2 -> G acc i x = F acc (i * m + x)) ->
  forall acc,
    fold_left (fun acc i => fold_left (fun acc x => G acc i x) l2 acc) l1 acc
    = fold_left F (flat_map (fun i => map (fun x => i * m + x) l2) l1) acc.
Proof.
  induction l1 as [| i l1 IH]; intros H acc; cbn [fold_left flat_map];
    [reflexivity |].
  rewrite fold_left_app.
  assert (Hrow : forall l acc0,
             (forall x, In x l -> In x l2) ->
             fold_left (fun acc x => G acc i x) l acc0
             = fold_left F (map (fun x => i * m + x) l) acc0).
  { induction l as [| x l IHl]; intros acc0 Hl; cbn [fold_left map];
      [reflexivity |].
    rewrite H; [| now left | apply Hl; now left].
    apply IHl. intros y Hy. apply Hl. now right. }
  rewrite Hrow by auto.
  apply IH. intros acc0 j x Hj Hx. apply H; [now right | assumption].
Qed.

Lemma row_index (i x m : Z) :
  0 <= x < m -> (i * m + x) / m = i /\ (i * m + x) mod m = x.
Proof.
  intros Hx. split.
  - rewrite Z.div_add_l by lia. rewrite Z.div_small by lia. lia.
  - rewrite Z.add_comm, Z_mod_plus_full. apply Z.mod_small. lia.
Qed.

(** The ranges [read_subvolume] plans lie in a complete file when the upper
    bounds are below the padded extents. *)
Lemma subvolume_read_in_file (file : bytes) (self : SzReader)
    (min_il max_il min_xl max_xl min_z max_z i x : Z) :
  wf_reader self -> 4 <= idx2 (blockshape self) ->
  file_complete file self ->
  0 <= min_il -> max_il < idx0 (shape_pad self) ->
  0 <= min_xl -> max_xl < idx1 (shape_pad self) ->
  0 <= min_z <= max_z -> max_z < idx2 (shape_pad self) ->
  0 <= i < units min_il max_il -> 0 <= x < units min_xl max_xl ->
  0 <= subvolume_offset self min_il min_xl min_z i x /\
  subvolume_offset self min_il min_xl min_z i x
  + unit_bytes self * units min_z max_z <= Z.of_nat (length file).
Proof.
  intros W Hbz4 Hfile Hil0 Hil1 Hxl0 Hxl1 Hz0 Hz1 Hi Hx.
  destruct (wf_units self W Hbz4)
    as (q4 & Q & Hq4 & HQ & Ebz4 & Ep2 & Ep24 & EQ & Hub & Ecb').
  destruct (wf_facts self W)
    as (p0 & p1 & p2 & bz & Esp & Ebs & Ebz & Hbz & Hrt & Hbr & Eub & Ebb
        & Ecb & Hq & Hds & Hi' & Hx' & Ht & Hp0 & Hp0' & Hp1 & Hp1' & Hp2
        & Hp2').
  unfold subvolume_offset.
  unfold file_complete in Hfile. rewrite Ecb' in Hfile.
  rewrite Esp in *. unfold idx0, idx1, idx2 in *. cbn [fst snd] in *.
  assert (Hp24 : p2 mod 4 = 0).
  { rewrite Ep2. replace (4 * q4 * Q) with (q4 * Q * 4) by ring.
    apply Z_mod_mult. }
  unfold units in *.
  replace ((max_il + 4) / 4) with (max_il / 4 + 1) in Hi
    by (replace (max_il + 4) with (max_il + 1 * 4) by ring;
        now rewrite Z.div_add by lia).
  replace ((max_xl + 4) / 4) with (max_xl / 4 + 1) in Hx
    by (replace (max_xl + 4) with (max_xl + 1 * 4) by ring;
        now rewrite Z.div_add by lia).
  replace ((max_z + 4) / 4) with (max_z / 4 + 1)
    by (replace (max_z + 4) with (max_z + 1 * 4) by ring;
        now rewrite Z.div_add by lia).
  assert (Hmi : 0 <= min_il / 4) by (apply Z.div_pos; lia).
  assert (Hmx : 0 <= min_xl / 4) by (apply Z.div_pos; lia).
  assert (Hmz : 0 <= min_z / 4) by (apply Z.div_pos; lia).
  assert (Hi4 : max_il / 4 < p0 / 4).
  { apply Z.div_lt_upper_bound; [lia |]. rewrite <- (div4_exact p0 Hp0). lia. }
  assert (Hx4 : max_xl / 4 < p1 / 4).
  { apply Z.div_lt_upper_bound; [lia |]. rewrite <- (div4_exact p1 Hp1). lia. }
  assert (Hz4 : max_z / 4 < p2 / 4).
  { apply Z.div_lt_upper_bound; [lia |]. rewrite <- (div4_exact p2 Hp24).
    lia. }
  assert (Hzz : min_z / 4 <= max_z / 4) by (apply Z.div_le_mono; lia).
  set (a := i + min_il / 4) in *. set (b := x + min_xl / 4) in *.
  set (c := min_z / 4) in *. set (zu := max_z / 4 + 1 - c) in *.
  set (P0 := p0 / 4) in *. set (P1 := p1 / 4) in *. set (P2 := p2 / 4) in *.
  assert (Ha : 0 <= a < P0) by lia.
  assert (Hb : 0 <= b < P1) by lia.
  assert (Hc : 0 <= c /\ c + zu <= P2) by lia.
  assert (Hub0 : 0 <= unit_bytes self) by lia.
  assert (H1 : b * P2 + c + zu <= P1 * P2).
  { assert ((b + 1) * P2 <= P1 * P2)
      by (apply Z.mul_le_mono_nonneg_r; lia).
    lia. }
  assert (H2 : a * P1 * P2 + P1 * P2 <= P0 * P1 * P2).
  { replace (a * P1 * P2 + P1 * P2) with ((a + 1) * (P1 * P2)) by ring.
    replace (P0 * P1 * P2) with (P0 * (P1 * P2)) by ring.
    apply Z.mul_le_mono_nonneg_r; [| lia].
    apply Z.mul_nonneg_nonneg; lia. }
  assert (H3 : 0 <= a * P1 * P2 + b * P2 + c).
  { assert (0 <= a * P1 * P2)
      by (apply Z.mul_nonneg_nonneg; [apply Z.mul_nonneg_nonneg |]; lia).
    assert (0 <= b * P2) by (apply Z.mul_nonneg_nonneg; lia).
    lia. }
  assert (H4 : unit_bytes self * (a * P1 * P2 + b * P2 + c + zu)
               <= unit_bytes self * (P0 * P1 * P2)).
  { apply Z.mul_le_mono_nonneg_l; lia. }
  assert (H5 : 0 <= unit_bytes self * (a * P1 * P2 + b * P2 + c))
    by (apply Z.mul_nonneg_nonneg; lia).
  split; [lia |].
  replace (P0 * P1 * (unit_bytes self * P2))
    with (unit_bytes self * (P0 * P1 * P2)) in Hfile by ring.
  lia.
Qed.

(** The buffer of [read_subvolume] as a row of slots, one for each pair of
    its loops, each holding what the pair's read returned. *)
Lemma subvolume_buffer_slots (file : bytes) (self : SzReader)
    (min_il max_il min_xl max_xl min_z max_z : Z) :
  wf_reader self -> 4 <= idx2 (blockshape self) ->
  file_complete file self ->
  0 <= min_il <= max_il -> max_il < idx0 (shape_pad self) ->
  0 <= min_xl <= max_xl -> max_xl < idx1 (shape_pad self) ->
  0 <= min_z <= max_z -> max_z < idx2 (shape_pad self) ->
  let xu := units min_xl max_xl in
  let d := fun k =>
             pread file
                   (subvolume_offset self min_il min_xl min_z
                                     (k / xu) (k mod xu))
                   (unit_bytes self * units min_z max_z) in
  subvolume_buffer file self min_il max_il min_xl max_xl min_z max_z
  = concat (map d (range (units min_il max_il * xu))) /\
  forall k, 0 <= k < units min_il max_il * xu ->
    length (d k) = Z.to_nat (unit_bytes self * units min_z max_z).
Proof.
  intros W Hbz4 Hfile Hil Hil1 Hxl Hxl1 Hz Hz1 xu d.
  destruct (units_cover min_il max_il) as [Hiu _]; try lia.
  destruct (units_cover min_xl max_xl) as [Hxu _]; try lia.
  destruct (units_cover min_z max_z) as [Hzu _]; try lia.
  fold xu in Hxu.
  pose proof (wf_unit_bytes self W) as Eub.
  pose proof (wf_rate self W) as Hrt.
  assert (Hub0 : 0 <= unit_bytes self) by lia.
  set (iu := units min_il max_il) in *.
  set (zu := units min_z max_z) in *.
  set (c := unit_bytes self * zu).
  assert (Hc : 0 <= c) by (apply Z.mul_nonneg_nonneg; lia).
  assert (Hd : forall k, 0 <= k < iu * xu -> length (d k) = Z.to_nat c).
  { intros k Hk. unfold d.
    assert (Hxu0 : 0 < xu).
    { destruct (Z.eq_dec xu 0) as [E | E]; [| lia].
      rewrite E, Z.mul_0_r in Hk. lia. }
    pose proof (Z.mod_pos_bound k xu Hxu0) as Hm.
    assert (Hq : 0 <= k / xu < iu).
    { split; [apply Z.div_pos; lia |].
      apply Z.div_lt_upper_bound; [lia |]. rewrite Z.mul_comm. lia. }
    destruct (subvolume_read_in_file file self min_il max_il min_xl max_xl
                min_z max_z (k / xu) (k mod xu) W Hbz4 Hfile)
      as [Hoff Hin]; try lia.
    apply length_pread; try assumption. }
  split; [| exact Hd].
  unfold subvolume_buffer. fold iu xu zu.
  rewrite (fold_rows
             (fun acc k => slice_assign acc (k * c) ((k + 1) * c) (d k))
             (fun acc i x =>
                slice_assign acc
                  ((i * xu * zu + x * zu) * unit_bytes self)
                  ((i * xu * zu + x * zu) * unit_bytes self
                   + unit_bytes self * zu)
                  (pread file (subvolume_offset self min_il min_xl min_z i x)
                         (unit_bytes self * zu)))
             xu).
  - rewrite range_rows by assumption.
    replace (Z.to_nat (zu * xu * iu * unit_bytes self))
      with (Z.to_nat (iu * xu) * Z.to_nat c)%nat.
    2:{ rewrite <- Z2Nat.inj_mul
          by (try assumption; apply Z.mul_nonneg_nonneg; lia).
        f_equal. unfold c. ring. }
    assert (Hn : iu * xu = Z.of_nat (Z.to_nat (iu * xu))).
    { symmetry. apply Z2Nat.id, Z.mul_nonneg_nonneg; lia. }
    set (n := Z.to_nat (iu * xu)) in *.
    rewrite Hn.
    apply fill_slots.
    + exact Hc.
    + intros k Hk. apply Hd. rewrite Hn. exact Hk.
    + apply Permutation_refl.
  - intros acc i x Hi Hx. apply In_range in Hi. apply In_range in Hx.
    unfold d. destruct (row_index i x xu Hx) as [-> ->].
    f_equal; unfold c; ring.
Qed.

Lemma decoded_buffers_nested (off : Z -> Z -> Z) (len : Z) (l1 l2 : list Z) :
  decoded_buffers
    (flat_map (fun i => flat_map (fun x => [EvRead (off i x) len]) l2) l1)
  = [].
Proof.
  induction l1 as [| i l1 IH]; [reflexivity |].
  cbn [flat_map]. rewrite decoded_buffers_app, IH.
  rewrite (decoded_buffers_reads (fun x => off i x) (fun _ => len)).
  reflexivity.
Qed.

(** What the ranges of the plan of [read_subvolume] return, as the row of
    slots of its buffer. *)
Lemma subvolume_plan_slots (file : bytes) (self : SzReader)
    (min_il max_il min_xl max_xl min_z max_z : Z) :
  0 <= units min_il max_il -> 0 <= units min_xl max_xl ->
  map (fun r => pread file (fst r) (snd r))
      (subvolume_plan self min_il max_il min_xl max_xl min_z max_z)
  = map (fun k =>
           pread file
                 (subvolume_offset self min_il min_xl min_z
                                   (k / units min_xl max_xl)
                                   (k mod units min_xl max_xl))
                 (unit_bytes self * units min_z max_z))
        (range (units min_il max_il * units min_xl max_xl)).
Proof.
  intros Hiu Hxu. unfold subvolume_plan.
  rewrite <- range_rows by assumption.
  rewrite !map_flat_map. apply flat_map_ext. intros i.
  rewrite !map_map. apply map_ext_in. intros x Hx. apply In_range in Hx.
  cbn [fst snd]. now destruct (row_index i x _ Hx) as [-> ->].
Qed.

Lemma ceil4_mul (n : Z) : (n * 4 + 3) / 4 = n.
Proof. symmetry. apply Z.div_unique with (r := 3); lia. Qed.

(** The place in the decoded array of [read_subvolume] of the sample [i] of
    an axis whose box starts at [lo]. *)
Lemma local_index (lo i : Z) :
  (lo mod 4 + (i - lo)) / 4 = i / 4 - lo / 4 /\
  (lo mod 4 + (i - lo)) mod 4 = i mod 4.
Proof.
  pose proof (Z_div_mod_eq_full lo 4) as Hlo.
  replace (lo mod 4 + (i - lo)) with (i + (- (lo / 4)) * 4) by lia.
  split.
  - rewrite Z.div_add by lia. lia.
  - apply Z_mod_plus_full.
Qed.

Lemma units_upper (lo hi i : Z) :
  lo <= i -> i < hi -> 0 <= i / 4 - lo / 4 /\ i / 4 - lo / 4 + 1 <= units lo hi.
Proof.
  intros Hlo Hhi. unfold units.
  replace (hi + 4) with (hi + 1 * 4) by ring.
  rewrite Z.div_add by lia.
  assert (lo / 4 <= i / 4) by (apply Z.div_le_mono; lia).
  assert (i / 4 <= hi / 4) by (apply Z.div_le_mono; lia).
  lia.
Qed.

Section BoxBuffer.
Variable file : bytes.
Variable V : Type.
Variable decompress : bytes -> Z * Z * Z -> Z -> list (list (list V)).

(** X18: for a box whose upper bounds are below the padded extents, in a
    complete file with block depth at least 4, the buffer [read_subvolume]
    hands the codec is what its planned ranges hold, concatenated in the
    order of the plan, and it has exactly the bits the decode shape needs
    at the reader's rate. *)
Theorem read_subvolume_buffer_is_the_plan (self : SzReader)
    (min_il max_il min_xl max_xl min_z max_z : Z) (s0 s1 : io_state) :
  SzReader_init (Some file) s0 = Ok (self, s1) ->
  4 <= idx2 (blockshape self) ->
  file_complete file self ->
  0 <= min_il <= max_il -> max_il < idx0 (shape_pad self) ->
  0 <= min_xl <= max_xl -> max_xl < idx1 (shape_pad self) ->
  0 <= min_z <= max_z -> max_z < idx2 (shape_pad self) ->
  let run := read_subvolume file V decompress self
                            min_il max_il min_xl max_xl min_z max_z
                            io_start in
  let plan := subvolume_plan self min_il max_il min_xl max_xl min_z max_z in
  let buffer := concat (map (fun r => pread file (fst r) (snd r)) plan) in
  decoded_buffers (log_of run) = [buffer] /\
  Z.of_nat (length buffer) * 8
  = shape_bits (units min_il max_il * 4, units min_xl max_xl * 4,
                units min_z max_z * 4) (rate self).
Proof.
  intros Hinit Hbz4 Hfile Hil Hil1 Hxl Hxl1 Hz Hz1 run plan buffer.
  pose proof (SzReader_init_wf _ _ _ _ Hinit) as W.
  destruct (units_cover min_il max_il) as [Hiu _]; try lia.
  destruct (units_cover min_xl max_xl) as [Hxu _]; try lia.
  destruct (units_cover min_z max_z) as [Hzu _]; try lia.
  destruct (read_subvolume_run file V decompress self
              min_il max_il min_xl max_xl min_z max_z io_start W)
    as [p Hrun]; try lia.
  destruct (subvolume_buffer_slots file self min_il max_il min_xl max_xl
              min_z max_z W Hbz4 Hfile Hil Hil1 Hxl Hxl1 Hz Hz1)
    as [Hbuf Hlen].
  assert (Ebuf : buffer
                 = subvolume_buffer file self min_il max_il min_xl max_xl
                                    min_z max_z).
  { unfold buffer, plan. rewrite Hbuf, subvolume_plan_slots by assumption.
    reflexivity. }
  split.
  - unfold run. rewrite Hrun. cbn [log_of log io_start app].
    rewrite decoded_buffers_app.
    rewrite (decoded_buffers_nested
               (subvolume_offset self min_il min_xl min_z)).
    rewrite Ebuf. reflexivity.
  - rewrite Ebuf, Hbuf.
    pose proof (wf_unit_bytes self W) as Eub.
    pose proof (wf_rate self W) as Hrt.
    rewrite (length_concat_slots
               (Z.to_nat (unit_bytes self * units min_z max_z))).
    + rewrite length_map, Nat2Z.inj_mul, length_range
        by (apply Z.mul_nonneg_nonneg; lia).
      rewrite Z2Nat.id by (apply Z.mul_nonneg_nonneg; lia).
      unfold shape_bits, idx0, idx1, idx2. cbn [fst snd].
      rewrite Eub. ring.
    + apply Forall_map, Forall_forall. intros k Hk.
      apply In_range in Hk. now apply Hlen.
Qed.
End BoxBuffer.

Lemma read_subvolume_buffer_is_the_plan_witness :
  decoded_buffers
    (log_of (read_subvolume sample_file Z first_byte_decompress sample_reader
                            1 5 2 6 100 250 io_start))
  = [concat (map (fun r => pread sample_file (fst r) (snd r))
                 (subvolume_plan sample_reader 1 5 2 6 100 250))].
Proof.
  refine (proj1 (read_subvolume_buffer_is_the_plan
                   sample_file Z first_byte_decompress sample_reader
                   1 5 2 6 100 250 io_start _ sample_file_opens _
                   sample_file_complete _ _ _ _ _ _));
    vm_compute; try (split; discriminate); try reflexivity; discriminate.
Defined.

Section BoxValues.
Variable file : bytes.
Variable V : Type.
Variable decode_unit : bytes -> Z -> Z -> Z -> V.

(** X19: what [read_subvolume] returns, for a codec that decodes unit by
    unit: for a box whose upper bounds are below the padded extents, in a
    complete file with block depth at least 4, the entry of every sample
    (il, xl, z) of the box, at (il - min_il, xl - min_xl, z - min_z), is the
    sample's own unit of the file decoded, at the sample's place in the
    unit. *)
Theorem read_subvolume_box_value (self : SzReader)
    (min_il max_il min_xl max_xl min_z max_z il xl z : Z)
    (s0 s1 s : io_state) :
  SzReader_init (Some file) s0 = Ok (self, s1) ->
  4 <= idx2 (blockshape self) ->
  file_complete file self ->
  0 <= min_il -> max_il < idx0 (shape_pad self) ->
  0 <= min_xl -> max_xl < idx1 (shape_pad self) ->
  0 <= min_z -> max_z < idx2 (shape_pad self) ->
  min_il <= il < max_il -> min_xl <= xl < max_xl -> min_z <= z < max_z ->
  exists a,
    value_of (read_subvolume file V (blockwise_decompress decode_unit) self
                             min_il max_il min_xl max_xl min_z max_z s)
    = Ok a /\
    get3 a (il - min_il) (xl - min_xl) (z - min_z)
    = Some (unit_value decode_unit file self il xl z).
Proof.
  intros Hinit Hbz4 Hfile Hil0 Hil1 Hxl0 Hxl1 Hz0 Hz1 Hil Hxl Hz.
  pose proof (SzReader_init_wf _ _ _ _ Hinit) as W.
  destruct (units_cover min_il max_il) as [Hiu Hic]; try lia.
  destruct (units_cover min_xl max_xl) as [Hxu Hxc]; try lia.
  destruct (units_cover min_z max_z) as [Hzu Hzc]; try lia.
  pose proof (Z.mod_pos_bound min_il 4 ltac:(lia)) as Him.
  pose proof (Z.mod_pos_bound min_xl 4 ltac:(lia)) as Hxm.
  pose proof (Z.mod_pos_bound min_z 4 ltac:(lia)) as Hzm.
  destruct (read_subvolume_run file V (blockwise_decompress decode_unit) self
              min_il max_il min_xl max_xl min_z max_z s W)
    as [p Hrun]; try lia.
  destruct (subvolume_buffer_slots file self min_il max_il min_xl max_xl
              min_z max_z W Hbz4 Hfile)
    as [Hbuf Hlen]; try lia.
  rewrite Hrun. cbn [value_of]. eexists. split; [reflexivity |].
  unfold subvolume_trim.
  rewrite get3_trim by lia.
  rewrite get3_blockwise by (unfold idx0, idx1, idx2; cbn [fst snd]; lia).
  unfold unit_value. f_equal.
  rewrite (unit_bytes_codec self W).
  unfold idx1, idx2. cbn [fst snd]. rewrite !ceil4_mul.
  destruct (local_index min_il il) as [-> ->].
  destruct (local_index min_xl xl) as [-> ->].
  destruct (local_index min_z z) as [-> ->].
  destruct (units_upper min_il max_il il) as [HA0 HA1]; try lia.
  destruct (units_upper min_xl max_xl xl) as [HB0 HB1]; try lia.
  destruct (units_upper min_z max_z z) as [HC0 HC1]; try lia.
  set (A := il / 4 - min_il / 4) in *.
  set (B := xl / 4 - min_xl / 4) in *.
  set (C := z / 4 - min_z / 4) in *.
  set (iu := units min_il max_il) in *.
  set (xu := units min_xl max_xl) in *.
  set (zu := units min_z max_z) in *.
  pose proof (wf_unit_bytes self W) as Eub.
  pose proof (wf_rate self W) as Hrt.
  assert (Hub0 : 0 <= unit_bytes self) by lia.
  f_equal.
  replace (((A * xu + B) * zu + C) * unit_bytes self)
    with ((A * xu + B) * (unit_bytes self * zu) + C * unit_bytes self)
    by ring.
  replace (((A * xu + B) * zu + C + 1) * unit_bytes self)
    with ((A * xu + B) * (unit_bytes self * zu) + C * unit_bytes self
          + unit_bytes self) by ring.
  assert (Hk : 0 <= A * xu + B < iu * xu).
  { assert (0 <= A * xu) by (apply Z.mul_nonneg_nonneg; lia).
    assert ((A + 1) * xu <= iu * xu)
      by (apply Z.mul_le_mono_nonneg_r; lia).
    lia. }
  assert (HCu : 0 <= C * unit_bytes self)
    by (apply Z.mul_nonneg_nonneg; lia).
  assert (HCz : C * unit_bytes self + unit_bytes self
                <= unit_bytes self * zu).
  { replace (C * unit_bytes self + unit_bytes self)
      with (unit_bytes self * (C + 1)) by ring.
    apply Z.mul_le_mono_nonneg_l; lia. }
  rewrite Hbuf.
  rewrite py_slice_concat_inner; try assumption; try lia.
  destruct (row_index A B xu ltac:(lia)) as [-> ->].
  destruct (subvolume_read_in_file file self min_il max_il min_xl max_xl
              min_z max_z A B W Hbz4 Hfile)
    as [Hoff _]; try lia.
  rewrite py_slice_pread; try assumption; try lia.
  f_equal. unfold subvolume_offset, A, B, C. ring.
Qed.
End BoxValues.

Lemma read_subvolume_box_value_witness :
  exists a,
    value_of (read_subvolume sample_file (Z * Z)
                (blockwise_decompress tag_unit) sample_reader
                1 5 2 6 100 250 io_start) = Ok a /\
    get3 a (4 - 1) (5 - 2) (249 - 100)
    = Some (unit_value tag_unit sample_file sample_reader 4 5 249).
Proof.
  apply (read_subvolume_box_value sample_file (Z * Z) tag_unit sample_reader
           1 5 2 6 100 250 4 5 249 io_start _ io_start sample_file_opens);
    try exact sample_file_complete;
    vm_compute; try (split; [discriminate | reflexivity]);
    try reflexivity; discriminate.
Defined.

(** ** The values of a crossline *)

(** The buffer of [read_crossline] as a row of chunks, one for each inline
    block-row. *)
Lemma crossline_buffer_slots (file : bytes) (self : SzReader) (xl_id : Z) :
  wf_reader self -> file_complete file self ->
  0 <= xl_id < idx1 (shape_pad self) ->
  let d := fun k => pread file (crossline_offset self xl_id k)
                          (chunk_bytes self) in
  crossline_buffer file self xl_id
  = concat (map d (range (idx0 (shape_pad self) / 4))) /\
  forall k, 0 <= k < idx0 (shape_pad self) / 4 ->
    0 <= crossline_offset self xl_id k /\
    length (d k) = Z.to_nat (chunk_bytes self).
Proof.
  intros W Hfile Hxl d.
  destruct (wf_facts self W)
    as (p0 & p1 & p2 & bz & Esp & Ebs & Ebz & Hbz & Hrt & Hbr & Eub & Ebb
        & Ecb & Hq & Hds & Hi & Hx & Ht & Hp0 & Hp0' & Hp1 & Hp1' & Hp2 & Hp2').
  assert (Hcb : 0 <= chunk_bytes self) by lia.
  unfold file_complete in Hfile.
  assert (Hoff : forall k,
             crossline_offset self xl_id k
             = data_start_bytes self
               + (xl_id / 4 + k * (idx1 (shape_pad self) / 4))
                 * chunk_bytes self).
  { intros k. unfold crossline_offset.
    rewrite Esp. unfold idx1. cbn [fst snd]. rewrite mul_div4 by assumption.
    ring. }
  rewrite Esp in *. unfold idx0, idx1 in *. cbn [fst snd] in *.
  pose proof (div4_lt xl_id p1 Hxl Hp1) as Hx4.
  assert (Hib : 0 <= p0 / 4) by (apply Z.div_pos; lia).
  assert (Hd : forall k, 0 <= k < p0 / 4 ->
               0 <= crossline_offset self xl_id k /\
               length (d k) = Z.to_nat (chunk_bytes self)).
  { intros k Hk. unfold d. rewrite Hoff.
    assert (Hrow0 : 0 <= k * (p1 / 4)) by (apply Z.mul_nonneg_nonneg; lia).
    assert (Hrow : (k + 1) * (p1 / 4) <= p0 / 4 * (p1 / 4))
      by (apply Z.mul_le_mono_nonneg_r; lia).
    assert (Hlo : 0 <= (xl_id / 4 + k * (p1 / 4)) * chunk_bytes self)
      by (apply Z.mul_nonneg_nonneg; lia).
    assert (Hhi : (xl_id / 4 + k * (p1 / 4) + 1) * chunk_bytes self
                  <= p0 / 4 * (p1 / 4) * chunk_bytes self)
      by (apply Z.mul_le_mono_nonneg_r; lia).
    split; [lia |].
    apply length_pread; lia. }
  split; [| exact Hd].
  unfold crossline_buffer. rewrite Esp. unfold idx0. cbn [fst snd].
  replace (Z.to_nat (chunk_bytes self * p0 / 4))
    with (Z.to_nat (p0 / 4) * Z.to_nat (chunk_bytes self))%nat.
  2:{ rewrite mul_div4 by assumption.
      rewrite <- Z2Nat.inj_mul by lia. f_equal. ring. }
  assert (Hn : p0 / 4 = Z.of_nat (Z.to_nat (p0 / 4))) by lia.
  set (n := Z.to_nat (p0 / 4)) in *.
  rewrite Hn.
  apply (fill_slots (chunk_bytes self) n d).
  - exact Hcb.
  - intros k Hk. apply Hd. rewrite Hn. exact Hk.
  - apply Permutation_refl.
Qed.

Section CrosslineRows.
Variable file : bytes.
Variable V : Type.
Variable decompress : bytes -> Z * Z * Z -> Z -> list (list (list V)).

(** [read_crossline] with the rows it takes from the decoded array. *)
Lemma read_crossline_rows (self : SzReader) (xl_id : Z) (s : io_state) :
  wf_reader self -> codec_shape_ok decompress -> 0 <= xl_id ->
  let buffer := crossline_buffer file self xl_id in
  let shape := (idx0 (shape_pad self), 4, idx2 (shape_pad self)) in
  exists rows,
    map_result (fun plane => np_index plane (xl_id mod 4))
               (py_slice (decompress buffer shape (rate self))
                         0 (ilines self)) = Ok rows /\
    value_of (read_crossline file V decompress self xl_id s)
    = Ok (map (fun row => py_slice row 0 (tracelength self)) rows).
Proof.
  intros W C Hxl buffer shape.
  destruct (wf_facts self W)
    as (p0 & p1 & p2 & bz & Esp & Ebs & Ebz & Hbz & Hrt & Hbr & Eub & Ebb
        & Ecb & Hq & Hds & Hi & Hx & Ht & Hp0 & Hp0' & Hp1 & Hp1' & Hp2 & Hp2').
  assert (Hcb : 0 <= chunk_bytes self) by lia.
  assert (Hinc : 0 <= chunk_bytes self * idx1 (shape_pad self) / 4).
  { apply Z.div_pos; [| lia]. rewrite Esp. unfold idx1. cbn [fst snd].
    apply Z.mul_nonneg_nonneg; lia. }
  assert (Hx4 : 0 <= xl_id / 4) by (apply Z.div_pos; lia).
  unfold read_crossline, bytearray.
  destruct (Z.ltb_spec (chunk_bytes self * idx0 (shape_pad self) / 4) 0)
    as [Hneg | _].
  { exfalso. revert Hneg. apply Z.le_ngt. apply Z.div_pos; [| lia].
    rewrite Esp. unfold idx0. cbn [fst snd].
    apply Z.mul_nonneg_nonneg; lia. }
  rewrite lift_run, open_run.
  match goal with
  | |- exists _, _ /\ value_of (bind (for_each _ ?b _) _ _) = _ =>
    set (body := b)
  end.
  destruct (for_each_run (range (idx0 (shape_pad self) / 4)) body
              (fun k acc =>
                 slice_assign acc (k * chunk_bytes self)
                              ((k + 1) * chunk_bytes self)
                              (pread file (crossline_offset self xl_id k)
                                     (chunk_bytes self)))
              (fun k => [EvRead (crossline_offset self xl_id k)
                                (chunk_bytes self)]))
    with (acc := repeat x00
                   (Z.to_nat (chunk_bytes self * idx0 (shape_pad self) / 4)))
         (s := mkIO 0 (log s)) as [p Hloop].
  { intros k acc t Hin. apply In_range in Hin. unfold body.
    eexists. rewrite seek_read_run.
    - unfold ret, crossline_offset. reflexivity.
    - assert (0 <= xl_id / 4 * chunk_bytes self)
        by (apply Z.mul_nonneg_nonneg; lia).
      assert (0 <= k * (chunk_bytes self * idx1 (shape_pad self) / 4))
        by (apply Z.mul_nonneg_nonneg; lia).
      lia. }
  unfold bind at 1. rewrite Hloop. fold (crossline_buffer file self xl_id).
  fold buffer. rewrite Ebs. unfold idx1 at 1. cbn [fst snd]. fold shape.
  rewrite decompress_run, py_mod_4, lift_run.
  assert (Hsh : has_shape3 (decompress buffer shape (rate self)) shape).
  { apply C; unfold shape, idx0, idx1, idx2; rewrite Esp; cbn [fst snd]; lia. }
  pose proof (Z.mod_pos_bound xl_id 4 ltac:(lia)) as Hm.
  destruct (map_result_Ok
              (fun plane => np_index plane (xl_id mod 4))
              (py_slice (decompress buffer shape (rate self)) 0 (ilines self))
              (fun row => Z.of_nat (length row) = idx2 (shape_pad self)))
    as (rows & Hrows & Hlen & Hall).
  { intros plane Hin. apply In_py_slice in Hin.
    pose proof (has_shape3_plane _ _ _ Hsh Hin) as Hpl.
    destruct (np_index_Ok plane (xl_id mod 4)) as [row [Hrow Hnth]].
    { destruct Hpl as [Hl _]. rewrite Hl. unfold shape, idx1. cbn [fst snd].
      lia. }
    exists row. split; [assumption |].
    apply (has_shape2_row _ _ _ _ Hpl). eapply nth_error_In; eassumption. }
  exists rows. split; [exact Hrows |].
  rewrite Hrows, lift_run. reflexivity.
Qed.
End CrosslineRows.

Lemma crossline_unit_offset (self : SzReader) (il xl z : Z) :
  wf_reader self -> 4 <= idx2 (blockshape self) ->
  crossline_offset self xl (il / 4) + z / 4 * unit_bytes self
  = subvolume_offset self il xl z 0 0.
Proof.
  intros W Hbz4.
  destruct (wf_units self W Hbz4)
    as (q4 & Q & Hq4 & HQ & Ebz4 & Ep2 & Ep24 & EQ & Hub & Ecb').
  destruct (wf_facts self W)
    as (p0 & p1 & p2 & bz & Esp & _ & _ & _ & _ & _ & _ & _
        & _ & _ & _ & _ & _ & _ & _ & _ & Hp1 & _).
  rewrite subvolume_offset_origin. unfold crossline_offset. rewrite Ecb'.
  rewrite Esp in *. unfold idx1, idx2 in *. cbn [fst snd] in *.
  rewrite mul_div4 by assumption. ring.
Qed.

Section CrosslineValues.
Variable file : bytes.
Variable V : Type.
Variable decode_unit : bytes -> Z -> Z -> Z -> V.

Lemma crossline_value (self : SzReader) (il xl z : Z) (s : io_state) :
  wf_reader self -> 4 <= idx2 (blockshape self) ->
  file_complete file self ->
  0 <= il < ilines self -> 0 <= xl < xlines self ->
  0 <= z < tracelength self ->
  exists a,
    value_of (read_crossline file V (blockwise_decompress decode_unit) self
                             xl s) = Ok a /\
    get2 a il z = Some (unit_value decode_unit file self il xl z).
Proof.
  intros W Hbz4 Hfile Hil Hxl Hz.
  destruct (read_crossline_rows file V (blockwise_decompress decode_unit)
              self xl s W (blockwise_shape_ok decode_unit) ltac:(lia))
    as (rows & Hrows & Hrun).
  destruct (wf_units self W Hbz4)
    as (q4 & Q & Hq4 & HQ & Ebz4 & Ep2 & Ep24 & EQ & Hub & Ecb').
  destruct (wf_facts self W)
    as (p0 & p1 & p2 & bz & Esp & Ebs & Ebz & Hbz & Hrt & Hbr & Eub & Ebb
        & Ecb & Hq & Hds & Hi & Hx & Ht & Hp0 & Hp0' & Hp1 & Hp1' & Hp2 & Hp2').
  destruct (crossline_buffer_slots file self xl W Hfile) as [Hbuf Hlen].
  { rewrite Esp. unfold idx1. cbn [fst snd]. lia. }
  rewrite Hrun. eexists. split; [reflexivity |].
  pose proof (Z.mod_pos_bound xl 4 ltac:(lia)) as Hm.
  assert (Hp24 : p2 mod 4 = 0).
  { rewrite Esp in Ep2. unfold idx2 in Ep2. cbn [snd] in Ep2. rewrite Ep2.
    replace (4 * q4 * Q) with (q4 * Q * 4) by ring. apply Z_mod_mult. }
  set (dec := blockwise_decompress decode_unit
                (crossline_buffer file self xl)
                (idx0 (shape_pad self), 4, idx2 (shape_pad self))
                (rate self)) in *.
  assert (Hg : get3 dec il (xl mod 4) z
               = Some (unit_value decode_unit file self il xl z)).
  { unfold dec.
    rewrite get3_blockwise
      by (unfold idx0, idx1, idx2; rewrite Esp; cbn [fst snd]; lia).
    unfold unit_value. rewrite Z.mod_mod by lia.
    rewrite (unit_bytes_codec self W).
    unfold idx1 at 1 2, idx2 at 1 2. cbn [fst snd].
    change ((4 + 3) / 4) with 1.
    rewrite (Z.div_small (xl mod 4) 4) by lia.
    rewrite Hbuf. clear Hbuf.
    rewrite Esp in *. unfold idx0, idx1, idx2 in *. cbn [fst snd] in *.
    rewrite (ceil4_exact p2 Hp24).
    pose proof (div4_lt il p0 ltac:(lia) Hp0) as Hi4.
    pose proof (div4_lt z p2 ltac:(lia) Hp24) as Hz4.
    assert (Hub0 : 0 <= unit_bytes self) by lia.
    replace ((il / 4 * 1 + 0) * (p2 / 4) + z / 4 + 1)
      with (il / 4 * (p2 / 4) + z / 4 + 1) by ring.
    replace ((il / 4 * 1 + 0) * (p2 / 4) + z / 4)
      with (il / 4 * (p2 / 4) + z / 4) by ring.
    replace ((il / 4 * (p2 / 4) + z / 4) * unit_bytes self)
      with (il / 4 * chunk_bytes self + z / 4 * unit_bytes self)
      by (rewrite Ecb'; ring).
    replace ((il / 4 * (p2 / 4) + z / 4 + 1) * unit_bytes self)
      with (il / 4 * chunk_bytes self + z / 4 * unit_bytes self
            + unit_bytes self)
      by (rewrite Ecb'; ring).
    assert (Hzu : 0 <= z / 4 * unit_bytes self)
      by (apply Z.mul_nonneg_nonneg; lia).
    assert (Hzc : z / 4 * unit_bytes self + unit_bytes self
                  <= chunk_bytes self).
    { rewrite Ecb'.
      replace (z / 4 * unit_bytes self + unit_bytes self)
        with (unit_bytes self * (z / 4 + 1)) by ring.
      apply Z.mul_le_mono_nonneg_l; lia. }
    destruct (Hlen (il / 4) Hi4) as [Hoff Hl].
    rewrite py_slice_concat_inner; try lia.
    2:{ intros j Hj. now destruct (Hlen j Hj). }
    rewrite py_slice_pread by lia.
    f_equal. f_equal.
    rewrite <- (crossline_unit_offset self il xl z W Hbz4).
    reflexivity. }
  destruct (get3_Some _ _ _ _ _ Hg) as (plane & row & Hplane & Hrow & Hv).
  assert (Hsl : nth_error (py_slice dec 0 (ilines self)) (Z.to_nat il)
                = Some plane).
  { rewrite nth_error_py_slice by lia. rewrite Z.add_0_l. exact Hplane. }
  destruct (map_result_nth _ _ _ _ _ Hrows Hsl) as (y & Hy & Hidx).
  apply np_index_nth in Hidx; [| lia].
  rewrite Hrow in Hidx. inversion Hidx. subst y.
  unfold get2. rewrite nth_error_map, Hy. cbn [option_map].
  rewrite nth_error_py_slice by lia. rewrite Z.add_0_l. exact Hv.
Qed.

(** X20: what [read_crossline] returns, for a codec that decodes unit by
    unit: in a complete file with block depth at least 4, the entry
    (il, z) of crossline xl is the unit of the sample (il, xl, z) decoded,
    at the sample's place in the unit. *)
Theorem read_crossline_value (self : SzReader) (il xl z : Z)
    (s0 s1 s : io_state) :
  SzReader_init (Some file) s0 = Ok (self, s1) ->
  4 <= idx2 (blockshape self) ->
  file_complete file self ->
  0 <= il < ilines self -> 0 <= xl < xlines self ->
  0 <= z < tracelength self ->
  exists a,
    value_of (read_crossline file V (blockwise_decompress decode_unit) self
                             xl s) = Ok a /\
    get2 a il z = Some (unit_value decode_unit file self il xl z).
Proof.
  intros Hinit. apply crossline_value.
  exact (SzReader_init_wf _ _ _ _ Hinit).
Qed.

(** X21: a crossline and an inline agree where they cross: in a complete
    file with block depth at least 4 and for a codec that decodes unit by
    unit, [read_crossline(xl)[il, z]] is [read_inline(il)[xl, z]] for every
    sample of the volume. *)
Theorem read_crossline_agrees_with_read_inline (self : SzReader)
    (il xl z : Z) (s0 s1 s s' : io_state) :
  SzReader_init (Some file) s0 = Ok (self, s1) ->
  4 <= idx2 (blockshape self) ->
  file_complete file self ->
  0 <= il < ilines self -> 0 <= xl < xlines self ->
  0 <= z < tracelength self ->
  exists v crossline inline,
    value_of (read_crossline file V (blockwise_decompress decode_unit) self
                             xl s) = Ok crossline /\
    value_of (read_inline file V (blockwise_decompress decode_unit) self
                          il s') = Ok inline /\
    get2 crossline il z = Some v /\
    get2 inline xl z = Some v.
Proof.
  intros Hinit Hbz4 Hfile Hil Hxl Hz.
  pose proof (SzReader_init_wf _ _ _ _ Hinit) as W.
  destruct (crossline_value self il xl z s W Hbz4 Hfile Hil Hxl Hz)
    as (c & Hc & Hcv).
  destruct (read_inline_value file V decode_unit self il xl z s' W Hbz4
              ltac:(lia) Hxl Hz) as (i & Hi & Hiv).
  exists (unit_value decode_unit file self il xl z), c, i.
  repeat split; assumption.
Qed.
End CrosslineValues.

Lemma read_crossline_value_witness :
  exists a,
    value_of (read_crossline sample_file (Z * Z)
                (blockwise_decompress tag_unit) sample_reader 5 io_start)
    = Ok a /\
    get2 a 4 249 = Some (unit_value tag_unit sample_file sample_reader
                                    4 5 249).
Proof.
  apply (read_crossline_value sample_file (Z * Z) tag_unit sample_reader
           4 5 249 io_start _ io_start sample_file_opens);
    try exact sample_file_complete;
    vm_compute; try (split; [discriminate | reflexivity]); discriminate.
Defined.

Lemma read_crossline_agrees_with_read_inline_witness :
  exists v crossline inline,
    value_of (read_crossline sample_file (Z * Z)
                (blockwise_decompress tag_unit) sample_reader 5 io_start)
    = Ok crossline /\
    value_of (read_inline sample_file (Z * Z)
                (blockwise_decompress tag_unit) sample_reader 4 io_start)
    = Ok inline /\
    get2 crossline 4 249 = Some v /\
    get2 inline 5 249 = Some v.
Proof.
  apply (read_crossline_agrees_with_read_inline sample_file (Z * Z) tag_unit
           sample_reader 4 5 249 io_start _ io_start io_start
           sample_file_opens);
    try exact sample_file_complete;
    vm_compute; try (split; [discriminate | reflexivity]); discriminate.
Defined.

(** ** Buffers of exactly the size the decode shape needs *)

Lemma codec_shape_ok_sized {V : Type}
    (decompress : bytes -> Z * Z * Z -> Z -> list (list (list V))) :
  codec_shape_ok decompress -> codec_sized_ok decompress.
Proof. intros C buffer shape rt H0 H1 H2 _. now apply C. Qed.

Lemma exact_size_sized_ok : codec_sized_ok exact_size_decompress.
Proof.
  intros buffer shape rt H0 H1 H2 Hsize. unfold exact_size_decompress.
  rewrite Hsize, Z.eqb_refl. now apply first_byte_shape_ok.
Qed.

Lemma crossline_buffer_sized (file : bytes) (self : SzReader) (xl_id : Z) :
  wf_reader self -> file_complete file self ->
  0 <= xl_id < idx1 (shape_pad self) ->
  Z.of_nat (length (crossline_buffer file self xl_id)) * 8
  = shape_bits (idx0 (shape_pad self), 4, idx2 (shape_pad self)) (rate self).
Proof.
  intros W Hfile Hxl.
  destruct (crossline_buffer_slots file self xl_id W Hfile Hxl) as [Hbuf Hlen].
  rewrite Hbuf.
  rewrite (length_concat_slots (Z.to_nat (chunk_bytes self))).
  2:{ apply Forall_map, Forall_forall. intros k Hk. apply In_range in Hk.
      now destruct (Hlen k Hk). }
  clear Hbuf Hlen.
  destruct (wf_facts self W)
    as (p0 & p1 & p2 & bz & Esp & Ebs & Ebz & Hbz & Hrt & Hbr & Eub & Ebb
        & Ecb & Hq & Hds & Hi & Hx & Ht & Hp0 & Hp0' & Hp1 & Hp1' & Hp2 & Hp2').
  rewrite Esp in *. unfold shape_bits, idx0, idx1, idx2 in *.
  cbn [fst snd] in *.
  assert (HP : 0 <= p0 / 4) by (apply Z.div_pos; lia).
  rewrite length_map, Nat2Z.inj_mul, length_range by assumption.
  rewrite Z2Nat.id by lia.
  pose proof (div4_exact p0 Hp0) as E0.
  pose proof (Z_div_mod_eq_full p2 bz) as E2. rewrite Hp2 in E2.
  rewrite Ecb.
  set (P := p0 / 4) in *. set (Q := p2 / bz) in *.
  rewrite E0, E2, Z.add_0_r.
  replace (4 * P * 4 * (bz * Q) * rate self)
    with (16 * P * Q * (bz * rate self)) by ring.
  rewrite Hbr. ring.
Qed.


Lemma subvolume_buffer_sized (file : bytes) (self : SzReader)
    (min_il max_il min_xl max_xl min_z max_z : Z) :
  wf_reader self -> 4 <= idx2 (blockshape self) ->
  file_complete file self ->
  0 <= min_il <= max_il -> max_il < idx0 (shape_pad self) ->
  0 <= min_xl <= max_xl -> max_xl < idx1 (shape_pad self) ->
  0 <= min_z <= max_z -> max_z < idx2 (shape_pad self) ->
  Z.of_nat (length (subvolume_buffer file self min_il max_il min_xl max_xl
                                     min_z max_z)) * 8
  = shape_bits (units min_il max_il * 4, units min_xl max_xl * 4,
                units min_z max_z * 4) (rate self).
Proof.
  intros W Hbz4 Hfile Hil Hil1 Hxl Hxl1 Hz Hz1.
  destruct (units_cover min_il max_il) as [Hiu _]; try lia.
  destruct (units_cover min_xl max_xl) as [Hxu _]; try lia.
  destruct (units_cover min_z max_z) as [Hzu _]; try lia.
  destruct (subvolume_buffer_slots file self min_il max_il min_xl max_xl
              min_z max_z W Hbz4 Hfile Hil Hil1 Hxl Hxl1 Hz Hz1)
    as [Hbuf Hlen].
  rewrite Hbuf.
  pose proof (wf_unit_bytes self W) as Eub.
  pose proof (wf_rate self W) as Hrt.
  rewrite (length_concat_slots
             (Z.to_nat (unit_bytes self * units min_z max_z))).
  - rewrite length_map, Nat2Z.inj_mul, length_range
      by (apply Z.mul_nonneg_nonneg; lia).
    rewrite Z2Nat.id by (apply Z.mul_nonneg_nonneg; lia).
    unfold shape_bits, idx0, idx1, idx2. cbn [fst snd].
    rewrite Eub. ring.
  - apply Forall_map, Forall_forall. intros k Hk.
    apply In_range in Hk. now apply Hlen.
Qed.

(** [read_crossline] on a complete file, for a codec that honours
    exactly-sized buffers and an index below the padded extent. *)
Lemma read_crossline_run_sized (file : bytes) (V : Type)
    (decompress : bytes -> Z * Z * Z -> Z -> list (list (list V)))
    (self : SzReader) (xl_id : Z) (s : io_state) :
  wf_reader self -> codec_sized_ok decompress -> file_complete file self ->
  0 <= xl_id < idx1 (shape_pad self) ->
  let buffer := crossline_buffer file self xl_id in
  let shape := (idx0 (shape_pad self), 4, idx2 (shape_pad self)) in
  exists a p,
    has_shape2 a (ilines self) (tracelength self) /\
    read_crossline file V decompress self xl_id s
    = Ok (a,
          mkIO p
            (log s
             ++ flat_map
                  (fun k => [EvRead (crossline_offset self xl_id k)
                                    (chunk_bytes self)])
                  (range (idx0 (shape_pad self) / 4))
             ++ [EvDecompress buffer shape (rate self)])).
Proof.
  intros W C Hfile Hxl buffer shape.
  apply read_crossline_run_shaped; [assumption | lia |].
  destruct (wf_facts self W)
    as (p0 & p1 & p2 & bz & Esp & Ebs & Ebz & Hbz & Hrt & Hbr & Eub & Ebb
        & Ecb & Hq & Hds & Hi & Hx & Ht & Hp0 & Hp0' & Hp1 & Hp1' & Hp2 & Hp2').
  apply C.
  - unfold idx0. rewrite Esp. cbn [fst snd]. lia.
  - unfold idx1. cbn [fst snd]. lia.
  - unfold idx2. rewrite Esp. cbn [fst snd]. lia.
  - now apply crossline_buffer_sized.
Qed.

(** ** The reads and the state they start in *)

Lemma same_outcome_value {A : Type} (r r' : result (A * io_state)) :
  same_outcome r r' -> value_of r = value_of r'.
Proof.
  unfold same_outcome. destruct r as [[a t] | e], r' as [[a' t'] | e'];
    cbn [value_of]; try contradiction.
  - now intros [-> _].
  - now intros ->.
Qed.

Lemma hf_ret {A : Type} (a : A) : history_free (ret a).
Proof. intros s s' Hp. unfold ret, same_outcome. now split. Qed.

Lemma hf_lift {A : Type} (r : result A) : history_free (lift r).
Proof.
  intros s s' Hp. unfold lift, same_outcome. destruct r; [now split | reflexivity].
Qed.

Lemma hf_bind {A B : Type} (m : IO A) (k : A -> IO B) :
  history_free m -> (forall a, history_free (k a)) -> history_free (bind m k).
Proof.
  intros Hm Hk s s' Hp. unfold bind.
  specialize (Hm s s' Hp). unfold same_outcome in Hm.
  destruct (m s) as [[a t] | e], (m s') as [[a' t'] | e']; try contradiction.
  - destruct Hm as [-> Ht]. now apply Hk.
  - exact Hm.
Qed.

Lemma hf_seek (offset : Z) : history_free (f_seek offset).
Proof.
  intros s s' Hp. unfold f_seek, same_outcome.
  destruct (offset <? 0); [reflexivity | now split].
Qed.

Lemma hf_read (file : bytes) (n : Z) : history_free (f_read file n).
Proof.
  intros s s' Hp. unfold f_read, same_outcome. cbn [pos].
  rewrite Hp. now split.
Qed.

Lemma hf_decompress {V : Type}
    (decompress : bytes -> Z * Z * Z -> Z -> list (list (list V)))
    (buffer : bytes) (shape : Z * Z * Z) (rt : Z) :
  history_free (call_decompress V decompress buffer shape rt).
Proof.
  intros s s' Hp. unfold call_decompress, same_outcome. cbn [pos].
  now split.
Qed.

Lemma hf_for_each {A S : Type} (xs : list A) (body : A -> S -> IO S) :
  (forall x acc, history_free (body x acc)) ->
  forall acc, history_free (for_each xs body acc).
Proof.
  intros Hb. induction xs as [| x xs IH]; intros acc; cbn [for_each].
  - apply hf_ret.
  - apply hf_bind; [apply Hb | exact IH].
Qed.

(** A fresh handle forgets the position of any earlier one. *)
Lemma open_forgets {B : Type} (k : IO B) (s s' : io_state) :
  history_free k -> same_outcome ((f_open ;; k) s) ((f_open ;; k) s').
Proof. intros Hk. rewrite !open_run. now apply Hk. Qed.

Ltac step_history_free :=
  repeat first
    [ apply hf_ret | apply hf_lift | apply hf_seek | apply hf_read
    | apply hf_decompress
    | apply hf_for_each; intros
    | apply hf_bind; [| intros] ].

Section Stateless.
Variable file : bytes.
Variable V : Type.
Variable decompress : bytes -> Z * Z * Z -> Z -> list (list (list V)).

(** X22: the reads keep no state between calls: every call opens its own
    handle and seeks from the start of the file, so what [read_inline],
    [read_crossline] and [read_subvolume] return or raise, for any reader
    and any arguments, does not depend on the position an earlier read left
    or on what was read before. *)
Theorem reads_do_not_depend_on_history (self : SzReader) (s s' : io_state) :
  (forall il_id,
     value_of (read_inline file V decompress self il_id s)
     = value_of (read_inline file V decompress self il_id s')) /\
  (forall xl_id,
     value_of (read_crossline file V decompress self xl_id s)
     = value_of (read_crossline file V decompress self xl_id s')) /\
  (forall min_il max_il min_xl max_xl min_z max_z,
     value_of (read_subvolume file V decompress self
                              min_il max_il min_xl max_xl min_z max_z s)
     = value_of (read_subvolume file V decompress self
                                min_il max_il min_xl max_xl min_z max_z s')).
Proof.
  split; [| split]; intros.
  - apply same_outcome_value. unfold read_inline. cbv zeta.
    apply open_forgets. step_history_free.
  - apply same_outcome_value. unfold read_crossline. cbv zeta.
    unfold bind at 1, lift at 1.
    destruct (bytearray _) as [buffer | e]; [| reflexivity].
    apply open_forgets. step_history_free.
  - apply same_outcome_value. unfold read_subvolume. cbv zeta.
    unfold bind at 1, lift at 1.
    destruct (bytearray _) as [buffer | e]; [| reflexivity].
    apply open_forgets. step_history_free.
Qed.

(** X23: [read_crossline] does not check its index against the crossline
    count: in a complete file, for every index from 0 up to the padded
    crossline count, in the volume or in its padding, it raises nothing,
    reads its [shape_pad[0] // 4] ranges and returns an array of ilines
    rows of tracelength samples, for a codec that returns the shape it is
    asked for when the buffer has exactly the size the shape needs. *)
Theorem read_crossline_accepts_padding_index (self : SzReader) (xl_id : Z)
    (s0 s1 : io_state) :
  SzReader_init (Some file) s0 = Ok (self, s1) ->
  codec_sized_ok decompress ->
  file_complete file self ->
  0 <= xl_id < idx1 (shape_pad self) ->
  let run := read_crossline file V decompress self xl_id io_start in
  (exists a, value_of run = Ok a /\
             has_shape2 a (ilines self) (tracelength self)) /\
  Z.of_nat (length (reads_of (log_of run))) = idx0 (shape_pad self) / 4.
Proof.
  intros Hinit C Hfile Hxl run.
  pose proof (SzReader_init_wf _ _ _ _ Hinit) as W. clear Hinit.
  destruct (read_crossline_run_sized file V decompress self xl_id io_start W C
              Hfile Hxl) as (a & p & Hshape & Hrun).
  unfold run. rewrite Hrun. cbn [value_of log_of log io_start app].
  split; [exists a; split; [reflexivity | exact Hshape] |].
  rewrite reads_of_app, reads_of_reads. cbn [reads_of flat_map].
  rewrite app_nil_r, length_map.
  apply length_range.
  destruct (wf_facts self W)
    as (p0 & p1 & p2 & bz & Esp & Ebs & Ebz & Hbz & Hrt & Hbr & Eub & Ebb
        & Ecb & Hq & Hds & Hi & Hx & Ht & Hp0 & Hp0' & Hp1 & Hp1' & Hp2 & Hp2').
  rewrite Esp. unfold idx0. cbn [fst snd]. apply Z.div_pos; lia.
Qed.

(** X24: the inline and crossline reads are aligned to disk blocks: for a
    reader that opened and an index from 0 on, every range [read_inline]
    and [read_crossline] read starts at a multiple of 4096 bytes and is a
    multiple of 4096 bytes long. *)
Theorem reads_are_block_aligned (self : SzReader) (il_id xl_id : Z)
    (s0 s1 : io_state) :
  SzReader_init (Some file) s0 = Ok (self, s1) ->
  codec_shape_ok decompress ->
  0 <= il_id -> 0 <= xl_id ->
  let aligned := fun r : Z * Z =>
                   fst r mod DISK_BLOCK_BYTES = 0 /\
                   snd r mod DISK_BLOCK_BYTES = 0 in
  Forall aligned
         (reads_of (log_of (read_inline file V decompress self il_id
                                        io_start))) /\
  Forall aligned
         (reads_of (log_of (read_crossline file V decompress self xl_id
                                           io_start))).
Proof.
  intros Hinit C Hil Hxl aligned.
  pose proof (SzReader_init_wf _ _ _ _ Hinit) as W.
  pose proof (wf_data_start self W) as Eds.
  destruct (wf_facts self W)
    as (p0 & p1 & p2 & bz & Esp & Ebs & Ebz & Hbz & Hrt & Hbr & Eub & Ebb
        & Ecb & Hq & Hds & Hi & Hx & Ht & Hp0 & Hp0' & Hp1 & Hp1' & Hp2 & Hp2').
  assert (Hmul : forall a b, (4096 * a + 4096 * b) mod 4096 = 0).
  { intros a b. replace (4096 * a + 4096 * b) with ((a + b) * 4096) by ring.
    apply Z_mod_mult. }
  assert (Hmul1 : forall a, (4096 * a) mod 4096 = 0).
  { intros a. rewrite Z.mul_comm. apply Z_mod_mult. }
  split.
  - destruct (read_inline_run file V decompress self il_id io_start W C Hil)
      as (plane & p & _ & _ & Hrun).
    rewrite Hrun. cbn [log_of log io_start app reads_of flat_map].
    constructor; [| constructor].
    unfold aligned, DISK_BLOCK_BYTES. cbn [fst snd].
    rewrite Esp. unfold idx1. cbn [fst snd].
    rewrite mul_div4 by assumption. rewrite Eds, Ecb. split.
    + replace (4096 * (p2 / bz) * (p1 / 4) * (il_id / 4))
        with (4096 * ((p2 / bz) * (p1 / 4) * (il_id / 4))) by ring.
      apply Hmul.
    + replace (4096 * (p2 / bz) * p1) with (4096 * ((p2 / bz) * p1)) by ring.
      apply Hmul1.
  - destruct (read_crossline_run file V decompress self xl_id io_start W C Hxl)
      as (a & p & _ & Hrun).
    rewrite Hrun. cbn [log_of log io_start app].
    rewrite reads_of_app, reads_of_reads. cbn [reads_of flat_map].
    rewrite app_nil_r. apply Forall_map, Forall_forall. intros k _.
    unfold aligned, DISK_BLOCK_BYTES, crossline_offset. cbn [fst snd].
    rewrite Esp. unfold idx1. cbn [fst snd].
    rewrite mul_div4 by assumption. rewrite Eds, Ecb. split.
    + replace (4096 * header_blocks self + xl_id / 4 * (4096 * (p2 / bz))
               + k * (4096 * (p2 / bz) * (p1 / 4)))
        with (4096 * header_blocks self
              + 4096 * (xl_id / 4 * (p2 / bz)
                        + k * ((p2 / bz) * (p1 / 4)))) by ring.
      apply Hmul.
    + apply Hmul1.
Qed.
End Stateless.

Lemma read_crossline_accepts_padding_index_witness :
  exists a,
    value_of (read_crossline sample_file Z exact_size_decompress
                             sample_reader 7 io_start) = Ok a /\
    has_shape2 a (ilines sample_reader) (tracelength sample_reader).
Proof.
  refine (proj1 (read_crossline_accepts_padding_index
                   sample_file Z exact_size_decompress sample_reader 7
                   io_start _ sample_file_opens exact_size_sized_ok
                   sample_file_complete _)).
  vm_compute. split; [discriminate | reflexivity].
Defined.

Lemma reads_are_block_aligned_witness :
  Forall (fun r : Z * Z =>
            fst r mod DISK_BLOCK_BYTES = 0 /\ snd r mod DISK_BLOCK_BYTES = 0)
         (reads_of (log_of (read_crossline sample_file Z first_byte_decompress
                                           sample_reader 5 io_start))).
Proof.
  refine (proj2 (reads_are_block_aligned
                   sample_file Z first_byte_decompress sample_reader 0 5
                   io_start _ sample_file_opens first_byte_shape_ok _ _));
    lia.
Defined.

(** ** utils.py, once more *)

Lemma byte_of_Z_low (b : byte) (k : Z) :
  byte_of_Z (Z.of_N (Byte.to_N b) + 256 * k) = b /\
  (Z.of_N (Byte.to_N b) + 256 * k) / 256 = k.
Proof.
  pose proof (N2Z.is_nonneg (Byte.to_N b)) as H0.
  pose proof (Byte.to_N_bounded b) as H1.
  assert (Hb : 0 <= Z.of_N (Byte.to_N b) < 256) by lia.
  split.
  - unfold byte_of_Z.
    replace (Z.of_N (Byte.to_N b) + 256 * k)
      with (Z.of_N (Byte.to_N b) + k * 256) by ring.
    rewrite Z_mod_plus_full, Z.mod_small by exact Hb.
    rewrite N2Z.id, Byte.of_to_N. reflexivity.
  - replace (Z.of_N (Byte.to_N b) + 256 * k)
      with (Z.of_N (Byte.to_N b) + k * 256) by ring.
    rewrite Z.div_add by lia. rewrite Z.div_small by exact Hb. lia.
Qed.

Lemma le_bytes_bytes_to_int (bs : bytes) :
  le_bytes (length bs) (bytes_to_int bs) = bs.
Proof.
  induction bs as [| b rest IH]; cbn [length le_bytes bytes_to_int];
    [reflexivity |].
  destruct (byte_of_Z_low b (bytes_to_int rest)) as [-> ->].
  now rewrite IH.
Qed.

(** X25: the encoder inverts the decoder: a value that [bytes_to_int] read
    from 4 bytes is encoded by [np_float_to_bytes] to the same 4 bytes, so
    a header field that is decoded and written back is unchanged. *)
Theorem np_float_to_bytes_inverts_bytes_to_int (F : Type)
    (astype_int : F -> Z) (numpy_float : F) (bs : bytes) :
  length bs = 4%nat ->
  astype_int numpy_float = bytes_to_int bs ->
  np_float_to_bytes F astype_int numpy_float = Some bs.
Proof.
  intros Hlen Hv. unfold np_float_to_bytes, int_to_bytes. rewrite Hv.
  pose proof (bytes_to_int_range bs) as Hr. rewrite Hlen in Hr.
  destruct (Z.ltb_spec (bytes_to_int bs) 0); [lia |].
  destruct (Z.leb_spec (256 ^ Z.of_nat 4) (bytes_to_int bs)); [lia |].
  cbn [orb]. f_equal. rewrite <- Hlen. apply le_bytes_bytes_to_int.
Qed.

Lemma np_float_to_bytes_inverts_bytes_to_int_witness :
  np_float_to_bytes Z (fun v => v) 250 = Some (le4 250).
Proof.
  apply (np_float_to_bytes_inverts_bytes_to_int Z (fun v => v) 250 (le4 250));
    reflexivity.
Defined.

Lemma floordiv_largest (budget d : Z) :
  0 < d ->
  exists c,
    py_floordiv budget d = Ok c /\ c * d <= budget < (c + 1) * d.
Proof.
  intros Hd. unfold py_floordiv.
  destruct (Z.eqb_spec d 0); [lia |].
  eexists. split; [reflexivity |].
  pose proof (Z_div_mod_eq_full budget d) as E.
  pose proof (Z.mod_pos_bound budget d Hd) as B.
  set (q := budget / d) in *.
  replace (q * d) with (d * q) by ring.
  replace ((q + 1) * d) with (d * q + d) by ring.
  lia.
Qed.

(** X26: with a positive rate and one extent of the block shape unknown
    (-1), the two others positive, [define_blockshape] keeps the rate and
    the known extents and resolves the unknown one to the largest extent at
    which the block fits the budget of 4096 * factor bits; the factor is
    taken from the shape as given, 2 when a known extent is 1 and 8
    otherwise. *)
Theorem define_blockshape_largest_extent (bits u v : Z) :
  0 < bits -> 0 < u -> 0 < v ->
  let factor := if (u =? 1) || (v =? 1) then 2 else 8 in
  (exists c,
     define_blockshape bits (-1, u, v) = Ok (bits, (c, u, v)) /\
     c * (u * v * bits) <= 4096 * factor < (c + 1) * (u * v * bits)) /\
  (exists c,
     define_blockshape bits (u, -1, v) = Ok (bits, (u, c, v)) /\
     c * (v * u * bits) <= 4096 * factor < (c + 1) * (v * u * bits)) /\
  (exists c,
     define_blockshape bits (u, v, -1) = Ok (bits, (u, v, c)) /\
     c * (u * v * bits) <= 4096 * factor < (c + 1) * (u * v * bits)).
Proof.
  intros Hb Hu Hv factor.
  assert (Huv : 0 < u * v * bits)
    by (apply Z.mul_pos_pos; [apply Z.mul_pos_pos |]; assumption).
  assert (Hvu : 0 < v * u * bits)
    by (apply Z.mul_pos_pos; [apply Z.mul_pos_pos |]; assumption).
  assert (Hb1 : (bits =? -1) = false) by (apply Z.eqb_neq; lia).
  assert (Hu1 : (u =? -1) = false) by (apply Z.eqb_neq; lia).
  assert (Hv1 : (v =? -1) = false) by (apply Z.eqb_neq; lia).
  unfold define_blockshape, is_2d, idx0, idx1, idx2. cbn [fst snd].
  rewrite Hb1, Hu1, Hv1.
  change (-1 =? 1) with false. change (-1 =? -1) with true.
  cbn [orb]. cbv iota.
  replace ((u =? 1) || false || (v =? 1)) with ((u =? 1) || (v =? 1))
    by (now rewrite orb_false_r).
  replace ((u =? 1) || (v =? 1) || false) with ((u =? 1) || (v =? 1))
    by (now rewrite orb_false_r).
  fold factor.
  split; [| split].
  - destruct (floordiv_largest (4096 * factor) (u * v * bits) Huv)
      as (c & -> & Hc).
    now exists c.
  - destruct (floordiv_largest (4096 * factor) (v * u * bits) Hvu)
      as (c & -> & Hc).
    now exists c.
  - destruct (floordiv_largest (4096 * factor) (u * v * bits) Huv)
      as (c & -> & Hc).
    now exists c.
Qed.

Lemma define_blockshape_largest_extent_witness :
  exists c,
    define_blockshape 8 (4, 4, -1) = Ok (8, (4, 4, c)) /\
    c * (4 * 4 * 8) <= 4096 * 8 < (c + 1) * (4 * 4 * 8).
Proof.
  refine (proj2 (proj2 (define_blockshape_largest_extent 8 4 4 _ _ _))); lia.
Defined.

(** ** read_crossline on a complete file, and on one that is cut *)

Section CrosslinePlan.
Variable file : bytes.
Variable V : Type.
Variable decompress : bytes -> Z * Z * Z -> Z -> list (list (list V)).

(** C6, for a complete file: [read_crossline] issues one read of
    [chunk_bytes] bytes for each of the [shape_pad[0] // 4] inline
    block-rows, the k-th at
    [data_start_bytes + (xl_id // 4) * chunk_bytes
     + k * (chunk_bytes * (shape_pad[1] // 4))], and decodes with shape
    ([shape_pad[0]], 4, [shape_pad[2]]) the buffer in which what was read is
    concatenated in the order of the plan, a buffer of exactly the size the
    shape needs. *)
Theorem read_crossline_plan (self : SzReader) (xl_id : Z)
    (s0 s1 : io_state) :
  SzReader_init (Some file) s0 = Ok (self, s1) ->
  codec_sized_ok decompress ->
  file_complete file self ->
  0 <= xl_id < xlines self ->
  let inline_blocks := idx0 (shape_pad self) / 4 in
  let crossline_blocks := idx1 (shape_pad self) / 4 in
  let plan :=
    map (fun k => (data_start_bytes self + (xl_id / 4) * chunk_bytes self
                   + k * (chunk_bytes self * crossline_blocks),
                   chunk_bytes self))
        (range inline_blocks) in
  let run := read_crossline file V decompress self xl_id io_start in
  (exists a, value_of run = Ok a) /\
  reads_of (log_of run) = plan /\
  Z.of_nat (length plan) = inline_blocks /\
  decoded_shapes (log_of run)
  = [(idx0 (shape_pad self), 4, idx2 (shape_pad self))] /\
  decoded_buffers (log_of run)
  = [concat (map (fun r => pread file (fst r) (snd r)) plan)].
Proof.
  intros Hinit C Hfile Hxl inline_blocks crossline_blocks plan run.
  pose proof (SzReader_init_wf _ _ _ _ Hinit) as W. clear Hinit.
  destruct (wf_facts self W)
    as (p0 & p1 & p2 & bz & Esp & Ebs & Ebz & Hbz & Hrt & Hbr & Eub & Ebb
        & Ecb & Hq & Hds & Hi & Hx & Ht & Hp0 & Hp0' & Hp1 & Hp1' & Hp2 & Hp2').
  assert (Hxl' : 0 <= xl_id < idx1 (shape_pad self)).
  { rewrite Esp. unfold idx1. cbn [fst snd]. lia. }
  destruct (read_crossline_run_sized file V decompress self xl_id io_start W C
              Hfile Hxl')
    as (a & p & Hshape & Hrun).
  destruct (crossline_buffer_slots file self xl_id W Hfile Hxl')
    as [Hbuf _].
  assert (Hoff : forall k,
             crossline_offset self xl_id k
             = data_start_bytes self + (xl_id / 4) * chunk_bytes self
               + k * (chunk_bytes self * crossline_blocks)).
  { intros k. unfold crossline_offset, crossline_blocks.
    rewrite Esp. unfold idx1. cbn [fst snd]. now rewrite mul_div4. }
  assert (Hib : 0 <= inline_blocks).
  { unfold inline_blocks. rewrite Esp. unfold idx0. cbn [fst snd].
    apply Z.div_pos; lia. }
  unfold run. rewrite Hrun. cbn [value_of log_of log io_start app].
  fold inline_blocks.
  rewrite reads_of_app, decoded_shapes_app, decoded_buffers_app.
  rewrite reads_of_reads, decoded_shapes_reads, decoded_buffers_reads.
  cbn [reads_of decoded_shapes decoded_buffers flat_map app].
  rewrite app_nil_r.
  split; [exists a; reflexivity |].
  split; [apply map_ext; intros k; now rewrite Hoff |].
  split; [unfold plan; rewrite length_map; now apply length_range |].
  split; [reflexivity |].
  f_equal. rewrite Hbuf. fold inline_blocks. f_equal.
  unfold plan. rewrite map_map. cbn [fst snd].
  apply map_ext. intros k. now rewrite Hoff.
Qed.
End CrosslinePlan.

(** C6, refuted for a file that is cut: on the sample file cut 904 bytes
    into its second chunk, which opens as the sample file does,
    [read_crossline(5)] reads 904 bytes in all, and the buffer it decodes is
    not what it read: the short reads have moved the slices, and the buffer
    is 4096 bytes long. *)
Lemma crossline_buffer_on_cut_file :
  value_of (SzReader_init (Some cut_in_chunk_file) io_start)
  = Ok sample_reader /\
  0 <= 5 < xlines sample_reader /\
  let run := read_crossline cut_in_chunk_file Z first_byte_decompress
                            sample_reader 5 io_start in
  reads_of (log_of run) = [(8192, 4096); (16384, 4096)] /\
  Z.of_nat (length (concat (map (fun r => pread cut_in_chunk_file
                                                (fst r) (snd r))
                                (reads_of (log_of run))))) = 904 /\
  map (fun b => Z.of_nat (length b)) (decoded_buffers (log_of run)) = [4096].
Proof.
  split; [vm_compute; reflexivity |].
  split; [vm_compute; split; [discriminate | reflexivity] |].
  cbv zeta.
  split; [vm_compute; reflexivity |].
  split; vm_compute; reflexivity.
Qed.

Lemma read_crossline_plan_witness :
  reads_of (log_of (read_crossline sample_file Z exact_size_decompress
                                   sample_reader 5 io_start))
  = map (fun k => (data_start_bytes sample_reader
                   + (5 / 4) * chunk_bytes sample_reader
                   + k * (chunk_bytes sample_reader
                          * (idx1 (shape_pad sample_reader) / 4)),
                   chunk_bytes sample_reader))
        (range (idx0 (shape_pad sample_reader) / 4)).
Proof.
  refine (proj1 (proj2 (read_crossline_plan sample_file Z exact_size_decompress
                          sample_reader 5 io_start _ sample_file_opens
                          exact_size_sized_ok sample_file_complete _))).
  vm_compute. split; [discriminate | reflexivity].
Defined.

(** ** The shapes of the returned arrays *)

Section LogicalShapes.
Variable file : bytes.
Variable V : Type.
Variable decompress : bytes -> Z * Z * Z -> Z -> list (list (list V)).


(** C1, as the code has it: no read checks its bounds, on a complete file.
    For every index below the padded inline count, below the inline count or
    not, [read_inline] returns row [il_id % 4] of what the codec decodes
    from the block-row [il_id // 4], trimmed, the codec returning the shape
    it is asked for; for every box with [0 <= lo <= hi] below the padded
    extents, empty or reaching into the padding, [read_subvolume] returns an
    array of [hi - lo] entries along each axis. *)
Theorem reads_do_not_check_bounds (self : SzReader) (s0 s1 : io_state) :
  SzReader_init (Some file) s0 = Ok (self, s1) ->
  file_complete file self ->
  (codec_shape_ok decompress ->
   forall il_id s, 0 <= il_id < idx0 (shape_pad self) ->
     exists plane,
       nth_error
         (decompress
            (pread file
                   (data_start_bytes self
                    + chunk_bytes self * idx1 (shape_pad self) / 4
                      * (il_id / 4))
                   (chunk_bytes self * idx1 (shape_pad self)))
            (4, idx1 (shape_pad self), idx2 (shape_pad self)) (rate self))
         (Z.to_nat (il_id mod 4)) = Some plane /\
       value_of (read_inline file V decompress self il_id s)
       = Ok (map (fun row => py_slice row 0 (tracelength self))
                 (py_slice plane 0 (xlines self))) /\
       has_shape2 (map (fun row => py_slice row 0 (tracelength self))
                       (py_slice plane 0 (xlines self)))
                  (xlines self) (tracelength self)) /\
  (4 <= idx2 (blockshape self) -> codec_sized_ok decompress ->
   forall min_il max_il min_xl max_xl min_z max_z s,
     0 <= min_il <= max_il -> max_il < idx0 (shape_pad self) ->
     0 <= min_xl <= max_xl -> max_xl < idx1 (shape_pad self) ->
     0 <= min_z <= max_z -> max_z < idx2 (shape_pad self) ->
     exists a,
       value_of (read_subvolume file V decompress self
                                min_il max_il min_xl max_xl min_z max_z s)
       = Ok a /\
       has_shape3 a (max_il - min_il, max_xl - min_xl, max_z - min_z)).
Proof.
  intros Hinit Hfile.
  pose proof (SzReader_init_wf _ _ _ _ Hinit) as W. clear Hinit.
  destruct (wf_facts self W)
    as (p0 & p1 & p2 & bz & Esp & Ebs & Ebz & Hbz & Hrt & Hbr & Eub & Ebb
        & Ecb & Hq & Hds & Hi & Hx & Ht & Hp0 & Hp0' & Hp1 & Hp1' & Hp2 & Hp2').
  split.
  - intros C il_id s Hil.
    destruct (read_inline_run file V decompress self il_id s W C
                ltac:(lia)) as (plane & p & Hnth & Hpl & Hrun).
    exists plane. split; [exact Hnth |].
    rewrite Hrun. split; [reflexivity |].
    eapply has_shape2_trim0; [exact Hpl | |];
      rewrite Esp; unfold idx1, idx2; cbn [fst snd]; lia.
  - intros Hbz4 C min_il max_il min_xl max_xl min_z max_z s
           Hil Hil1 Hxl Hxl1 Hz Hz1.
    destruct (units_cover min_il max_il) as [Hiu _]; try lia.
    destruct (units_cover min_xl max_xl) as [Hxu _]; try lia.
    destruct (units_cover min_z max_z) as [Hzu _]; try lia.
    apply read_subvolume_shape_shaped; try assumption.
    apply C; try (unfold idx0, idx1, idx2; cbn [fst snd]; lia).
    now apply subvolume_buffer_sized.
Qed.
End LogicalShapes.



Lemma reads_do_not_check_bounds_witness :
  exists plane,
    nth_error
      (first_byte_decompress
         (pread sample_file
                (data_start_bytes sample_reader
                 + chunk_bytes sample_reader
                   * idx1 (shape_pad sample_reader) / 4 * (5 / 4))
                (chunk_bytes sample_reader * idx1 (shape_pad sample_reader)))
         (4, idx1 (shape_pad sample_reader), idx2 (shape_pad sample_reader))
         (rate sample_reader))
      (Z.to_nat (5 mod 4)) = Some plane /\
    value_of (read_inline sample_file Z first_byte_decompress sample_reader
                          5 io_start)
    = Ok (map (fun row => py_slice row 0 (tracelength sample_reader))
              (py_slice plane 0 (xlines sample_reader))) /\
    has_shape2 (map (fun row => py_slice row 0 (tracelength sample_reader))
                    (py_slice plane 0 (xlines sample_reader)))
               (xlines sample_reader) (tracelength sample_reader).
Proof.
  destruct (reads_do_not_check_bounds sample_file Z first_byte_decompress
              sample_reader io_start _ sample_file_opens
              sample_file_complete) as [Hinline _].
  apply (Hinline first_byte_shape_ok 5 io_start).
  vm_compute. split; [discriminate | reflexivity].
Defined.

(** ** The check of the block size at open *)

(** C7, as the code has it, for a file that holds the header blocks it
    announces.  The code has no FormatError.  When the block size derived
    from the header's rate is not 4096 the open fails: with
    ZeroDivisionError, before the check is reached, when the rate is 0 or
    above 2048 (the block depth 2048 // rate is undefined or 0), and with
    the AssertionError of the check otherwise.  When the derived size is
    4096 the open returns a reader with the header's rate whose
    [block_bytes] is 4096. *)
Theorem init_checks_block_bytes (file : bytes) (s : io_state) :
  header_in_file file ->
  let rt := bytes_to_int (py_slice (header_buffer file) 40 44) in
  (derived_block_byte_size rt <> 4096 ->
   SzReader_init (Some file) s =
   Raise (if (rt =? 0) || (2048 / rt =? 0) then ZeroDivisionError
          else AssertionError)) /\
  (derived_block_byte_size rt = 4096 ->
   exists r s', SzReader_init (Some file) s = Ok (r, s') /\
                rate r = rt /\ block_bytes r = 4096).
Proof.
  intros _ rt. unfold derived_block_byte_size.
  destruct (SzReader_init_run file s) as [s1 Hrun]. fold rt in Hrun.
  rewrite Hrun. clear Hrun. split; intros Hd.
  - destruct (_ || _); [reflexivity |].
    destruct (Z.eqb_spec (4 * 4 * (2048 / rt) * rt / 8) DISK_BLOCK_BYTES)
      as [E | E]; [| reflexivity].
    unfold DISK_BLOCK_BYTES in E. contradiction.
  - destruct (Z.eqb_spec rt 0) as [E0 | E0].
    { rewrite E0 in Hd. discriminate Hd. }
    destruct (Z.eqb_spec (2048 / rt) 0) as [E1 | E1].
    { rewrite E1 in Hd. discriminate Hd. }
    cbn [orb].
    destruct (Z.eqb_spec (4 * 4 * (2048 / rt) * rt / 8) DISK_BLOCK_BYTES)
      as [E | E]; [| unfold DISK_BLOCK_BYTES in E; contradiction].
    eexists. exists s1. split; [reflexivity |].
    unfold layout_of. cbn [rate block_bytes]. split; [reflexivity | assumption].
Qed.

(** C7, refuted as worded: a header of one block with a bit rate of 0 has a
    derived block size that is not 4096, and the open does not fail on the
    check of the block size: it raises ZeroDivisionError on the division
    2048 // rate, two lines before the [assert]. *)
Lemma open_rate_zero_fails_before_the_check :
  header_in_file rate_zero_file /\
  bytes_to_int (py_slice (header_buffer rate_zero_file) 40 44) = 0 /\
  derived_block_byte_size 0 <> 4096 /\
  SzReader_init (Some rate_zero_file) io_start = Raise ZeroDivisionError /\
  SzReader_init (Some rate_zero_file) io_start <> Raise AssertionError.
Proof.
  split; [left; vm_compute; reflexivity |].
  split; [vm_compute; reflexivity |].
  split; [vm_compute; discriminate |].
  assert (E : SzReader_init (Some rate_zero_file) io_start
              = Raise ZeroDivisionError) by (vm_compute; reflexivity).
  split; [exact E |]. rewrite E. discriminate.
Qed.

Lemma init_checks_block_bytes_witness :
  exists r s',
    SzReader_init (Some sample_file) io_start = Ok (r, s') /\
    rate r = bytes_to_int (py_slice (header_buffer sample_file) 40 44) /\
    block_bytes r = 4096.
Proof.
  refine (proj2 (init_checks_block_bytes sample_file io_start _) _).
  - left. vm_compute. reflexivity.
  - vm_compute. reflexivity.
Defined.

(** ** The workers of read_zslice *)





Section GatherRuns.
Variable file : bytes.







End GatherRuns.

Section ZsliceGather.
Variable file : bytes.
Variable V : Type.
Variable decompress : bytes -> Z * Z * Z -> Z -> list (list (list V)).

End ZsliceGather.


